(** * browser_use.agent.uitars: the action parser and the element resolver

    A shallow embedding of [browser_use/agent/uitars/parser.py], of the
    records of [browser_use/agent/uitars/views.py] and, of
    [browser_use/agent/uitars/controller.py], of the functions that locate
    an element, of the membership test of the registry and of the regions
    that the controller remembers.

    Python [str] values are modelled by [string]; a character stands for the
    code point of the same number, so the model covers text whose code points
    are below 256.  Python [float] values are the binary64 numbers of
    [PrimFloat].  A raised exception is the [Raise] case of [result]. *)

From Stdlib Require Import ZArith List String Ascii Bool Lia.
From Stdlib Require Import Floats.PrimFloat Floats.SpecFloat Floats.FloatOps.
From Stdlib Require DecimalString.
Import ListNotations.
Open Scope string_scope.

(** ** Exceptions *)

Inductive exn : Type :=
| ValueError
| ZeroDivisionError
| IndexError
| OverflowError
| StopIteration
| TypeError
| AttributeError.

Inductive result (A : Type) : Type :=
| Ok (a : A)
| Raise (e : exn).

Arguments Ok {A} a.
Arguments Raise {A} e.

Definition bind {A B : Type} (m : result A) (k : A -> result B) : result B :=
  match m with
  | Ok a => k a
  | Raise e => Raise e
  end.

Notation "x <- m ;; k" := (bind m (fun x => k))
  (at level 61, m at next level, right associativity).

(** [[f(x) for x in l]], stopping at the first exception. *)
Fixpoint mapM {A B : Type} (f : A -> result B) (l : list A) : result (list B) :=
  match l with
  | [] => Ok []
  | a :: l' => b <- f a ;; bs <- mapM f l' ;; Ok (b :: bs)
  end.

Lemma Ok_inj {A : Type} (a b : A) : Ok a = Ok b -> a = b.
Proof. intros H. injection H as H. exact H. Qed.

(** ** The [str] builtins the parser uses *)

Module Py.

Definition code (c : ascii) : nat := nat_of_ascii c.

Definition between (lo hi : nat) (c : ascii) : bool :=
  (lo <=? code c)%nat && (code c <=? hi)%nat.

(** [str.isspace] on one character, which is also the class [\s] of [re]:
    TAB..CR, FS..US, space, NEL and the no-break space. *)
Definition isspace (c : ascii) : bool :=
  between 9 13 c || between 28 32 c || (code c =? 133)%nat || (code c =? 160)%nat.

Definition isdigit (c : ascii) : bool := between 48 57 c.

(** [str.isalnum] on one character below 256: the ASCII letters and digits,
    the superscript digits, the vulgar fractions, the ordinal indicators, the
    micro sign and the accented letters. *)
Definition isalnum (c : ascii) : bool :=
  isdigit c || between 65 90 c || between 97 122 c
  || (code c =? 170)%nat || between 178 179 c || (code c =? 181)%nat
  || between 185 186 c || between 188 190 c
  || between 192 214 c || between 216 246 c || between 248 255 c.

(** The class [\w] of [re] on [str] patterns. *)
Definition isword (c : ascii) : bool := isalnum c || Ascii.eqb c "_".

Definition newline : ascii := "010"%char.
Definition nl : string := String newline "".

Fixpoint mem (c : ascii) (chars : string) : bool :=
  match chars with
  | "" => false
  | String d chars' => Ascii.eqb c d || mem c chars'
  end.

Definition is_empty (s : string) : bool :=
  match s with
  | "" => true
  | String _ _ => false
  end.

Fixpoint lstrip_with (p : ascii -> bool) (s : string) : string :=
  match s with
  | "" => ""
  | String c s' => if p c then lstrip_with p s' else s
  end.

Fixpoint rstrip_with (p : ascii -> bool) (s : string) : string :=
  match s with
  | "" => ""
  | String c s' =>
      let r := rstrip_with p s' in
      if is_empty r && p c then "" else String c r
  end.

Definition strip_with (p : ascii -> bool) (s : string) : string :=
  lstrip_with p (rstrip_with p s).

(** [s.strip()], [s.lstrip()] and [s.strip(chars)]. *)
Definition strip (s : string) : string := strip_with isspace s.
Definition lstrip (s : string) : string := lstrip_with isspace s.
Definition strip_chars (chars s : string) : string :=
  strip_with (fun c => mem c chars) s.

(** [s.startswith(p)]. *)
Definition startswith (p s : string) : bool := String.prefix p s.

(** [sub in s]. *)
Fixpoint contains (sub s : string) : bool :=
  String.prefix sub s
  || match s with
     | "" => false
     | String _ s' => contains sub s'
     end.

Fixpoint drop (n : nat) (s : string) : string :=
  match n, s with
  | O, _ => s
  | S _, "" => ""
  | S k, String _ s' => drop k s'
  end.

Fixpoint take_while (p : ascii -> bool) (s : string) : string :=
  match s with
  | "" => ""
  | String c s' => if p c then String c (take_while p s') else ""
  end.

(** [s.split(sep)] for a non-empty [sep]: the occurrences of [sep] are found
    from the left and do not overlap.  [skip] counts the characters of the
    separator still to pass; the result is the piece being read and the
    pieces after it. *)
Fixpoint split_go (sep : string) (skip : nat) (s : string)
  : string * list string :=
  match s with
  | "" => ("", [])
  | String c s' =>
      match skip with
      | S k => split_go sep k s'
      | O =>
          if String.prefix sep s
          then let '(p, ps) := split_go sep (String.length sep - 1) s' in
               ("", p :: ps)
          else let '(p, ps) := split_go sep 0 s' in
               (String c p, ps)
      end
  end.

Definition split (sep s : string) : list string :=
  let '(p, ps) := split_go sep 0 s in p :: ps.

(** [s.split(sep, 1)] for a one-character [sep]. *)
Fixpoint partition1 (sep : ascii) (s : string) : option (string * string) :=
  match s with
  | "" => None
  | String c s' =>
      if Ascii.eqb c sep then Some ("", s')
      else match partition1 sep s' with
           | Some (a, b) => Some (String c a, b)
           | None => None
           end
  end.

Definition split1 (sep : ascii) (s : string) : list string :=
  match partition1 sep s with
  | Some (a, b) => [a; b]
  | None => [s]
  end.

(** [s.replace(old, new)] for a non-empty [old]. *)
Fixpoint replace_go (old new : string) (skip : nat) (s : string) : string :=
  match s with
  | "" => ""
  | String c s' =>
      match skip with
      | S k => replace_go old new k s'
      | O =>
          if String.prefix old s
          then new ++ replace_go old new (String.length old - 1) s'
          else String c (replace_go old new 0 s')
      end
  end.

Definition replace (old new s : string) : string := replace_go old new 0 s.

End Py.

(** ** Regular expressions of the parser

    Each pattern of [parser.py] is written out as the matcher the [re] engine
    runs for it: alternatives are tried from the left, a greedy repeat takes
    the longest run that lets the rest of the pattern match, a lazy one the
    shortest.  In the comments DQ stands for the double-quote character and
    BS for the backslash, and a blank inside a pattern is not part of it. *)

Module Re.
Import Py.

Definition squote : ascii := "039"%char.
Definition dquote : ascii := "034"%char.
Definition backslash : ascii := "092"%char.

Definition is_quote (c : ascii) : bool := Ascii.eqb c squote || Ascii.eqb c dquote.

(** [re.sub(pattern, '', s)] for a pattern that matches no empty string:
    [m s] is the length of the match of the pattern at the head of [s].
    [skip] counts the characters of the current match still to drop. *)
Fixpoint sub_del (m : string -> option nat) (skip : nat) (s : string) : string :=
  match s with
  | "" => ""
  | String c s' =>
      match skip with
      | S k => sub_del m k s'
      | O =>
          match m s with
          | Some (S k) => sub_del m k s'
          | _ => String c (sub_del m 0 s')
          end
      end
  end.

(** [(\s|BSn)*]: the length of the longest run of white space and of
    two-character sequences backslash, n. *)
Fixpoint ws_or_escaped_nl (s : string) : nat :=
  match s with
  | "" => 0
  | String c s' =>
      if isspace c then S (ws_or_escaped_nl s')
      else if Ascii.eqb c backslash then
        match s' with
        | String d s'' =>
            if Ascii.eqb d "n" then S (S (ws_or_escaped_nl s'')) else 0
        | "" => 0
        end
      else 0
  end.

(** [['DQ]=['DQ](\s|BSn)*] *)
Definition quoted_equals (s : string) : option nat :=
  match s with
  | String q1 (String e (String q2 r)) =>
      if is_quote q1 && Ascii.eqb e "=" && is_quote q2
      then Some (3 + ws_or_escaped_nl r)
      else None
  | _ => None
  end.

(** [BS['DQ]=BS['DQ](\s|BSn)*] *)
Definition escaped_quoted_equals (s : string) : option nat :=
  match s with
  | String b1 (String q1 (String e (String b2 (String q2 r)))) =>
      if Ascii.eqb b1 backslash && is_quote q1 && Ascii.eqb e "="
         && Ascii.eqb b2 backslash && is_quote q2
      then Some (5 + ws_or_escaped_nl r)
      else None
  | _ => None
  end.

(** The text before the first [q] of [s], when [s] holds a [q]. *)
Fixpoint until_char (q : ascii) (s : string) : option string :=
  match s with
  | "" => None
  | String c s' =>
      if Ascii.eqb c q then Some ""
      else match until_char q s' with
           | Some t => Some (String c t)
           | None => None
           end
  end.

(** The prefix of [s] that ends at the last [q] of [s], when [s] holds a [q]. *)
Fixpoint upto_last (q : ascii) (s : string) : option string :=
  match s with
  | "" => None
  | String c s' =>
      match upto_last q s' with
      | Some t => Some (String c t)
      | None => if Ascii.eqb c q then Some (String c "") else None
      end
  end.

Definition not_newline (c : ascii) : bool := negb (Ascii.eqb c newline).

(** The five groups of one match of the argument pattern; a group that took
    no part in the match is the empty string, as [re.findall] reports it. *)
Definition groups : Type := (string * string * string * string * string)%type.

(** [(\w+)=(?:'([^']* )'|DQ([^DQ]* )DQ|(\(.*\))|([^,\s]+))] at the head of [s]:
    the groups and the length of the match. *)
Definition arg_pattern (s : string) : option (groups * nat) :=
  let w := take_while isword s in
  if is_empty w then None else
  match drop (String.length w) s with
  | String e v =>
      if negb (Ascii.eqb e "=") then None else
      let quoted (q : ascii) : option string :=
        match v with
        | String c r => if Ascii.eqb c q then until_char q r else None
        | "" => None
        end in
      let parenthesized : option string :=
        match v with
        | String c r =>
            if Ascii.eqb c "("
            then match upto_last ")" (take_while not_newline r) with
                 | Some t => Some (String c t)
                 | None => None
                 end
            else None
        | "" => None
        end in
      let bare := take_while (fun c => negb (Ascii.eqb c "," || isspace c)) v in
      let n := String.length w + 1 in
      match quoted squote with
      | Some g2 => Some ((w, g2, "", "", ""), n + String.length g2 + 2)
      | None =>
      match quoted dquote with
      | Some g3 => Some ((w, "", g3, "", ""), n + String.length g3 + 2)
      | None =>
      match parenthesized with
      | Some g4 => Some ((w, "", "", g4, ""), n + String.length g4)
      | None =>
          if is_empty bare then None
          else Some ((w, "", "", "", bare), n + String.length bare)
      end end end
  | "" => None
  end.

(** [re.findall] of the argument pattern: the matches from the left, each
    search starting where the match before it ended. *)
Fixpoint findall_args (skip : nat) (s : string) : list groups :=
  match s with
  | "" => []
  | String _ s' =>
      match skip with
      | S k => findall_args k s'
      | O =>
          match arg_pattern s with
          | Some (g, S k) => g :: findall_args k s'
          | _ => findall_args 0 s'
          end
      end
  end.

(** [re.match] of [^(\w+)\((.* )\)$]: the two groups.  [$] stands at the end of
    the text or before a newline that ends it; [.] is any character but the
    newline. *)
Definition function_call (s : string) : option (string * string) :=
  let w := take_while isword s in
  if is_empty w then None else
  match drop (String.length w) s with
  | String c r =>
      if negb (Ascii.eqb c "(") then None else
      let line := take_while not_newline r in
      let rest := drop (String.length line) r in
      if is_empty rest || String.eqb rest nl then
        match upto_last ")" line with
        | Some t =>
            if String.eqb t line
            then Some (w, String.substring 0 (String.length line - 1) line)
            else None
        | None => None
        end
      else None
  | "" => None
  end.

(** The lookahead [(?=\s*Action:|$)]. *)
Definition at_action_or_end (s : string) : bool :=
  startswith "Action:" (lstrip s) || is_empty s || String.eqb s nl.

(** The rest of a lazy group [[\s\S]+?] before that lookahead, after the
    first character of the group: the shortest text that reaches a place
    where the lookahead holds. *)
Fixpoint lazy_any (s : string) : string :=
  if at_action_or_end s then ""
  else match s with
       | "" => ""
       | String c s' => String c (lazy_any s')
       end.

(** The same for [.+?], which passes no newline. *)
Fixpoint lazy_dot (s : string) : option string :=
  if at_action_or_end s then Some ""
  else match s with
       | "" => None
       | String c s' =>
           if Ascii.eqb c newline then None
           else match lazy_dot s' with
                | Some t => Some (String c t)
                | None => None
                end
       end.

(** [re.search] of [Thought: ([\s\S]+?)(?=\s*Action:|$)]: group 1. *)
Fixpoint search_thought (s : string) : option string :=
  match s with
  | "" => None
  | String _ s' =>
      if String.prefix "Thought: " s then
        match drop (String.length "Thought: ") s with
        | String c r => Some (String c (lazy_any r))
        | "" => search_thought s'
        end
      else search_thought s'
  end.

(** [([\s\S]+?)Action_Summary: ([\s\S]+?)(?=\s*Action:|$)] after the first
    character of group 1: the rest of group 1, and group 2. *)
Fixpoint lazy_reflection (s : string) : option (string * string) :=
  let here :=
    if String.prefix "Action_Summary: " s then
      match drop (String.length "Action_Summary: ") s with
      | String c r => Some ("", String c (lazy_any r))
      | "" => None
      end
    else None in
  match here with
  | Some g => Some g
  | None =>
      match s with
      | "" => None
      | String c s' =>
          match lazy_reflection s' with
          | Some (g1, g2) => Some (String c g1, g2)
          | None => None
          end
      end
  end.

(** [re.search] of
    [Reflection: ([\s\S]+?)Action_Summary: ([\s\S]+?)(?=\s*Action:|$)]:
    groups 1 and 2. *)
Fixpoint search_reflection (s : string) : option (string * string) :=
  match s with
  | "" => None
  | String _ s' =>
      let here :=
        if String.prefix "Reflection: " s then
          match drop (String.length "Reflection: ") s with
          | String c r =>
              match lazy_reflection r with
              | Some (g1, g2) => Some (String c g1, g2)
              | None => None
              end
          | "" => None
          end
        else None in
      match here with
      | Some g => Some g
      | None => search_reflection s'
      end
  end.

(** [re.search] of [Action_Summary: (.+?)(?=\s*Action:|$)]: group 1. *)
Fixpoint search_summary (s : string) : option string :=
  match s with
  | "" => None
  | String _ s' =>
      let here :=
        if String.prefix "Action_Summary: " s then
          match drop (String.length "Action_Summary: ") s with
          | String c r =>
              if Ascii.eqb c newline then None
              else match lazy_dot r with
                   | Some t => Some (String c t)
                   | None => None
                   end
          | "" => None
          end
        else None in
      match here with
      | Some g => Some g
      | None => search_summary s'
      end
  end.

(** [[()[\]]]: one bracket or parenthesis. *)
Definition bracket (s : string) : option nat :=
  match s with
  | String c _ => if mem c "()[]" then Some 1 else None
  | "" => None
  end.

End Re.

Import Py Re.

(** ** Dictionaries *)

(** A [dict] with [str] keys: the items in insertion order. *)
Definition dict (V : Type) : Type := list (string * V).

(** [d[k] = v]: an existing key keeps its place. *)
Fixpoint dict_set {V : Type} (k : string) (v : V) (d : dict V) : dict V :=
  match d with
  | [] => [(k, v)]
  | (k', v') :: d' =>
      if String.eqb k' k then (k', v) :: d' else (k', v') :: dict_set k v d'
  end.

(** [d.get(k)]. *)
Fixpoint dict_get {V : Type} (k : string) (d : dict V) : option V :=
  match d with
  | [] => None
  | (k', v) :: d' => if String.eqb k' k then Some v else dict_get k d'
  end.

(** ** parser.py: the argument tokenizer and the action parser *)

(** [next(v for v in match[1:] if v)]: the first group after the key that is
    not empty; [StopIteration] when all four are empty. *)
Definition first_nonempty (g : groups) : result string :=
  let '(_, g2, g3, g4, g5) := g in
  match find (fun v => negb (is_empty v)) [g2; g3; g4; g5] with
  | Some v => Ok v
  | None => Raise StopIteration
  end.

Definition parse_action_args_pair (args_str : string) : result (list string) :=
  let args_str := sub_del quoted_equals 0 args_str in
  let args_str := sub_del escaped_quoted_equals 0 args_str in
  let matches := findall_args 0 args_str in
  mapM (fun m : groups =>
          let '(key, _, _, _, _) := m in
          value <- first_nonempty m ;;
          Ok (key ++ "=" ++ value))
       matches.

(** The characters of [strip('\'DQ')]. *)
Definition quote_chars : string := String squote (String dquote "").

(** The value of one pair: trimmed, the surrounding quotes removed, and a
    [<bbox>] value rewritten as a tuple. *)
Definition clean_value (parts : list string) : string :=
  let value := match parts with
               | _ :: p1 :: _ => strip p1
               | _ => ""
               end in
  let value := strip_chars quote_chars value in
  if contains "<bbox>" value
  then "(" ++ replace " " "," (replace "</bbox>" "" (replace "<bbox>" "" value)) ++ ")"
  else value.

(** The loop over [arg_pairs] of [parse_action]. *)
Fixpoint parse_pairs (arg_pairs : list string) (kwargs : dict string) : dict string :=
  match arg_pairs with
  | [] => kwargs
  | pair_str :: rest =>
      let parts := split1 "=" pair_str in
      let p0 := hd "" parts in
      if is_empty p0 then parse_pairs rest kwargs
      else parse_pairs rest (dict_set (strip p0) (clean_value parts) kwargs)
  end.

(** The body of the [try] of [parse_action]. *)
Definition parse_action_body (action_str : string) : result (string * dict string) :=
  match function_call (strip action_str) with
  | None => Raise ValueError
  | Some (function_name, args_str) =>
      if is_empty (strip args_str) then Ok (function_name, [])
      else
        arg_pairs <- parse_action_args_pair args_str ;;
        Ok (function_name, parse_pairs arg_pairs [])
  end.

(** [parse_action]: every exception of the body is caught and gives [None];
    the message it prints is not part of the model. *)
Definition parse_action (action_str : string) : option (string * dict string) :=
  match parse_action_body action_str with
  | Ok r => Some r
  | Raise _ => None
  end.


(** ** Numbers: the [float] builtins the parser uses *)

Module PyFloat.
Open Scope float_scope.

(** The truth value of a number: false for both zeros, true for a NaN. *)
Definition truthy (x : float) : bool := negb (x =? 0).

(** [x / y]. *)
Definition div (x y : float) : result float :=
  if y =? 0 then Raise ZeroDivisionError else Ok (x / y).

(** The number nearest to [m * 2^e], ties to even. *)
Definition of_Z_pow2 (m e : Z) (negative_zero : bool) : float :=
  SF2Prim (binary_normalize prec emax m e negative_zero).

(** The conversion of an [int] operand of [/]; an [int] that [round] gave is
    the integer value of a [float], so the conversion is exact. *)
Definition of_int (n : Z) : float := of_Z_pow2 n 0 false.

(** [round(x)]: the nearest integer, ties to even. *)
Definition round (x : float) : result Z :=
  match Prim2SF x with
  | S754_nan => Raise ValueError
  | S754_infinity _ => Raise OverflowError
  | S754_zero _ => Ok 0%Z
  | S754_finite s m e =>
      let n :=
        if (0 <=? e)%Z then (Zpos m * 2 ^ e)%Z
        else
          let d := (2 ^ (- e))%Z in
          let q := (Zpos m / d)%Z in
          let r := (Zpos m mod d)%Z in
          match (2 * r ?= d)%Z with
          | Lt => q
          | Gt => (q + 1)%Z
          | Eq => if Z.even q then q else (q + 1)%Z
          end in
      Ok (if s then (- n)%Z else n)
  end.

(** The number nearest to [m * 10^e] for [0 <= m], ties to even, with the
    sign [neg].  For a negative [e] the quotient is cut after more than 54
    bits and a last bit records whether the division left a rest, which
    rounds as the exact quotient does. *)
Definition of_decimal (neg : bool) (m e : Z) : float :=
  let sgn (z : Z) := if neg then (- z)%Z else z in
  if (0 <=? e)%Z then of_Z_pow2 (sgn (m * 10 ^ e)%Z) 0 neg
  else
    let d := (10 ^ (- e))%Z in
    let s := Z.max 0 (Z.log2 d + 56 - Z.log2 m)%Z in
    let n := (m * 2 ^ s)%Z in
    let sticky := if (n mod d =? 0)%Z then 0%Z else 1%Z in
    of_Z_pow2 (sgn (2 * (n / d) + sticky)%Z) (- s - 1) neg.

(** The white space [float] strips: the ASCII one, NEL and the no-break
    space. *)
Definition float_space (c : ascii) : bool :=
  Py.between 9 13 c || (Py.code c =? 32)%nat
  || (Py.code c =? 133)%nat || (Py.code c =? 160)%nat.

(** [(["_"] digit)*]: the digits, and the text after them. *)
Fixpoint digits_tail (s : string) : string * string :=
  match s with
  | "" => (""%string, ""%string)
  | String c s' =>
      if Py.isdigit c then
        let '(d, r) := digits_tail s' in (String c d, r)
      else if Ascii.eqb c "_" then
        match s' with
        | String c2 s'' =>
            if Py.isdigit c2 then
              let '(d, r) := digits_tail s'' in (String c2 d, r)
            else (""%string, s)
        | "" => (""%string, s)
        end
      else (""%string, s)
  end.

(** [digitpart], when the text starts with one. *)
Definition digitpart (s : string) : option (string * string) :=
  match s with
  | String c s' =>
      if Py.isdigit c
      then let '(d, r) := digits_tail s' in Some (String c d, r)
      else None
  | "" => None
  end.

Definition digit_value (c : ascii) : Z := Z.of_nat (Py.code c - 48).

Fixpoint digits_value (acc : Z) (s : string) : Z :=
  match s with
  | "" => acc
  | String c s' => digits_value (10 * acc + digit_value c)%Z s'
  end.

Definition lower (c : ascii) : ascii :=
  if Py.between 65 90 c then ascii_of_nat (Py.code c + 32) else c.

Fixpoint lowercase (s : string) : string :=
  match s with
  | "" => ""%string
  | String c s' => String (lower c) (lowercase s')
  end.

(** An optional sign: whether it is a minus, and the text after it. *)
Definition sign (s : string) : bool * string :=
  match s with
  | String c s' =>
      if Ascii.eqb c "-" then (true, s')
      else if Ascii.eqb c "+" then (false, s')
      else (false, s)
  | "" => (false, s)
  end.

(** [exponent], optional: its value and the text after it; [None] when an
    exponent mark is there with no digits. *)
Definition exponent (s : string) : option (Z * string) :=
  match s with
  | String c s' =>
      if Ascii.eqb (lower c) "e" then
        let '(neg, s1) := sign s' in
        match digitpart s1 with
        | Some (d, r) =>
            let v := digits_value 0 d in
            Some (if neg then (- v)%Z else v, r)
        | None => None
        end
      else Some (0%Z, s)
  | "" => Some (0%Z, s)
  end.

(** [floatnumber]: the digits as an integer and the power of ten. *)
Definition floatnumber (s : string) : option (Z * Z) :=
  let '(ip, s1) := match digitpart s with
                   | Some (d, r) => (d, r)
                   | None => (""%string, s)
                   end in
  let point := match s1 with
               | String c s2 =>
                   if Ascii.eqb c "." then
                     match digitpart s2 with
                     | Some (d, r) => Some (d, r)
                     | None => if Py.is_empty ip then None else Some (""%string, s2)
                     end
                   else if Py.is_empty ip then None else Some (""%string, s1)
               | "" => if Py.is_empty ip then None else Some (""%string, s1)
               end in
  match point with
  | None => None
  | Some (fp, s3) =>
      match exponent s3 with
      | Some (e, "") =>
          Some (digits_value 0 (ip ++ fp),
                (e - Z.of_nat (String.length fp))%Z)
      | _ => None
      end
  end.

(** [float(s)] *)
Definition of_string (s : string) : result float :=
  let '(neg, body) := sign (Py.strip_with float_space s) in
  let word := lowercase body in
  if String.eqb word "inf" || String.eqb word "infinity"
  then Ok (if neg then neg_infinity else infinity)
  else if String.eqb word "nan" then Ok nan
  else match floatnumber body with
       | Some (m, e) => Ok (of_decimal neg m e)
       | None => Raise ValueError
       end.

End PyFloat.

(** ** views.py *)

(** What an attribute of [ActionInputs] holds after a parse: a [str], the
    [str] that [json.dumps] writes for a list of numbers (kept as the list it
    encodes), or a list of numbers. *)
Inductive value : Type :=
| Str (s : string)
| Json (numbers : list float)
| Floats (numbers : list float).

(** The data class [ActionInputs]: its eight fields, [None] by default, and
    [other] for the attributes of any other name that [setattr] adds to the
    instance. *)
Record ActionInputs : Type := {
  content : option value;
  start_box : option value;
  end_box : option value;
  key : option value;
  hotkey : option value;
  direction : option value;
  start_coords : option value;
  end_coords : option value;
  other : dict value
}.

(** [ActionInputs()] *)
Definition default_inputs : ActionInputs :=
  {| content := None; start_box := None; end_box := None; key := None;
     hotkey := None; direction := None; start_coords := None;
     end_coords := None; other := [] |}.

(** [setattr(a, name, v)].  An instance refuses three names: [__class__]
    and [__dict__] take no [str] or list, [__weakref__] is not writable. *)
Definition setattr (a : ActionInputs) (name : string) (v : value)
  : result ActionInputs :=
  let set (content' start_box' end_box' key' hotkey' direction'
           start_coords' end_coords' : option value) (other' : dict value) :=
    Ok {| content := content'; start_box := start_box'; end_box := end_box';
          key := key'; hotkey := hotkey'; direction := direction';
          start_coords := start_coords'; end_coords := end_coords';
          other := other' |} in
  let '{| content := c; start_box := sb; end_box := eb; key := k;
          hotkey := h; direction := d; start_coords := sc;
          end_coords := ec; other := o |} := a in
  if String.eqb name "content" then set (Some v) sb eb k h d sc ec o
  else if String.eqb name "start_box" then set c (Some v) eb k h d sc ec o
  else if String.eqb name "end_box" then set c sb (Some v) k h d sc ec o
  else if String.eqb name "key" then set c sb eb (Some v) h d sc ec o
  else if String.eqb name "hotkey" then set c sb eb k (Some v) d sc ec o
  else if String.eqb name "direction" then set c sb eb k h (Some v) sc ec o
  else if String.eqb name "start_coords" then set c sb eb k h d (Some v) ec o
  else if String.eqb name "end_coords" then set c sb eb k h d sc (Some v) o
  else if String.eqb name "__class__" || String.eqb name "__dict__"
  then Raise TypeError
  else if String.eqb name "__weakref__" then Raise AttributeError
  else set c sb eb k h d sc ec (dict_set name v o).

(** The data class [PredictionParsed]. *)
Record PredictionParsed : Type := {
  action_inputs : ActionInputs;
  action_type : string;
  thought : string;
  reflection : option string
}.

(** ** parser.py: the prediction parser *)

Section PredictionParser.

(** The arguments of [parse_action_vlm] after the text. *)
Variable factors : float * float.
Variable screen_context : option (dict float).
Variable scale_factor : option float.

(** [screen_context and screen_context.get('width') and
    screen_context.get('height')] as a truth value. *)
Definition has_screen : bool :=
  match screen_context with
  | None => false
  | Some ctx =>
      match ctx with
      | [] => false
      | _ :: _ =>
          match dict_get "width" ctx, dict_get "height" ctx with
          | Some w, Some h => PyFloat.truthy w && PyFloat.truthy h
          | _, _ => false
          end
      end
  end.

(** [screen_context[k]] where [has_screen] holds. *)
Definition screen (k : string) : float :=
  match screen_context with
  | Some ctx => match dict_get k ctx with
                | Some x => x
                | None => 0%float
                end
  | None => 0%float
  end.

(** [scale_factor or 1] *)
Definition scale : float :=
  match scale_factor with
  | Some s => if PyFloat.truthy s then s else 1%float
  | None => 1%float
  end.

(** [[n for n in re.sub(r'[()[\]]', '', ori_box).split(',') if n]] *)
Definition box_numbers (ori_box : string) : list string :=
  filter (fun n => negb (is_empty n)) (split "," (sub_del bracket 0 ori_box)).

(** [[float(num) / factors[idx % 2] for idx, num in enumerate(numbers)]],
    from index [idx] on. *)
Fixpoint normalize (idx : nat) (numbers : list string) : result (list float) :=
  match numbers with
  | [] => Ok []
  | num :: rest =>
      x <- PyFloat.of_string num ;;
      y <- PyFloat.div x (if Nat.even idx then fst factors else snd factors) ;;
      ys <- normalize (S idx) rest ;;
      Ok (y :: ys)
  end.

(** The two-element case: [float_numbers.extend([float_numbers[0],
    float_numbers[1]])]. *)
Definition extend_point (float_numbers : list float) : list float :=
  match float_numbers with
  | [x; y] => [x; y; x; y]
  | _ => float_numbers
  end.

(** [l[i]] *)
Definition index (l : list float) (i : nat) : result float :=
  match nth_error l i with
  | Some x => Ok x
  | None => Raise IndexError
  end.

(** [isinstance(n, (int, float))] for a number of the list. *)
Definition is_number (n : float) : bool := true.

(** [(round(((a + b) / 2) * dim * factor) / factor) * (scale_factor or 1)] *)
Definition to_pixels (a b dim factor : float) : result float :=
  r <- PyFloat.round ((((a + b) / 2) * dim) * factor)%float ;;
  d <- PyFloat.div (PyFloat.of_int r) factor ;;
  Ok (d * scale)%float.

(** The body of [if screen_context and ...]. *)
Definition set_coords (param_name : string) (float_numbers : list float)
    (a : ActionInputs) : result ActionInputs :=
  let box_key := if contains "start_box" param_name
                 then "start_coords" else "end_coords" in
  x1 <- index float_numbers 0 ;;
  y1 <- index float_numbers 1 ;;
  x2 <- (if (2 <? List.length float_numbers)%nat
         then index float_numbers 2 else Ok x1) ;;
  y2 <- (if (3 <? List.length float_numbers)%nat
         then index float_numbers 3 else Ok y1) ;;
  let '(width_factor, height_factor) := factors in
  if forallb is_number [x1; y1; x2; y2] then
    cx <- to_pixels x1 x2 (screen "width") width_factor ;;
    cy <- to_pixels y1 y2 (screen "height") height_factor ;;
    setattr a box_key (Floats [cx; cy])
  else setattr a box_key (Floats []).

(** The body of [if 'start_box' in param_name or 'end_box' in param_name]. *)
Definition set_box (param_name trimmed_param : string) (a : ActionInputs)
  : result ActionInputs :=
  let numbers := box_numbers trimmed_param in
  float_numbers <- normalize 0 numbers ;;
  let float_numbers := extend_point float_numbers in
  a <- setattr a (strip param_name) (Json float_numbers) ;;
  if has_screen then set_coords param_name float_numbers a else Ok a.

(** The loop [for param_name, param in params.items()]. *)
Fixpoint set_params (params : dict string) (a : ActionInputs)
  : result ActionInputs :=
  match params with
  | [] => Ok a
  | (param_name, param) :: rest =>
      if is_empty param then set_params rest a
      else
        let trimmed_param := strip param in
        a <- setattr a (strip param_name) (Str trimmed_param) ;;
        a <- (if contains "start_box" param_name || contains "end_box" param_name
              then set_box param_name trimmed_param a
              else Ok a) ;;
        set_params rest a
  end.

(** The reflection and the thought of a trimmed response. *)
Definition reflection_and_thought (text : string)
  : option string * option string :=
  if startswith "Thought:" text then
    match search_thought text with
    | Some g1 => (None, Some (strip g1))
    | None => (None, None)
    end
  else if startswith "Reflection:" text then
    match search_reflection text with
    | Some (g1, g2) => (Some (strip g1), Some (strip g2))
    | None => (None, None)
    end
  else if startswith "Action_Summary:" text then
    match search_summary text with
    | Some g1 => (None, Some (strip g1))
    | None => (None, None)
    end
  else (None, None).

(** The action part of a trimmed response. *)
Definition action_part (text : string) : string :=
  if negb (contains "Action:" text) then text
  else last (split "Action:" text) "".

(** [all_actions] *)
Definition all_actions (text : string) : list string :=
  split (nl ++ nl) (action_part (strip text)).

(** The argument of [parse_action] in the loop:
    [raw_str.replace('\n', r'\n').lstrip()]. *)
Definition prepare (raw_str : string) : string :=
  lstrip (replace nl (String backslash "n") raw_str).

(** One turn of the loop [for raw_str in all_actions]: the record that is
    appended. *)
Definition parse_one (reflection' : option string) (thought' : option string)
    (raw_str : string) : result PredictionParsed :=
  let record (action_type' : string) (inputs : ActionInputs) :=
    {| action_inputs := inputs;
       action_type := action_type';
       thought := match thought' with
                  | Some t => t
                  | None => ""
                  end;
       reflection := reflection' |} in
  match parse_action (prepare raw_str) with
  | Some (function_name, params) =>
      inputs <- set_params params default_inputs ;;
      Ok (record function_name inputs)
  | None => Ok (record "" default_inputs)
  end.

Definition parse_action_vlm (text : string) : result (list PredictionParsed) :=
  let '(reflection', thought') := reflection_and_thought (strip text) in
  mapM (parse_one reflection' thought') (all_actions text).

End PredictionParser.

(** The default of [factors]. *)
Definition default_factors : float * float := (1000%float, 1000%float).


(** ** parser.py: the element resolver *)

Module Dom.

(** Modelled from the spec: the declarations of [browser_use.dom.views] and
    [browser_use.browser.views] are not among the sources.  A candidate
    element exposes a rectangle in screen pixels, by its top-left, top-right
    and bottom-left corners and by its width and height; it has none when it
    is not on the screen. *)
Record Coordinates : Type := { x : Z; y : Z }.

Record CoordinateSet : Type := {
  top_left : Coordinates;
  top_right : Coordinates;
  bottom_left : Coordinates;
  width : Z;
  height : Z
}.

Record DOMElementNode : Type := {
  highlight_index : Z;
  viewport_coordinates : option CoordinateSet
}.

(** [selector_map] is a [dict] from the highlight index to the element: the
    items in insertion order. *)
Record BrowserState : Type := {
  selector_map : list (Z * DOMElementNode)
}.

(** [state.selector_map.values()] *)
Definition values (state : BrowserState) : list DOMElementNode :=
  map snd (selector_map state).

End Dom.
Import Dom.

Definition bbox_t : Type := (Z * Z * Z * Z)%type.

(** The test of the first loop:
    [coord.top_left.x <= bbox[0] <= coord.top_right.x and
     coord.top_left.y <= bbox[1] <= coord.bottom_left.y]. *)
Definition holds_corner (bbox : bbox_t) (coord : CoordinateSet) : bool :=
  let '(b0, b1, _, _) := bbox in
  ((x (top_left coord) <=? b0) && (b0 <=? x (top_right coord))
   && (y (top_left coord) <=? b1) && (b1 <=? y (bottom_left coord)))%Z.

(** The first loop: [all_matches]. *)
Definition all_matches (bbox : bbox_t) (els : list DOMElementNode)
  : list DOMElementNode :=
  filter (fun el => match viewport_coordinates el with
                    | None => false
                    | Some coord => holds_corner bbox coord
                    end) els.

(** [smallest_area]: [float('inf')] or the area of an element. *)
Inductive area : Type :=
| Inf
| Area (a : Z).

(** [current_area < smallest_area] *)
Definition area_lt (current_area : Z) (smallest_area : area) : bool :=
  match smallest_area with
  | Inf => true
  | Area a => (current_area <? a)%Z
  end.

(** The second loop.  [el.viewport_coordinates.width] on an element with no
    rectangle is an [AttributeError]. *)
Fixpoint smallest (els : list DOMElementNode) (smallest_area : area)
    (element : option DOMElementNode) : result (option DOMElementNode) :=
  match els with
  | [] => Ok element
  | el :: rest =>
      match viewport_coordinates el with
      | None => Raise AttributeError
      | Some coord =>
          let current_area := (width coord * height coord)%Z in
          if area_lt current_area smallest_area
          then smallest rest (Area current_area) (Some el)
          else smallest rest smallest_area element
      end
  end.

Definition get_element_by_bbox (bbox : bbox_t) (state : BrowserState)
  : result (option DOMElementNode) :=
  smallest (all_matches bbox (values state)) Inf None.

(** * Properties *)

(** ** The element resolver *)

Section Resolver.

(** The area the resolver compares: [width * height] of the rectangle. *)
Definition rect_area (el : DOMElementNode) : Z :=
  match viewport_coordinates el with
  | Some coord => (width coord * height coord)%Z
  | None => 0%Z
  end.

(** The rectangle of [el] holds the top-left corner of the box. *)
Definition corner_inside (bbox : bbox_t) (el : DOMElementNode) : Prop :=
  exists coord,
    viewport_coordinates el = Some coord /\
    (x (top_left coord) <= fst (fst (fst bbox)) <= x (top_right coord))%Z /\
    (y (top_left coord) <= snd (fst (fst bbox)) <= y (bottom_left coord))%Z.

(** The rectangle of [el] holds the whole box: its left and right edges lie
    in the horizontal span and its top and bottom edges in the vertical one. *)
Definition box_inside (bbox : bbox_t) (el : DOMElementNode) : Prop :=
  let '(b0, b1, b2, b3) := bbox in
  exists coord,
    viewport_coordinates el = Some coord /\
    (x (top_left coord) <= b0 <= x (top_right coord))%Z /\
    (x (top_left coord) <= b2 <= x (top_right coord))%Z /\
    (y (top_left coord) <= b1 <= y (bottom_left coord))%Z /\
    (y (top_left coord) <= b3 <= y (bottom_left coord))%Z.

Definition below (a : Z) (smallest_area : area) : Prop :=
  match smallest_area with
  | Inf => True
  | Area s => (a < s)%Z
  end.

Lemma area_lt_below a sa : area_lt a sa = true <-> below a sa.
Proof.
  destruct sa as [|s]; simpl.
  - tauto.
  - apply Z.ltb_lt.
Qed.

Lemma all_matches_In bbox els el :
  In el (all_matches bbox els) <-> In el els /\ corner_inside bbox el.
Proof.
  unfold all_matches, corner_inside, holds_corner.
  rewrite filter_In.
  destruct bbox as [[[b0 b1] b2] b3]; simpl.
  split.
  - intros [Hin Hc]. split; [exact Hin|].
    destruct (viewport_coordinates el) as [coord|]; [|discriminate].
    exists coord. split; [reflexivity|]. 
    rewrite !andb_true_iff, !Z.leb_le in Hc. lia.
  - intros [Hin (coord & Hv & Hx & Hy)]. split; [exact Hin|].
    rewrite Hv, !andb_true_iff, !Z.leb_le. lia.
Qed.

Lemma all_matches_have_rect bbox els :
  Forall (fun el => viewport_coordinates el <> None) (all_matches bbox els).
Proof.
  apply Forall_forall. intros el Hin.
  apply all_matches_In in Hin. destruct Hin as [_ (coord & Hv & _)].
  congruence.
Qed.

(** The second loop on elements that all have a rectangle: it raises
    nothing; it keeps the element it started with when no area is below the
    smallest one so far, and otherwise gives the first element of least
    area. *)
Lemma smallest_spec els :
  Forall (fun el => viewport_coordinates el <> None) els ->
  forall sa e,
  exists r, smallest els sa e = Ok r /\
    ((r = e /\ forall m, In m els -> ~ below (rect_area m) sa) \/
     (exists el l1 l2,
        r = Some el /\ els = (l1 ++ el :: l2)%list /\ below (rect_area el) sa /\
        (forall m, In m l1 -> (rect_area el < rect_area m)%Z) /\
        (forall m, In m l2 -> (rect_area el <= rect_area m)%Z))).
Proof.
  induction 1 as [|el rest Hel Hrest IH]; intros sa e.
  - exists e. split; [reflexivity|]. left. split; [reflexivity|]. intros m [].
  - simpl.
    destruct (viewport_coordinates el) as [coord|] eqn:Hv; [|congruence].
    assert (Ha : (width coord * height coord)%Z = rect_area el)
      by (unfold rect_area; rewrite Hv; reflexivity).
    rewrite Ha.
    destruct (area_lt (rect_area el) sa) eqn:Hlt.
    + apply area_lt_below in Hlt.
      destruct (IH (Area (rect_area el)) (Some el)) as (r & Hr & Hcase).
      exists r. split; [exact Hr|]. right.
      destruct Hcase as [[-> Hall] | (el' & l1 & l2 & -> & -> & Hb & H1 & H2)].
      * exists el, [], rest.
        repeat split; auto.
        -- intros m [].
        -- intros m Hm. specialize (Hall m Hm). simpl in Hall. lia.
      * exists el', (el :: l1), l2. simpl in Hb.
        repeat split; auto.
        -- destruct sa; simpl in *; lia.
        -- intros m [<- | Hm]; [lia | auto].
    + assert (Hnb : ~ below (rect_area el) sa).
      { intro Hb. apply area_lt_below in Hb. congruence. }
      destruct (IH sa e) as (r & Hr & Hcase).
      exists r. split; [exact Hr|].
      destruct Hcase as [[-> Hall] | (el' & l1 & l2 & -> & -> & Hb & H1 & H2)].
      * left. split; [reflexivity|].
        intros m [<- | Hm]; [exact Hnb | auto].
      * right. exists el', (el :: l1), l2.
        repeat split; auto.
        intros m [<- | Hm]; [|auto].
        destruct sa; simpl in *; [tauto | lia].
Qed.

Lemma filter_split {A : Type} (f : A -> bool) (l : list A) :
  forall l1' a l2',
  filter f l = (l1' ++ a :: l2')%list ->
  exists l1 l2,
    l = (l1 ++ a :: l2)%list /\ filter f l1 = l1' /\ filter f l2 = l2'.
Proof.
  induction l as [|b l IH]; intros l1' a l2' H; simpl in H.
  - destruct l1'; discriminate.
  - destruct (f b) eqn:Hb.
    + destruct l1' as [|c l1']; simpl in H; injection H as -> H.
      * exists [], l. simpl. auto.
      * destruct (IH _ _ _ H) as (l1 & l2 & -> & <- & <-).
        exists (c :: l1), l2. simpl. rewrite Hb. auto.
    + destruct (IH _ _ _ H) as (l1 & l2 & -> & <- & <-).
      exists (b :: l1), l2. simpl. rewrite Hb. auto.
Qed.

(** The elements that have a rectangle, in the same order. *)
Definition with_rectangle (state : BrowserState) : BrowserState :=
  {| selector_map :=
       filter (fun item => match viewport_coordinates (snd item) with
                           | Some _ => true
                           | None => false
                           end) (selector_map state) |}.

Lemma all_matches_with_rectangle bbox state :
  all_matches bbox (values (with_rectangle state))
  = all_matches bbox (values state).
Proof.
  unfold values, with_rectangle, all_matches; simpl.
  induction (selector_map state) as [|[i el] l IH]; simpl; [reflexivity|].
  destruct (viewport_coordinates el) as [coord|] eqn:Hv; simpl.
  - rewrite Hv, IH. reflexivity.
  - exact IH.
Qed.

End Resolver.

(** The resolver raises nothing, and what it returns holds the corner. *)
Lemma resolver_returns_corner_holder (bbox : bbox_t) (state : BrowserState) :
  exists r,
    get_element_by_bbox bbox state = Ok r /\
    match r with
    | None => True
    | Some el => corner_inside bbox el
    end.
Proof.
  unfold get_element_by_bbox.
  destruct (smallest_spec _ (all_matches_have_rect bbox (values state)) Inf None)
    as (r & Hr & Hcase).
  exists r. split; [exact Hr|].
  destruct Hcase as [[-> _] | (el & l1 & l2 & -> & Hsplit & _)]; [exact I|].
  assert (Hin : In el (all_matches bbox (values state)))
    by (rewrite Hsplit; apply in_elt).
  apply all_matches_In in Hin. tauto.
Qed.

(** One element whose rectangle is the square from (0,0) to (10,10), and a
    query box that starts inside it and ends outside. *)
Definition square10 : DOMElementNode :=
  {| highlight_index := 1;
     viewport_coordinates :=
       Some {| top_left := {| x := 0; y := 0 |};
               top_right := {| x := 10; y := 0 |};
               bottom_left := {| x := 0; y := 10 |};
               width := 10; height := 10 |} |}.

Definition one_square : BrowserState := {| selector_map := [(1%Z, square10)] |}.

(** C1, as stated, fails: the box (5,5,50,50) reaches far outside the square
    from (0,0) to (10,10), which does not contain it, and the resolver
    returns the square all the same, because only the left and top edges of
    the box are tested. *)
Lemma C1_box_not_contained_is_returned :
  get_element_by_bbox (5, 5, 50, 50)%Z one_square = Ok (Some square10)
  /\ ~ box_inside (5, 5, 50, 50)%Z square10.
Proof.
  split; [reflexivity|].
  intros (coord & Hv & _ & Hx & _). injection Hv as <-. simpl in Hx. lia.
Qed.

(** C1, amended: the resolver raises nothing and returns the candidate of
    smallest area [width * height] among those whose rectangle holds the
    top-left corner of the query box (left edge of the box in the horizontal
    span, top edge in the vertical span); on a tie of areas, the first in
    iteration order; none when no rectangle holds that corner. *)
Theorem C1_resolver_smallest_area_holding_corner :
  forall (bbox : bbox_t) (state : BrowserState),
  exists r,
    get_element_by_bbox bbox state = Ok r /\
    match r with
    | None => forall el, In el (values state) -> ~ corner_inside bbox el
    | Some el =>
        corner_inside bbox el /\
        exists before after,
          values state = (before ++ el :: after)%list /\
          (forall m, In m before -> corner_inside bbox m ->
                     (rect_area el < rect_area m)%Z) /\
          (forall m, In m after -> corner_inside bbox m ->
                     (rect_area el <= rect_area m)%Z)
    end.
Proof.
  intros bbox state. unfold get_element_by_bbox.
  destruct (smallest_spec _ (all_matches_have_rect bbox (values state)) Inf None)
    as (r & Hr & Hcase).
  exists r. split; [exact Hr|].
  destruct Hcase as [[-> Hall] | (el & l1 & l2 & -> & Hsplit & _ & H1 & H2)].
  - intros el Hin Hc. apply (Hall el); [|exact I].
    apply all_matches_In. auto.
  - split.
    + assert (Hin : In el (all_matches bbox (values state)))
        by (rewrite Hsplit; apply in_elt).
      apply all_matches_In in Hin. tauto.
    + unfold all_matches in Hsplit.
      destruct (filter_split _ _ _ _ _ Hsplit) as (before & after & Hv & <- & <-).
      exists before, after. split; [exact Hv|].
      split; intros m Hm Hc; [apply H1 | apply H2];
        apply (proj2 (all_matches_In bbox _ m)); auto.
Qed.

(** C10: a candidate whose [viewport_coordinates] is [None] is skipped: the
    result is the one for the collection without such candidates, and the
    element returned, if any, has a rectangle, so no candidate without one
    is returned, whatever the query box. *)
Theorem C10_candidate_without_rectangle_is_skipped :
  forall (bbox : bbox_t) (state : BrowserState),
    get_element_by_bbox bbox state
    = get_element_by_bbox bbox (with_rectangle state)
    /\ forall el, viewport_coordinates el = None ->
                  get_element_by_bbox bbox state <> Ok (Some el).
Proof.
  intros bbox state. split.
  - unfold get_element_by_bbox. rewrite all_matches_with_rectangle. reflexivity.
  - intros el Hnone Hget.
    destruct (resolver_returns_corner_holder bbox state) as (r & Hr & Hc).
    rewrite Hget in Hr. injection Hr as <-.
    destruct Hc as (coord & Hv & _). congruence.
Qed.

(** The example of the specification: of the rectangles A, from (0,0) to
    (100,100), and B, from (5,5) to (25,25), the resolver returns B for the
    query box (10,10,20,20). *)
Definition rectangle (index x1 y1 x2 y2 : Z) : DOMElementNode :=
  {| highlight_index := index;
     viewport_coordinates :=
       Some {| top_left := {| x := x1; y := y1 |};
               top_right := {| x := x2; y := y1 |};
               bottom_left := {| x := x1; y := y2 |};
               width := x2 - x1; height := y2 - y1 |} |}.

Example resolver_prefers_smaller_rectangle :
  get_element_by_bbox (10, 10, 20, 20)%Z
    {| selector_map := [(1, rectangle 1 0 0 100 100);
                        (2, rectangle 2 5 5 25 25)]%Z |}
  = Ok (Some (rectangle 2 5 5 25 25)).
Proof. reflexivity. Qed.

(** ** The tokenizer and the action parser *)

(** A text of one double-quote character, and [s] between double quotes. *)
Definition dq : string := String dquote "".
Definition in_double_quotes (s : string) : string := dq ++ s ++ dq.

(** C3: the code fails here.  The argument text [content=''] holds a validly
    quoted empty value; the tokenizer raises [StopIteration] on it, because
    all four value groups of the match are empty, so [parse_action] fails on
    the whole action and the prediction parser emits a record with an empty
    action type: the argument is not kept with an empty value.  The same
    holds between double quotes. *)
Theorem C3_empty_quoted_value_fails_the_parse :
  parse_action_args_pair "content=''" = Raise StopIteration
  /\ parse_action "type(content='')" = None
  /\ parse_action ("type(content=" ++ in_double_quotes "" ++ ")") = None
  /\ parse_action "type(content='', key='a')" = None
  /\ parse_action_vlm default_factors None None "type(content='')"
     = Ok [{| action_inputs := default_inputs; action_type := "";
              thought := ""; reflection := None |}].
Proof. repeat split; vm_compute; reflexivity. Qed.

Section Quotes.

Definition first_char (s : string) : option ascii :=
  match s with
  | "" => None
  | String c _ => Some c
  end.

Fixpoint last_char (s : string) : option ascii :=
  match s with
  | "" => None
  | String c s' => match last_char s' with
                   | Some d => Some d
                   | None => Some c
                   end
  end.

(** [v] has no character of the class [p] at either end. *)
Definition bare_ends (p : ascii -> bool) (v : string) : Prop :=
  (forall c, first_char v = Some c -> p c = false)
  /\ (forall c, last_char v = Some c -> p c = false).

Lemma last_char_none s : last_char s = None -> s = "".
Proof.
  destruct s as [|c s]; simpl; [reflexivity|].
  destruct (last_char s); discriminate.
Qed.

Lemma lstrip_with_first p s c :
  first_char (lstrip_with p s) = Some c -> p c = false.
Proof.
  induction s as [|d s IH]; simpl; [discriminate|].
  destruct (p d) eqn:Hd; [exact IH|].
  simpl. intros [= <-]. exact Hd.
Qed.

Lemma lstrip_with_last p s c :
  last_char (lstrip_with p s) = Some c -> last_char s = Some c.
Proof.
  induction s as [|d s IH]; simpl; [discriminate|].
  destruct (p d) eqn:Hd.
  - intros H. rewrite (IH H). reflexivity.
  - simpl. auto.
Qed.

Lemma rstrip_with_last p s c :
  last_char (rstrip_with p s) = Some c -> p c = false.
Proof.
  induction s as [|d s IH]; simpl; [discriminate|].
  destruct (rstrip_with p s) as [|e r] eqn:Hr; simpl.
  - destruct (p d) eqn:Hd; simpl; [discriminate|].
    intros [= <-]. exact Hd.
  - simpl in IH. destruct (last_char r); auto.
Qed.

Lemma strip_with_bare_ends p s : bare_ends p (strip_with p s).
Proof.
  unfold strip_with. split; intros c H.
  - eapply lstrip_with_first; eauto.
  - apply lstrip_with_last in H. eapply rstrip_with_last; eauto.
Qed.

Lemma last_char_app s t c :
  last_char t = Some c -> last_char (s ++ t) = Some c.
Proof.
  intros H. induction s as [|d s IH]; simpl; [exact H|].
  rewrite IH. reflexivity.
Qed.

Lemma mem_quote_chars c : mem c quote_chars = is_quote c.
Proof. unfold quote_chars, is_quote. simpl. rewrite orb_false_r. reflexivity. Qed.

(** The value [parse_action] stores for a pair has no quote at either end. *)
Lemma clean_value_bare_ends parts : bare_ends is_quote (clean_value parts).
Proof.
  unfold clean_value.
  set (value := match parts with
                | _ :: p1 :: _ => strip p1
                | _ => ""
                end).
  destruct (contains "<bbox>" (strip_chars quote_chars value)).
  - split; intros c H.
    + simpl in H. injection H as <-. reflexivity.
    + rewrite (last_char_app "(" _ ")"%char) in H.
      * injection H as <-. reflexivity.
      * apply last_char_app. reflexivity.
  - destruct (strip_with_bare_ends (fun c => mem c quote_chars) value) as [H1 H2].
    split; intros c H; rewrite <- mem_quote_chars; [apply H1 | apply H2]; exact H.
Qed.

Lemma dict_set_Forall {V : Type} (P : V -> Prop) k v (d : dict V) :
  P v -> Forall (fun item => P (snd item)) d ->
  Forall (fun item => P (snd item)) (dict_set k v d).
Proof.
  intros Hv. induction 1 as [|[k' v'] d Hkv Hd IH]; simpl.
  - constructor; [exact Hv | constructor].
  - destruct (String.eqb k' k); constructor; auto.
Qed.

Lemma parse_pairs_Forall (P : string -> Prop) :
  (forall parts, P (clean_value parts)) ->
  forall arg_pairs kwargs,
    Forall (fun item => P (snd item)) kwargs ->
    Forall (fun item => P (snd item)) (parse_pairs arg_pairs kwargs).
Proof.
  intros HP. induction arg_pairs as [|pair_str rest IH]; intros kwargs Hk; simpl.
  - exact Hk.
  - destruct (is_empty (hd "" (split1 "=" pair_str))).
    + apply IH, Hk.
    + apply IH, dict_set_Forall; [apply HP | exact Hk].
Qed.

Lemma parse_action_values (P : string -> Prop) :
  (forall parts, P (clean_value parts)) ->
  forall action_str function_name args,
    parse_action action_str = Some (function_name, args) ->
    Forall (fun item => P (snd item)) args.
Proof.
  intros HP action_str function_name args. unfold parse_action, parse_action_body.
  destruct (function_call (strip action_str)) as [[fn args_str]|]; [|discriminate].
  destruct (is_empty (strip args_str)).
  - intros [= _ <-]. constructor.
  - destruct (parse_action_args_pair args_str) as [arg_pairs|e]; simpl; [|discriminate].
    intros [= _ <-]. apply parse_pairs_Forall; [exact HP | constructor].
Qed.

End Quotes.

(** C4, as stated, fails: the double-quoted value whose content is 'hello'
    with its single quotes is stored as hello, with no quote left; the
    tokenizer removes the double quotes and [strip('\'DQ')] then removes the
    single ones. *)
Lemma C4_inner_quotes_are_removed :
  parse_action ("type(content=" ++ in_double_quotes "'hello'" ++ ")")
  = Some ("type", [("content", "hello")])
  /\ "hello" <> "'hello'".
Proof. split; [vm_compute; reflexivity | discriminate]. Qed.

(** C4, amended: the Action Parser removes every quote character, single or
    double, from both ends of the trimmed value, not one layer: no value of
    the argument mapping starts or ends with a quote character. *)
Theorem C4_values_have_no_quote_at_either_end :
  forall (action_str function_name : string) (args : dict string) (k v : string),
    parse_action action_str = Some (function_name, args) ->
    In (k, v) args ->
    bare_ends is_quote v.
Proof.
  intros action_str function_name args k v Hparse Hin.
  pose proof (parse_action_values (bare_ends is_quote) clean_value_bare_ends
                _ _ _ Hparse) as Hall.
  rewrite Forall_forall in Hall. exact (Hall (k, v) Hin).
Qed.

Lemma C4_values_have_no_quote_at_either_end_witness :
  bare_ends is_quote "hello".
Proof.
  apply (C4_values_have_no_quote_at_either_end
           ("type(content=" ++ in_double_quotes "'hello'" ++ ")")
           "type" [("content", "hello")] "content" "hello").
  - vm_compute; reflexivity.
  - left; reflexivity.
Defined.

(** ** The prediction parser: coordinates *)

(** A screen of 1000 by 800 pixels. *)
Definition screen_1000_800 : option (dict float) :=
  Some [("width", 1000%float); ("height", 800%float)].

(** [ActionInputs] with [start_box] and [start_coords] set. *)
Definition start_inputs (box coords : option value) : ActionInputs :=
  {| content := None; start_box := box; end_box := None; key := None;
     hotkey := None; direction := None; start_coords := coords;
     end_coords := None; other := [] |}.

(** C2: the code fails here.  With the component abc in the region
    descriptor, [float] raises [ValueError] in the list of normalized numbers,
    before any field of coordinates is set, and nothing catches it: the call
    of [parse_action_vlm] raises, with a screen context and without one.  The
    branch that stores the empty list is never reached. *)
Theorem C2_non_numeric_component_raises :
  PyFloat.of_string "abc" = Raise ValueError
  /\ parse_action_vlm default_factors screen_1000_800 None
       "click(start_box='(abc,100)')" = Raise ValueError
  /\ parse_action_vlm default_factors None None
       "click(start_box='(abc,100)')" = Raise ValueError
  /\ parse_action_vlm default_factors screen_1000_800 None
       "drag(start_box='(1,2)', end_box='(3,x)')" = Raise ValueError.
Proof. repeat split; vm_compute; reflexivity. Qed.

(** A number of the normalized list that is no number of [float] makes the
    whole step raise, whatever the screen. *)
Lemma normalize_raises factors numbers :
  forall idx,
    Exists (fun num => exists e, PyFloat.of_string num = Raise e) numbers ->
    exists e, normalize factors idx numbers = Raise e.
Proof.
  induction numbers as [|num rest IH]; intros idx Hex.
  - inversion Hex.
  - simpl. destruct (PyFloat.of_string num) as [x|e] eqn:Hx; simpl.
    + destruct (PyFloat.div x _) as [y|e]; simpl; [|eauto].
      inversion Hex as [? ? [e He] | ? ? Hrest]; subst; [congruence|].
      destruct (IH (S idx) Hrest) as [e ->]. simpl. eauto.
    + eauto.
Qed.

Lemma set_box_raises factors ctx sf param_name trimmed_param a :
  Exists (fun num => exists e, PyFloat.of_string num = Raise e)
         (box_numbers trimmed_param) ->
  exists e, set_box factors ctx sf param_name trimmed_param a = Raise e.
Proof.
  intros Hex. unfold set_box.
  destruct (normalize_raises factors _ 0 Hex) as [e ->]. simpl. eauto.
Qed.

(** The branch [else: setattr(action_inputs, box_key, [])] is dead: the four
    numbers are numbers. *)
Lemma numbers_are_numbers l : forallb is_number l = true.
Proof. induction l; simpl; auto. Qed.

(** C5: the start region (500,500) with the factors (1000,1000) is stored on
    [start_box] as the rectangle [0.5, 0.5, 0.5, 0.5].  Each number is
    divided by the factor of its axis, the first factor at indices 0 and 2,
    the second at indices 1 and 3, and two numbers are doubled into a
    rectangle of four. *)
Theorem C5_point_normalized_into_rectangle :
  parse_action_vlm (1000, 1000)%float None None "click(start_box='(500,500)')"
  = Ok [{| action_inputs :=
             start_inputs (Some (Json [0.5; 0.5; 0.5; 0.5]%float)) None;
           action_type := "click"; thought := ""; reflection := None |}]
  /\ (forall (f1 f2 : float) (a b : string) (xa xb : float),
        PyFloat.of_string a = Ok xa -> PyFloat.of_string b = Ok xb ->
        PyFloat.truthy f1 = true -> PyFloat.truthy f2 = true ->
        normalize (f1, f2) 0 [a; b] = Ok [xa / f1; xb / f2]%float
        /\ extend_point [xa / f1; xb / f2]%float
           = [xa / f1; xb / f2; xa / f1; xb / f2]%float)
  /\ (forall (f1 f2 : float) (a b c d : string) (xa xb xc xd : float),
        PyFloat.of_string a = Ok xa -> PyFloat.of_string b = Ok xb ->
        PyFloat.of_string c = Ok xc -> PyFloat.of_string d = Ok xd ->
        PyFloat.truthy f1 = true -> PyFloat.truthy f2 = true ->
        normalize (f1, f2) 0 [a; b; c; d]
        = Ok [xa / f1; xb / f2; xc / f1; xd / f2]%float
        /\ extend_point [xa / f1; xb / f2; xc / f1; xd / f2]%float
           = [xa / f1; xb / f2; xc / f1; xd / f2]%float).
Proof.
  split; [vm_compute; reflexivity|].
  split.
  - intros f1 f2 a b xa xb Ha Hb H1 H2.
    split; [|reflexivity].
    unfold PyFloat.truthy in H1, H2. apply negb_true_iff in H1, H2.
    simpl. unfold PyFloat.div. rewrite Ha, Hb. simpl. rewrite H1. simpl.
    rewrite H2. reflexivity.
  - intros f1 f2 a b c d xa xb xc xd Ha Hb Hc Hd H1 H2.
    split; [|reflexivity].
    unfold PyFloat.truthy in H1, H2. apply negb_true_iff in H1, H2.
    simpl. unfold PyFloat.div. rewrite Ha, Hb, Hc, Hd. simpl.
    rewrite H1, H2. reflexivity.
Qed.

Lemma C5_point_normalized_into_rectangle_witness :
  normalize (1000, 1000)%float 0 ["500"; "500"]
  = Ok [500 / 1000; 500 / 1000]%float
  /\ extend_point [500 / 1000; 500 / 1000]%float
     = [500 / 1000; 500 / 1000; 500 / 1000; 500 / 1000]%float.
Proof.
  apply (proj1 (proj2 C5_point_normalized_into_rectangle)
           1000%float 1000%float "500" "500" 500%float 500%float);
    vm_compute; reflexivity.
Defined.

(** A screen of one pixel by one pixel. *)
Definition screen_1_1 : option (dict float) :=
  Some [("width", 1%float); ("height", 1%float)].

(** [n] is the integer nearest to the number [x], the even one of the two
    when [x] lies half way: with [x] written [m * 2^e] or [- m * 2^e], twice
    the distance from [x] to [n] is at most one, and is one only for an even
    [n]. *)
Definition nearest_integer (x : float) (n : Z) : Prop :=
  match Prim2SF x with
  | S754_zero _ => n = 0%Z
  | S754_finite s m e =>
      let v := if s then Zneg m else Zpos m in
      if (0 <=? e)%Z then n = (v * 2 ^ e)%Z
      else
        let d := (2 ^ (- e))%Z in
        (2 * Z.abs (v - n * d) <= d)%Z
        /\ ((2 * Z.abs (v - n * d))%Z = d -> Z.even n = true)
  | _ => False
  end.

Lemma round_nearest x n : PyFloat.round x = Ok n -> nearest_integer x n.
Proof.
  unfold PyFloat.round, nearest_integer.
  destruct (Prim2SF x) as [s0 | s0 | | s m e]; try discriminate.
  - intros [= <-]. reflexivity.
  - destruct (0 <=? e)%Z eqn:He.
    + intros H. apply Ok_inj in H. subst n. destruct s; [|reflexivity].
      change (Zneg m) with (- Zpos m)%Z. ring.
    + apply Z.leb_gt in He.
      assert (Hd : (0 < 2 ^ (- e))%Z) by (apply Z.pow_pos_nonneg; lia).
      pose proof (Z.div_mod (Zpos m) (2 ^ (- e)) ltac:(lia)) as Hdm.
      pose proof (Z.mod_pos_bound (Zpos m) (2 ^ (- e)) Hd) as Hr.
      cbv zeta.
      set (d := (2 ^ (- e))%Z) in *.
      set (q := (Zpos m / d)%Z) in *. set (r := (Zpos m mod d)%Z) in *.
      assert (Hn : exists n0,
                 n0 = match (2 * r ?= d)%Z with
                      | Lt => q
                      | Gt => (q + 1)%Z
                      | Eq => if Z.even q then q else (q + 1)%Z
                      end
                 /\ (2 * Z.abs (Zpos m - n0 * d) <= d)%Z
                 /\ ((2 * Z.abs (Zpos m - n0 * d))%Z = d -> Z.even n0 = true)).
      { eexists. split; [reflexivity|].
        destruct (2 * r ?= d)%Z eqn:E.
        - apply Z.compare_eq in E. destruct (Z.even q) eqn:Hq.
          + split; [nia | intros _; exact Hq].
          + split; [nia|]. intros _.
            rewrite Z.add_1_r, Z.even_succ, <- Z.negb_even, Hq. reflexivity.
        - change (2 * r < d)%Z in E. split; nia.
        - apply Z.compare_gt_iff in E. split; nia. }
      destruct Hn as (n0 & Hn0 & Hdist & Heven). rewrite <- Hn0.
      intros H. apply Ok_inj in H. subst n. destruct s.
      * change (Zneg m) with (- Zpos m)%Z.
        replace (- Z.pos m - - n0 * d)%Z with (- (Z.pos m - n0 * d))%Z by ring.
        rewrite Z.abs_opp, Z.even_opp. split; assumption.
      * split; assumption.
Qed.

(** C6: on a screen of 1000 by 800, with the factors (1000,1000) and the
    scale factor 1, the relative box [0.5, 0.5, 0.5, 0.5] gives the point
    [500, 400] on [start_coords].  For each axis the middle of the two
    corners is multiplied by the screen dimension and by the factor, rounded
    to the nearest integer (the even one half way), divided by the factor
    and multiplied by the scale factor, which is 1 when none is given or
    when it is zero: the scale factor 2 gives [1000, 800], the components
    123.4560546875 and 100.0009765625 give 123456/1000 and 80001/1000 (the
    pixel values 123456.05... and 80000.78... rounded), and on a screen of
    one by one with the factors (1,1) the centres 2.5 and 1.5 both give 2,
    0.5 gives 0 and 3.5 gives 4. *)
Theorem C6_relative_box_to_pixels :
  set_coords (1000, 1000)%float screen_1000_800 (Some 1%float) "start_box"
    [0.5; 0.5; 0.5; 0.5]%float default_inputs
  = Ok (start_inputs None (Some (Floats [500; 400]%float)))
  /\ parse_action_vlm (1000, 1000)%float screen_1000_800 (Some 1%float)
       "click(start_box='(500,500)')"
     = Ok [{| action_inputs :=
                start_inputs (Some (Json [0.5; 0.5; 0.5; 0.5]%float))
                             (Some (Floats [500; 400]%float));
              action_type := "click"; thought := ""; reflection := None |}]
  /\ (forall sf : option float,
        sf = None \/ sf = Some 0%float ->
        parse_action_vlm (1000, 1000)%float screen_1000_800 sf
          "click(start_box='(500,500)')"
        = Ok [{| action_inputs :=
                   start_inputs (Some (Json [0.5; 0.5; 0.5; 0.5]%float))
                                (Some (Floats [500; 400]%float));
                 action_type := "click"; thought := ""; reflection := None |}])
  /\ parse_action_vlm (1000, 1000)%float screen_1000_800 (Some 2%float)
       "click(start_box='(500,500)')"
     = Ok [{| action_inputs :=
                start_inputs (Some (Json [0.5; 0.5; 0.5; 0.5]%float))
                             (Some (Floats [1000; 800]%float));
              action_type := "click"; thought := ""; reflection := None |}]
  /\ parse_action_vlm (1000, 1000)%float screen_1000_800 (Some 1%float)
       "click(start_box='(123.4560546875,100.0009765625)')"
     = Ok [{| action_inputs :=
                start_inputs
                  (Some (Json [123.4560546875 / 1000; 100.0009765625 / 1000;
                               123.4560546875 / 1000; 100.0009765625 / 1000
                              ]%float))
                  (Some (Floats [123456 / 1000; 80001 / 1000]%float));
              action_type := "click"; thought := ""; reflection := None |}]
  /\ parse_action_vlm (1, 1)%float screen_1_1 (Some 1%float)
       "click(start_box='(2.5,1.5)')"
     = Ok [{| action_inputs :=
                start_inputs (Some (Json [2.5; 1.5; 2.5; 1.5]%float))
                             (Some (Floats [2; 2]%float));
              action_type := "click"; thought := ""; reflection := None |}]
  /\ parse_action_vlm (1, 1)%float screen_1_1 (Some 1%float)
       "click(start_box='(0.5,3.5)')"
     = Ok [{| action_inputs :=
                start_inputs (Some (Json [0.5; 3.5; 0.5; 3.5]%float))
                             (Some (Floats [0; 4]%float));
              action_type := "click"; thought := ""; reflection := None |}]
  /\ (forall (wf hf : float) (ctx : option (dict float)) (sf : option float)
             (param_name : string) (x1 y1 x2 y2 : float) (rx ry : Z)
             (a : ActionInputs),
        PyFloat.round (((x1 + x2) / 2) * screen ctx "width" * wf)%float = Ok rx ->
        PyFloat.round (((y1 + y2) / 2) * screen ctx "height" * hf)%float = Ok ry ->
        PyFloat.truthy wf = true -> PyFloat.truthy hf = true ->
        set_coords (wf, hf) ctx sf param_name [x1; y1; x2; y2] a
        = setattr a (if contains "start_box" param_name
                     then "start_coords" else "end_coords")
            (Floats [(PyFloat.of_int rx / wf)
                     * match sf with
                       | Some s => if (s =? 0)%float then 1 else s
                       | None => 1
                       end;
                     (PyFloat.of_int ry / hf)
                     * match sf with
                       | Some s => if (s =? 0)%float then 1 else s
                       | None => 1
                       end]%float))
  /\ (forall (x : float) (n : Z),
        PyFloat.round x = Ok n -> nearest_integer x n).
Proof.
  split; [vm_compute; reflexivity|].
  split; [vm_compute; reflexivity|].
  split; [intros sf [-> | ->]; vm_compute; reflexivity|].
  split; [vm_compute; reflexivity|].
  split; [vm_compute; reflexivity|].
  split; [vm_compute; reflexivity|].
  split; [vm_compute; reflexivity|].
  split; [|exact round_nearest].
  intros wf hf ctx sf param_name x1 y1 x2 y2 rx ry a Hrx Hry Hwf Hhf.
  unfold PyFloat.truthy in Hwf, Hhf. apply negb_true_iff in Hwf, Hhf.
  unfold set_coords. simpl.
  unfold to_pixels, PyFloat.div. rewrite Hrx, Hry. simpl.
  rewrite Hwf. simpl. rewrite Hhf. simpl.
  unfold scale, PyFloat.truthy.
  destruct sf as [s|]; [destruct (s =? 0)%float|]; reflexivity.
Qed.

Lemma C6_relative_box_to_pixels_witness :
  set_coords (1000, 1000)%float screen_1000_800 (Some 2%float) "end_box"
    [0.25; 0.5; 0.75; 0.5]%float default_inputs
  = setattr default_inputs "end_coords"
      (Floats [(PyFloat.of_int 500000 / 1000) * 2;
               (PyFloat.of_int 400000 / 1000) * 2]%float).
Proof.
  apply (proj1 (proj2 (proj2 (proj2 (proj2 (proj2 (proj2 (proj2 C6_relative_box_to_pixels)))))))
           1000%float 1000%float screen_1000_800 (Some 2%float) "end_box"
           0.25%float 0.5%float 0.75%float 0.5%float 500000%Z 400000%Z
           default_inputs);
    vm_compute; reflexivity.
Defined.

(** ** The prediction parser: the records of a response *)

Section Records.

Lemma mapM_Forall2 {A B : Type} (f : A -> result B) (l : list A) :
  forall rs, mapM f l = Ok rs -> Forall2 (fun a b => f a = Ok b) l rs.
Proof.
  induction l as [|a l IH]; simpl; intros rs H.
  - injection H as <-. constructor.
  - destruct (f a) as [b|e] eqn:Hb; simpl in H; [|discriminate].
    destruct (mapM f l) as [bs|e]; simpl in H; [|discriminate].
    injection H as <-. constructor; auto.
Qed.

Lemma mapM_map {A B : Type} (f : A -> result B) (g : A -> B) (l : list A) :
  Forall (fun a => f a = Ok (g a)) l -> mapM f l = Ok (map g l).
Proof.
  induction 1 as [|a l Ha Hl IH]; simpl; [reflexivity|].
  rewrite Ha, IH. reflexivity.
Qed.

Lemma Forall2_nth_error {A B : Type} (R : A -> B -> Prop) l rs :
  Forall2 R l rs ->
  forall i a, nth_error l i = Some a ->
  exists b, nth_error rs i = Some b /\ R a b.
Proof.
  induction 1 as [|a0 b0 l rs H0 H IH]; intros i a Hi.
  - destruct i; discriminate.
  - destruct i as [|i]; simpl in *.
    + injection Hi as <-. eauto.
    + eauto.
Qed.

Lemma Forall2_impl {A B : Type} (R S : A -> B -> Prop) l rs :
  (forall a b, R a b -> S a b) -> Forall2 R l rs -> Forall2 S l rs.
Proof. intros HRS. induction 1; constructor; auto. Qed.

(** What [setattr] leaves on the two fields of absolute coordinates. *)
Lemma setattr_coords a name v a' :
  setattr a name v = Ok a' ->
  start_coords a' = (if String.eqb name "start_coords" then Some v
                     else start_coords a)
  /\ end_coords a' = (if String.eqb name "end_coords" then Some v
                      else end_coords a).
Proof.
  unfold setattr. destruct a as [c sb eb k h d sc ec o].
  repeat match goal with
         | |- context [String.eqb name ?s] =>
             destruct (String.eqb_spec name s);
             [subst; simpl; intros [= <-]; simpl; auto |]
         end.
  simpl. intros [= <-]. simpl. auto.
Qed.

(** The field holds a list of numbers: coordinates the parser computed. *)
Definition computed (v : option value) : bool :=
  match v with
  | Some (Floats _) => true
  | _ => false
  end.

(** A non-empty argument of the name [name] among the parsed ones. *)
Definition carries (name : string) (params : dict string) : bool :=
  existsb (fun item => String.eqb (strip (fst item)) name
                       && negb (is_empty (snd item))) params.

(** The action string [raw_str] parses to an action with such an argument. *)
Definition argument_named (name raw_str : string) : bool :=
  match parse_action (prepare raw_str) with
  | Some (_, params) => carries name params
  | None => false
  end.

(** One of the two fields of absolute coordinates, by its name and its
    projection. *)
Inductive coords_field : string -> (ActionInputs -> option value) -> Prop :=
| field_start : coords_field "start_coords" start_coords
| field_end : coords_field "end_coords" end_coords.

Lemma setattr_field name proj a n v a' :
  coords_field name proj ->
  setattr a n v = Ok a' ->
  proj a' = if String.eqb n name then Some v else proj a.
Proof.
  intros Hf Hset. destruct (setattr_coords _ _ _ _ Hset) as [H1 H2].
  destruct Hf; assumption.
Qed.

Variable factors : float * float.
Variable screen_context : option (dict float).
Variable scale_factor : option float.
Hypothesis no_screen : has_screen screen_context = false.

Variable name : string.
Variable proj : ActionInputs -> option value.
Hypothesis is_field : coords_field name proj.

(** Without a screen the step of a region argument only stores the
    normalized rectangle, on the attribute of the argument's name. *)
Lemma set_box_no_screen param_name trimmed_param a a' :
  set_box factors screen_context scale_factor param_name trimmed_param a = Ok a' ->
  exists fl, setattr a (strip param_name) (Json fl) = Ok a'.
Proof.
  unfold set_box.
  destruct (normalize factors 0 (box_numbers trimmed_param)) as [fl|e];
    simpl; [|discriminate].
  destruct (setattr a (strip param_name) (Json (extend_point fl)))
    as [a1|e] eqn:Hset; simpl; [|discriminate].
  rewrite no_screen. intros [= <-]. eauto.
Qed.

Lemma set_params_not_computed params :
  forall a a',
    computed (proj a) = false ->
    set_params factors screen_context scale_factor params a = Ok a' ->
    computed (proj a') = false.
Proof.
  induction params as [|[param_name param] rest IH]; intros a a' Hc; simpl.
  - intros [= <-]. exact Hc.
  - destruct (is_empty param); [apply IH, Hc|].
    destruct (setattr a (strip param_name) (Str (strip param)))
      as [a1|e] eqn:Hset; simpl; [|discriminate].
    assert (Hc1 : computed (proj a1) = false).
    { rewrite (setattr_field _ _ _ _ _ _ is_field Hset).
      destruct (String.eqb (strip param_name) name); [reflexivity | exact Hc]. }
    destruct (contains "start_box" param_name || contains "end_box" param_name).
    + destruct (set_box factors screen_context scale_factor param_name
                  (strip param) a1) as [a2|e] eqn:Hbox; simpl; [|discriminate].
      apply IH.
      destruct (set_box_no_screen _ _ _ _ Hbox) as [fl Hset2].
      rewrite (setattr_field _ _ _ _ _ _ is_field Hset2).
      destruct (String.eqb (strip param_name) name); [reflexivity | exact Hc1].
    + simpl. apply IH, Hc1.
Qed.

Lemma set_params_unset params :
  forall a a',
    carries name params = false ->
    proj a = None ->
    set_params factors screen_context scale_factor params a = Ok a' ->
    proj a' = None.
Proof.
  induction params as [|[param_name param] rest IH]; intros a a' Hcar Hn; simpl.
  - intros [= <-]. exact Hn.
  - simpl in Hcar. apply orb_false_iff in Hcar. destruct Hcar as [Hhere Hrest].
    destruct (is_empty param); [apply IH; assumption|].
    rewrite andb_true_r in Hhere.
    destruct (setattr a (strip param_name) (Str (strip param)))
      as [a1|e] eqn:Hset; simpl; [|discriminate].
    assert (Hn1 : proj a1 = None).
    { rewrite (setattr_field _ _ _ _ _ _ is_field Hset), Hhere. exact Hn. }
    destruct (contains "start_box" param_name || contains "end_box" param_name).
    + destruct (set_box factors screen_context scale_factor param_name
                  (strip param) a1) as [a2|e] eqn:Hbox; simpl; [|discriminate].
      apply IH; [exact Hrest|].
      destruct (set_box_no_screen _ _ _ _ Hbox) as [fl Hset2].
      rewrite (setattr_field _ _ _ _ _ _ is_field Hset2), Hhere. exact Hn1.
    + simpl. apply IH; assumption.
Qed.

(** One record, without a screen: the field holds no computed coordinates,
    and it is unset unless the action has an argument of its name. *)
Lemma parse_one_no_screen reflection' thought' raw_str r :
  proj default_inputs = None ->
  parse_one factors screen_context scale_factor reflection' thought' raw_str
  = Ok r ->
  computed (proj (action_inputs r)) = false
  /\ (argument_named name raw_str = false -> proj (action_inputs r) = None).
Proof.
  intros Hd. unfold parse_one, argument_named.
  destruct (parse_action (prepare raw_str)) as [[function_name params]|].
  - destruct (set_params factors screen_context scale_factor params default_inputs)
      as [inputs|e] eqn:Hset; simpl; [|discriminate].
    intros [= <-]. simpl. split.
    + eapply set_params_not_computed; eauto. rewrite Hd. reflexivity.
    + intros Hcar. eapply set_params_unset; eauto.
  - intros [= <-]. simpl. rewrite Hd. auto.
Qed.

End Records.

(** When there is no usable screen: no context, or a context in which the
    width or the height is missing or zero. *)
Lemma has_screen_false_iff (screen_context : option (dict float)) :
  has_screen screen_context = false <->
  screen_context = None
  \/ exists ctx,
       screen_context = Some ctx /\
       (dict_get "width" ctx = None \/ dict_get "height" ctx = None
        \/ (exists w, dict_get "width" ctx = Some w /\ PyFloat.truthy w = false)
        \/ (exists h, dict_get "height" ctx = Some h /\ PyFloat.truthy h = false)).
Proof.
  unfold has_screen. destruct screen_context as [ctx|]; [|tauto].
  split.
  - intros H. right. exists ctx. split; [reflexivity|].
    destruct ctx as [|item ctx']; [left; reflexivity|].
    destruct (dict_get "width" (item :: ctx')) as [w|]; [|tauto].
    destruct (dict_get "height" (item :: ctx')) as [h|]; [|tauto].
    apply andb_false_iff in H. destruct H; eauto 6.
  - intros [H | (ctx0 & [= <-] & H)]; [discriminate|].
    destruct ctx as [|item ctx']; [reflexivity|].
    destruct H as [-> | [-> | [(w & -> & Hw) | (h & -> & Hh)]]].
    + reflexivity.
    + destruct (dict_get "width" (item :: ctx')); reflexivity.
    + destruct (dict_get "height" (item :: ctx')); [|reflexivity].
      rewrite Hw. reflexivity.
    + destruct (dict_get "width" (item :: ctx')); [|reflexivity].
      rewrite Hh. apply andb_false_r.
Qed.

(** C7, as stated, fails: with no screen context at all, the action
    click(start_coords='(1,2)') gives a record whose [start_coords] is set,
    to the text of the argument: every argument is copied onto the attribute
    of its name. *)
Lemma C7_argument_named_start_coords_sets_field :
  has_screen None = false
  /\ parse_action_vlm default_factors None None "click(start_coords='(1,2)')"
     = Ok [{| action_inputs := start_inputs None (Some (Str "(1,2)"));
              action_type := "click"; thought := ""; reflection := None |}]
  /\ Some (Str "(1,2)") <> None.
Proof. repeat split; try discriminate; vm_compute; reflexivity. Qed.

(** C7, amended: when the screen context is absent, or its width or height
    is missing or zero, the parser computes no absolute coordinates: on every
    returned record [start_coords] and [end_coords] hold no list of numbers,
    and each of them is unset unless the action itself has a non-empty
    argument of that name, whose text is then copied onto the field like any
    other argument. *)
Theorem C7_no_coordinates_without_screen :
  forall (factors : float * float) (screen_context : option (dict float))
         (scale_factor : option float) (text : string)
         (records : list PredictionParsed),
    has_screen screen_context = false ->
    parse_action_vlm factors screen_context scale_factor text = Ok records ->
    Forall2
      (fun raw_str r =>
         computed (start_coords (action_inputs r)) = false
         /\ computed (end_coords (action_inputs r)) = false
         /\ (argument_named "start_coords" raw_str = false ->
             start_coords (action_inputs r) = None)
         /\ (argument_named "end_coords" raw_str = false ->
             end_coords (action_inputs r) = None))
      (all_actions text) records.
Proof.
  intros factors screen_context scale_factor text records Hscreen.
  unfold parse_action_vlm.
  destruct (reflection_and_thought (strip text)) as [reflection' thought'].
  intros Hmap. apply mapM_Forall2 in Hmap.
  eapply Forall2_impl; [|exact Hmap].
  intros raw_str r Hone. simpl in Hone.
  destruct (parse_one_no_screen factors screen_context scale_factor Hscreen
              _ _ field_start reflection' thought' raw_str r eq_refl Hone)
    as [S1 S2].
  destruct (parse_one_no_screen factors screen_context scale_factor Hscreen
              _ _ field_end reflection' thought' raw_str r eq_refl Hone)
    as [E1 E2].
  auto.
Qed.

Lemma C7_no_coordinates_without_screen_witness :
  Forall2
    (fun raw_str r =>
       computed (start_coords (action_inputs r)) = false
       /\ computed (end_coords (action_inputs r)) = false
       /\ (argument_named "start_coords" raw_str = false ->
           start_coords (action_inputs r) = None)
       /\ (argument_named "end_coords" raw_str = false ->
           end_coords (action_inputs r) = None))
    (all_actions "click(start_box='(500,500)')")
    [{| action_inputs :=
          start_inputs (Some (Json [0.5; 0.5; 0.5; 0.5]%float)) None;
        action_type := "click"; thought := ""; reflection := None |}].
Proof.
  apply (C7_no_coordinates_without_screen
           default_factors (Some [("width", 0%float); ("height", 800%float)])
           None "click(start_box='(500,500)')").
  - vm_compute; reflexivity.
  - vm_compute; reflexivity.
Defined.

Section Batch.

(** The thought and the reflection that [parse_action_vlm] reads off a
    response, once, before its loop. *)
Definition reflection_of (text : string) : option string :=
  fst (reflection_and_thought (strip text)).

Definition thought_of (text : string) : string :=
  match snd (reflection_and_thought (strip text)) with
  | Some t => t
  | None => ""
  end.

(** The record of one action string of the response [text]. *)
Definition record_of (factors : float * float)
    (screen_context : option (dict float)) (scale_factor : option float)
    (text raw_str : string) : result PredictionParsed :=
  parse_one factors screen_context scale_factor
    (reflection_of text) (snd (reflection_and_thought (strip text))) raw_str.

Lemma parse_action_vlm_mapM factors screen_context scale_factor text :
  parse_action_vlm factors screen_context scale_factor text
  = mapM (record_of factors screen_context scale_factor text) (all_actions text).
Proof.
  unfold parse_action_vlm, record_of, reflection_of.
  destruct (reflection_and_thought (strip text)); reflexivity.
Qed.

Lemma record_of_thought factors screen_context scale_factor text raw_str r :
  record_of factors screen_context scale_factor text raw_str = Ok r ->
  thought r = thought_of text /\ reflection r = reflection_of text.
Proof.
  unfold record_of, parse_one, thought_of.
  destruct (parse_action (prepare raw_str)) as [[function_name params]|].
  - destruct (set_params _ _ _ params default_inputs); simpl; [|discriminate].
    intros [= <-]. auto.
  - intros [= <-]. auto.
Qed.

(** The record of an action string that does not parse. *)
Definition failed_record (text : string) : PredictionParsed :=
  {| action_inputs := default_inputs; action_type := "";
     thought := thought_of text; reflection := reflection_of text |}.

Lemma record_of_failed factors screen_context scale_factor text raw_str :
  parse_action (prepare raw_str) = None ->
  record_of factors screen_context scale_factor text raw_str
  = Ok (failed_record text).
Proof.
  intros H. unfold record_of, parse_one. rewrite H. reflexivity.
Qed.







End Batch.



(** The example of the specification: one record, with the thought and no
    reflection. *)
Example thought_then_action :
  parse_action_vlm default_factors None None
    ("Thought: do X" ++ nl ++ "Action: click(start_box='(100,100)')")
  = Ok [{| action_inputs :=
             start_inputs
               (Some (Json [100 / 1000; 100 / 1000;
                            100 / 1000; 100 / 1000]%float)) None;
           action_type := "click"; thought := "do X"; reflection := None |}].
Proof. vm_compute. reflexivity. Qed.





(** C9, as stated, fails on its own example: the text click(start_box=)
    does match the function-call shape, with the name click and the argument
    text start_box=; the tokenizer finds no pair in it, so the parser returns
    the action click with no argument, not the sentinel, and the record has
    the action type click, not the empty one. *)
Lemma C9_click_with_empty_box_is_parsed :
  function_call (strip "click(start_box=)") = Some ("click", "start_box=")
  /\ parse_action "click(start_box=)" = Some ("click", [])
  /\ parse_action_vlm default_factors None None "click(start_box=)"
     = Ok [{| action_inputs := default_inputs; action_type := "click";
              thought := ""; reflection := None |}]
  /\ "click" <> "".
Proof. repeat split; try discriminate; vm_compute; reflexivity. Qed.

(** C9, amended: for every action string that does not match the
    function-call shape, [parse_action] returns the sentinel [None] and
    raises nothing, and a call of [parse_action_vlm] that returns has at the
    position of that string a record with an empty action type and default
    inputs; when no action string matches, the call returns just these
    records.  The malformed text click(start_box=) matches the shape: it
    gives the action type click with default inputs, and raises nothing. *)
Theorem C9_unparsed_action_keeps_its_place :
  forall (factors : float * float) (screen_context : option (dict float))
         (scale_factor : option float) (text : string),
    (forall action_str,
        function_call (strip action_str) = None ->
        parse_action action_str = None)
    /\ (forall records i raw_str,
           parse_action_vlm factors screen_context scale_factor text
           = Ok records ->
           nth_error (all_actions text) i = Some raw_str ->
           function_call (strip (prepare raw_str)) = None ->
           nth_error records i = Some (failed_record text))
    /\ (Forall (fun raw_str => function_call (strip (prepare raw_str)) = None)
               (all_actions text) ->
        parse_action_vlm factors screen_context scale_factor text
        = Ok (map (fun _ => failed_record text) (all_actions text)))
    /\ parse_action_vlm factors screen_context scale_factor "click(start_box=)"
       = Ok [{| action_inputs := default_inputs; action_type := "click";
                thought := ""; reflection := None |}].
Proof.
  intros factors screen_context scale_factor text.
  assert (Hshape : forall action_str,
             function_call (strip action_str) = None ->
             parse_action action_str = None).
  { intros action_str H. unfold parse_action, parse_action_body.
    rewrite H. reflexivity. }
  split; [exact Hshape|]. split; [|split].
  - intros records i raw_str Hparse Hi Hnone.
    rewrite parse_action_vlm_mapM in Hparse. apply mapM_Forall2 in Hparse.
    destruct (Forall2_nth_error _ _ _ Hparse i raw_str Hi) as (r & Hr & Hrec).
    rewrite (record_of_failed _ _ _ _ _ (Hshape _ Hnone)) in Hrec.
    injection Hrec as <-. exact Hr.
  - intros Hall. rewrite parse_action_vlm_mapM. apply mapM_map.
    eapply Forall_impl; [|exact Hall].
    intros raw_str Hnone. apply record_of_failed, Hshape, Hnone.
  - vm_compute. reflexivity.
Qed.

Lemma C9_unparsed_action_keeps_its_place_witness :
  parse_action_vlm default_factors None None "hello world"
  = Ok (map (fun _ => failed_record "hello world") (all_actions "hello world")).
Proof.
  apply (proj1 (proj2 (proj2 (C9_unparsed_action_keeps_its_place
                                default_factors None None "hello world")))).
  vm_compute. repeat constructor.
Defined.

(** * Further properties of the prediction parser *)

Section MoreRecords.

Lemma mapM_length {A B : Type} (f : A -> result B) (l : list A) rs :
  mapM f l = Ok rs -> List.length rs = List.length l.
Proof.
  intros H. apply mapM_Forall2 in H. symmetry.
  induction H; simpl; congruence.
Qed.

Lemma split_length sep s : (1 <= List.length (split sep s))%nat.
Proof. unfold split. destruct (split_go sep 0 s). simpl. lia. Qed.

Lemma mapM_In {A B : Type} (f : A -> result B) (l : list A) rs b :
  mapM f l = Ok rs -> In b rs -> exists a, In a l /\ f a = Ok b.
Proof.
  intros H. apply mapM_Forall2 in H.
  induction H as [|a0 b0 l rs H0 H IH]; intros Hin; [destruct Hin|].
  destruct Hin as [<- | Hin].
  - exists a0. split; [left; reflexivity | exact H0].
  - destruct (IH Hin) as (a & Ha & Hf). exists a. split; [right; exact Ha | exact Hf].
Qed.

(** What [setattr] leaves on the two region fields. *)
Lemma setattr_boxes a name v a' :
  setattr a name v = Ok a' ->
  start_box a' = (if String.eqb name "start_box" then Some v else start_box a)
  /\ end_box a' = (if String.eqb name "end_box" then Some v else end_box a).
Proof.
  unfold setattr. destruct a as [c sb eb k h d sc ec o].
  repeat match goal with
         | |- context [String.eqb name ?s] =>
             destruct (String.eqb_spec name s);
             [subst; simpl; intros [= <-]; simpl; auto |]
         end.
  simpl. intros [= <-]. simpl. auto.
Qed.

(** The body of a record that parsed. *)
Lemma parse_one_inputs factors ctx sf reflection' thought' raw_str r :
  parse_one factors ctx sf reflection' thought' raw_str = Ok r ->
  action_inputs r = default_inputs
  \/ exists function_name params,
       parse_action (prepare raw_str) = Some (function_name, params)
       /\ action_type r = function_name
       /\ set_params factors ctx sf params default_inputs = Ok (action_inputs r).
Proof.
  unfold parse_one.
  destruct (parse_action (prepare raw_str)) as [[function_name params]|].
  - destruct (set_params factors ctx sf params default_inputs) as [inputs|e] eqn:E;
      simpl; [|discriminate].
    intros [= <-]. right. exists function_name, params. simpl. auto.
  - intros [= <-]. left. reflexivity.
Qed.

(** An invariant of the attributes that every step of the loop over the
    arguments keeps holds on every record of a response. *)
Lemma records_invariant (P : ActionInputs -> Prop) factors ctx sf :
  P default_inputs ->
  (forall params a a',
      P a -> set_params factors ctx sf params a = Ok a' -> P a') ->
  forall text records r,
    parse_action_vlm factors ctx sf text = Ok records ->
    In r records -> P (action_inputs r).
Proof.
  intros Hd Hstep text records r Hparse Hin.
  unfold parse_action_vlm in Hparse.
  destruct (reflection_and_thought (strip text)) as [reflection' thought'].
  destruct (mapM_In _ _ _ _ Hparse Hin) as (raw_str & _ & Hone).
  destruct (parse_one_inputs _ _ _ _ _ _ _ Hone)
    as [-> | (fn & params & _ & _ & Hset)]; [exact Hd|].
  eapply Hstep; eauto.
Qed.

(** The same, from the steps of one argument. *)
Lemma set_params_invariant (P : ActionInputs -> Prop) factors ctx sf :
  (forall param_name trimmed_param a a1,
      P a -> setattr a (strip param_name) (Str trimmed_param) = Ok a1 ->
      (contains "start_box" param_name || contains "end_box" param_name = false
       -> P a1)
      /\ (forall a2,
             contains "start_box" param_name || contains "end_box" param_name = true ->
             set_box factors ctx sf param_name trimmed_param a1 = Ok a2 -> P a2)) ->
  forall params a a',
    P a -> set_params factors ctx sf params a = Ok a' -> P a'.
Proof.
  intros Hstep. induction params as [|[param_name param] rest IH];
    intros a a' Ha; simpl.
  - intros [= <-]. exact Ha.
  - destruct (is_empty param); [apply IH, Ha|].
    destruct (setattr a (strip param_name) (Str (strip param)))
      as [a1|e] eqn:Hset; simpl; [|discriminate].
    destruct (Hstep _ _ _ _ Ha Hset) as [Hplain Hbox].
    destruct (contains "start_box" param_name || contains "end_box" param_name).
    + destruct (set_box factors ctx sf param_name (strip param) a1)
        as [a2|e] eqn:Hb; simpl; [|discriminate].
      apply IH. eapply Hbox; eauto.
    + simpl. apply IH. auto.
Qed.

End MoreRecords.

(** X1: a call of [parse_action_vlm] that returns gives one record for each
    action string of the split, so at least one record, whatever the text. *)
Theorem X1_records_one_per_action_string_never_empty :
  forall (factors : float * float) (screen_context : option (dict float))
         (scale_factor : option float) (text : string)
         (records : list PredictionParsed),
    parse_action_vlm factors screen_context scale_factor text = Ok records ->
    List.length records = List.length (all_actions text)
    /\ (1 <= List.length records)%nat.
Proof.
  intros factors screen_context scale_factor text records H.
  unfold parse_action_vlm in H.
  destruct (reflection_and_thought (strip text)) as [reflection' thought'].
  apply mapM_length in H. split; [exact H|].
  rewrite H. unfold all_actions. apply split_length.
Qed.

Lemma X1_records_one_per_action_string_never_empty_witness :
  List.length [failed_record ""] = List.length (all_actions "")
  /\ (1 <= List.length [failed_record ""])%nat.
Proof.
  apply (X1_records_one_per_action_string_never_empty
           default_factors None None "" [failed_record ""]).
  vm_compute. reflexivity.
Defined.

Section Stored.

Variable factors : float * float.
Variable screen_context : option (dict float).
Variable scale_factor : option float.

(** When the step of absolute coordinates returns, it has stored a point of
    two numbers on [start_coords] or on [end_coords]. *)
Lemma set_coords_stores param_name float_numbers a a' :
  set_coords factors screen_context scale_factor param_name float_numbers a
  = Ok a' ->
  exists cx cy,
    setattr a (if contains "start_box" param_name
               then "start_coords" else "end_coords")
            (Floats [cx; cy]) = Ok a'.
Proof.
  unfold set_coords.
  destruct (index float_numbers 0) as [x1|e]; simpl; [|discriminate].
  destruct (index float_numbers 1) as [y1|e]; simpl; [|discriminate].
  destruct (if (2 <? List.length float_numbers)%nat
            then index float_numbers 2 else Ok x1) as [x2|e];
    simpl; [|discriminate].
  destruct (if (3 <? List.length float_numbers)%nat
            then index float_numbers 3 else Ok y1) as [y2|e];
    simpl; [|discriminate].
  destruct factors as [width_factor height_factor].
  try rewrite (numbers_are_numbers [x1; y1; x2; y2]).
  destruct (to_pixels scale_factor x1 x2 (screen screen_context "width")
              width_factor) as [cx|e]; simpl; [|discriminate].
  destruct (to_pixels scale_factor y1 y2 (screen screen_context "height")
              height_factor) as [cy|e]; simpl; [|discriminate].
  eauto.
Qed.

(** The steps of a region argument, when it returns: the normalized list is
    stored on the attribute of the argument's name, and then, with a screen,
    a point on a field of coordinates. *)
Lemma set_box_steps param_name trimmed_param a a' :
  set_box factors screen_context scale_factor param_name trimmed_param a = Ok a' ->
  exists fl a1,
    normalize factors 0 (box_numbers trimmed_param) = Ok fl
    /\ setattr a (strip param_name) (Json (extend_point fl)) = Ok a1
    /\ (a' = a1
        \/ exists cx cy,
             setattr a1 (if contains "start_box" param_name
                         then "start_coords" else "end_coords")
                     (Floats [cx; cy]) = Ok a').
Proof.
  unfold set_box.
  destruct (normalize factors 0 (box_numbers trimmed_param)) as [fl|e];
    simpl; [|discriminate].
  destruct (setattr a (strip param_name) (Json (extend_point fl)))
    as [a1|e] eqn:Hset; simpl; [|discriminate].
  intros H. exists fl, a1. split; [reflexivity|]. split; [exact Hset|].
  destruct (has_screen screen_context).
  - right. eapply set_coords_stores; eauto.
  - left. congruence.
Qed.

(** A field of coordinates that holds a list of numbers holds two. *)
Definition point_or_text (v : option value) : Prop :=
  match v with
  | Some (Floats l) => List.length l = 2%nat
  | _ => True
  end.

Lemma setattr_point_or_text a n v a' :
  point_or_text (Some v) ->
  point_or_text (start_coords a) /\ point_or_text (end_coords a) ->
  setattr a n v = Ok a' ->
  point_or_text (start_coords a') /\ point_or_text (end_coords a').
Proof.
  intros Hv [H1 H2] Hset.
  destruct (setattr_coords _ _ _ _ Hset) as [-> ->].
  destruct (String.eqb n "start_coords"), (String.eqb n "end_coords"); auto.
Qed.

Lemma set_params_point_or_text params a a' :
  point_or_text (start_coords a) /\ point_or_text (end_coords a) ->
  set_params factors screen_context scale_factor params a = Ok a' ->
  point_or_text (start_coords a') /\ point_or_text (end_coords a').
Proof.
  revert params a a'.
  apply (set_params_invariant
           (fun a => point_or_text (start_coords a)
                     /\ point_or_text (end_coords a))).
  intros param_name trimmed_param a a1 Ha Hset.
  assert (H1 : point_or_text (start_coords a1) /\ point_or_text (end_coords a1))
    by (eapply setattr_point_or_text; eauto; exact I).
  split; [auto|].
  intros a2 _ Hbox.
  destruct (set_box_steps _ _ _ _ Hbox)
    as (fl & a1' & _ & Hjson & [-> | (cx & cy & Hpoint)]).
  - eapply setattr_point_or_text; eauto; exact I.
  - eapply setattr_point_or_text; [| |exact Hpoint]; [reflexivity|].
    eapply setattr_point_or_text; eauto; exact I.
Qed.

(** A region field is unset or holds the list of a normalized rectangle,
    which has any length but two. *)
Definition rectangle_or_unset (v : option value) : Prop :=
  match v with
  | None => True
  | Some (Json l) => List.length l <> 2%nat
  | Some _ => False
  end.

Lemma extend_point_length l : List.length (extend_point l) <> 2%nat.
Proof.
  destruct l as [|x [|y [|z l]]]; simpl; discriminate.
Qed.

Lemma prefix_app s t : String.prefix s (s ++ t) = true.
Proof.
  induction s as [|c s IH]; simpl; [destruct t; reflexivity|].
  destruct (ascii_dec c c); [exact IH | congruence].
Qed.

Lemma contains_unfold sub c s :
  contains sub (String c s) = String.prefix sub (String c s) || contains sub s.
Proof. reflexivity. Qed.

Lemma contains_here sub t : contains sub (sub ++ t) = true.
Proof.
  destruct (sub ++ t) as [|c s] eqn:E.
  - destruct sub; [reflexivity | discriminate].
  - rewrite contains_unfold, <- E, prefix_app. reflexivity.
Qed.

Lemma contains_after sub pre t :
  contains sub t = true -> contains sub (pre ++ t) = true.
Proof.
  intros H. induction pre as [|c pre IH]; [exact H|].
  change (String c pre ++ t) with (String c (pre ++ t)).
  rewrite contains_unfold, IH. apply orb_true_r.
Qed.

Lemma lstrip_with_suffix p s : exists pre, s = pre ++ lstrip_with p s.
Proof.
  induction s as [|c s [pre IH]]; simpl.
  - exists "". reflexivity.
  - destruct (p c).
    + exists (String c pre). simpl. rewrite <- IH. reflexivity.
    + exists "". reflexivity.
Qed.

Lemma rstrip_with_prefix p s : exists post, s = rstrip_with p s ++ post.
Proof.
  induction s as [|c s [post IH]]; simpl.
  - exists "". reflexivity.
  - destruct (is_empty (rstrip_with p s) && p c).
    + exists (String c s). reflexivity.
    + exists post. simpl. rewrite <- IH. reflexivity.
Qed.

Lemma app_assoc_string (a b c : string) : (a ++ b) ++ c = a ++ b ++ c.
Proof. induction a as [|x a IH]; simpl; [reflexivity | rewrite IH; reflexivity]. Qed.

(** A text holds what is left of it after a strip. *)
Lemma contains_strip_with p s : contains (strip_with p s) s = true.
Proof.
  unfold strip_with.
  destruct (rstrip_with_prefix p s) as [post Hpost].
  destruct (lstrip_with_suffix p (rstrip_with p s)) as [pre Hpre].
  rewrite Hpost at 2. rewrite Hpre at 2.
  rewrite app_assoc_string. apply contains_after, contains_here.
Qed.

Lemma strip_names_box param_name box :
  strip param_name = box -> contains box param_name = true.
Proof. intros <-. apply contains_strip_with. Qed.

Lemma setattr_rectangle_or_unset a n v a' :
  String.eqb n "start_box" = false -> String.eqb n "end_box" = false ->
  rectangle_or_unset (start_box a) /\ rectangle_or_unset (end_box a) ->
  setattr a n v = Ok a' ->
  rectangle_or_unset (start_box a') /\ rectangle_or_unset (end_box a').
Proof.
  intros E1 E2 H Hset.
  destruct (setattr_boxes _ _ _ _ Hset) as [-> ->].
  rewrite E1, E2. exact H.
Qed.

Lemma set_params_rectangle_or_unset params a a' :
  rectangle_or_unset (start_box a) /\ rectangle_or_unset (end_box a) ->
  set_params factors screen_context scale_factor params a = Ok a' ->
  rectangle_or_unset (start_box a') /\ rectangle_or_unset (end_box a').
Proof.
  revert params a a'.
  apply (set_params_invariant
           (fun a => rectangle_or_unset (start_box a)
                     /\ rectangle_or_unset (end_box a))).
  intros param_name trimmed_param a a1 Ha Hset.
  split.
  - intros Hno. apply orb_false_iff in Hno. destruct Hno as [Hs He].
    eapply setattr_rectangle_or_unset; [| |exact Ha|exact Hset].
    + destruct (String.eqb_spec (strip param_name) "start_box") as [E|]; [|reflexivity].
      apply strip_names_box in E. congruence.
    + destruct (String.eqb_spec (strip param_name) "end_box") as [E|]; [|reflexivity].
      apply strip_names_box in E. congruence.
  - intros a2 _ Hbox.
    destruct (set_box_steps _ _ _ _ Hbox)
      as (fl & a1' & _ & Hjson & Hcoords).
    assert (H1 : rectangle_or_unset (start_box a1')
                 /\ rectangle_or_unset (end_box a1')).
    { destruct (setattr_boxes _ _ _ _ Hset) as [S1 E1].
      destruct (setattr_boxes _ _ _ _ Hjson) as [S2 E2].
      rewrite S2, E2, S1, E1. destruct Ha as [Hs He].
      pose proof (extend_point_length fl) as Hlen.
      destruct (String.eqb (strip param_name) "start_box"),
               (String.eqb (strip param_name) "end_box"); simpl; auto. }
    destruct Hcoords as [-> | (cx & cy & Hpoint)]; [exact H1|].
    eapply setattr_rectangle_or_unset; [| |exact H1|exact Hpoint];
      destruct (contains "start_box" param_name); reflexivity.
Qed.

End Stored.

(** X2: on every record of a response, whatever the screen context, a field
    of absolute coordinates that holds a list of numbers holds a point of
    exactly two: the empty list is never stored. *)
Theorem X2_stored_coordinates_are_points :
  forall (factors : float * float) (screen_context : option (dict float))
         (scale_factor : option float) (text : string)
         (records : list PredictionParsed) (r : PredictionParsed),
    parse_action_vlm factors screen_context scale_factor text = Ok records ->
    In r records ->
    (forall l, start_coords (action_inputs r) = Some (Floats l) ->
               List.length l = 2%nat)
    /\ (forall l, end_coords (action_inputs r) = Some (Floats l) ->
                  List.length l = 2%nat).
Proof.
  intros factors screen_context scale_factor text records r Hparse Hin.
  assert (H : point_or_text (start_coords (action_inputs r))
              /\ point_or_text (end_coords (action_inputs r))).
  { apply (records_invariant
             (fun a => point_or_text (start_coords a)
                       /\ point_or_text (end_coords a))
             factors screen_context scale_factor) with text records; auto.
    - split; exact I.
    - intros params a a'. apply set_params_point_or_text. }
  destruct H as [H1 H2].
  split; intros l Hl; [rewrite Hl in H1 | rewrite Hl in H2]; assumption.
Qed.

(** The record of click(start_box='(500,500)') on the screen of 1000 by 800. *)
Definition click_500 : PredictionParsed :=
  {| action_inputs :=
       start_inputs (Some (Json [0.5; 0.5; 0.5; 0.5]%float))
                    (Some (Floats [500; 400]%float));
     action_type := "click"; thought := ""; reflection := None |}.

Lemma X2_stored_coordinates_are_points_witness :
  (forall l, start_coords (action_inputs click_500) = Some (Floats l) ->
             List.length l = 2%nat)
  /\ (forall l, end_coords (action_inputs click_500) = Some (Floats l) ->
                List.length l = 2%nat).
Proof.
  apply (X2_stored_coordinates_are_points
           default_factors screen_1000_800 None
           "click(start_box='(500,500)')" [click_500] click_500).
  - vm_compute. reflexivity.
  - left. reflexivity.
Defined.

(** X3: on every record of a response, [start_box] and [end_box] are unset
    or hold the normalized list of numbers, never the raw text of the
    argument, and that list never has exactly two numbers: a point has been
    doubled into a rectangle. *)
Theorem X3_region_fields_hold_normalized_rectangles :
  forall (factors : float * float) (screen_context : option (dict float))
         (scale_factor : option float) (text : string)
         (records : list PredictionParsed) (r : PredictionParsed),
    parse_action_vlm factors screen_context scale_factor text = Ok records ->
    In r records ->
    (start_box (action_inputs r) = None
     \/ exists l, start_box (action_inputs r) = Some (Json l)
                  /\ List.length l <> 2%nat)
    /\ (end_box (action_inputs r) = None
        \/ exists l, end_box (action_inputs r) = Some (Json l)
                     /\ List.length l <> 2%nat).
Proof.
  intros factors screen_context scale_factor text records r Hparse Hin.
  assert (H : rectangle_or_unset (start_box (action_inputs r))
              /\ rectangle_or_unset (end_box (action_inputs r))).
  { apply (records_invariant
             (fun a => rectangle_or_unset (start_box a)
                       /\ rectangle_or_unset (end_box a))
             factors screen_context scale_factor) with text records; auto.
    - split; exact I.
    - intros params a a'. apply set_params_rectangle_or_unset. }
  destruct H as [H1 H2].
  split.
  - destruct (start_box (action_inputs r)) as [[s|l|l]|];
      simpl in H1; try contradiction; eauto.
  - destruct (end_box (action_inputs r)) as [[s|l|l]|];
      simpl in H2; try contradiction; eauto.
Qed.

Lemma X3_region_fields_hold_normalized_rectangles_witness :
  (start_box (action_inputs click_500) = None
   \/ exists l, start_box (action_inputs click_500) = Some (Json l)
                /\ List.length l <> 2%nat)
  /\ (end_box (action_inputs click_500) = None
      \/ exists l, end_box (action_inputs click_500) = Some (Json l)
                   /\ List.length l <> 2%nat).
Proof.
  apply (X3_region_fields_hold_normalized_rectangles
           default_factors screen_1000_800 None
           "click(start_box='(500,500)')" [click_500] click_500).
  - vm_compute. reflexivity.
  - left. reflexivity.
Defined.

(** X4: a region descriptor with no number or with one number: without a
    usable screen the list is stored as it is; with one, the step raises
    [IndexError], after the list has been stored. *)
Theorem X4_short_region_raises_index_error_on_screen :
  forall (factors : float * float) (screen_context : option (dict float))
         (scale_factor : option float) (param_name trimmed_param : string)
         (a a1 : ActionInputs) (fl : list float),
    normalize factors 0 (box_numbers trimmed_param) = Ok fl ->
    (List.length fl < 2)%nat ->
    setattr a (strip param_name) (Json fl) = Ok a1 ->
    set_box factors screen_context scale_factor param_name trimmed_param a
    = if has_screen screen_context then Raise IndexError else Ok a1.
Proof.
  intros factors screen_context scale_factor param_name trimmed_param a a1 fl
         Hnorm Hlen Hset.
  unfold set_box. rewrite Hnorm. simpl.
  assert (Hext : extend_point fl = fl).
  { destruct fl as [|x [|y [|z fl]]]; simpl in *; try reflexivity; lia. }
  rewrite Hext, Hset. simpl.
  destruct (has_screen screen_context); [|reflexivity].
  unfold set_coords, index.
  destruct fl as [|x [|y fl]]; simpl in *; try reflexivity; lia.
Qed.

Lemma X4_short_region_raises_index_error_on_screen_witness :
  set_box default_factors screen_1000_800 None "start_box" "()" default_inputs
  = if has_screen screen_1000_800 then Raise IndexError
    else Ok (start_inputs (Some (Json [])) None).
Proof.
  apply (X4_short_region_raises_index_error_on_screen
           default_factors screen_1000_800 None "start_box" "()"
           default_inputs (start_inputs (Some (Json [])) None) []).
  - vm_compute. reflexivity.
  - simpl. lia.
  - vm_compute. reflexivity.
Defined.

(** X5: with a first normalization factor that is zero, a region descriptor
    whose first component is a number makes the step raise
    [ZeroDivisionError]: no infinite coordinate is stored. *)
Theorem X5_zero_factor_raises_zero_division :
  forall (f1 f2 : float) (screen_context : option (dict float))
         (scale_factor : option float) (param_name trimmed_param : string)
         (a : ActionInputs) (num : string) (rest : list string) (x : float),
    box_numbers trimmed_param = num :: rest ->
    PyFloat.of_string num = Ok x ->
    PyFloat.truthy f1 = false ->
    set_box (f1, f2) screen_context scale_factor param_name trimmed_param a
    = Raise ZeroDivisionError.
Proof.
  intros f1 f2 screen_context scale_factor param_name trimmed_param a num rest x
         Hnum Hx Hf.
  unfold PyFloat.truthy in Hf. apply negb_false_iff in Hf.
  unfold set_box. rewrite Hnum. simpl. rewrite Hx. simpl.
  unfold PyFloat.div. rewrite Hf. reflexivity.
Qed.

Lemma X5_zero_factor_raises_zero_division_witness :
  set_box (0, 1000)%float None None "start_box" "(500,500)" default_inputs
  = Raise ZeroDivisionError.
Proof.
  apply (X5_zero_factor_raises_zero_division
           0%float 1000%float None None "start_box" "(500,500)" default_inputs
           "500" ["500"] 500%float);
    vm_compute; reflexivity.
Defined.

Lemma drop_suffix n s : exists pre, s = pre ++ drop n s.
Proof.
  revert s. induction n as [|n IH]; intros s.
  - exists "". reflexivity.
  - destruct s as [|c s]; [exists ""; reflexivity|].
    destruct (IH s) as [pre Hpre]. exists (String c pre).
    simpl. rewrite <- Hpre. reflexivity.
Qed.

Lemma contains_prefix sub s : String.prefix sub s = true -> contains sub s = true.
Proof.
  intros H. destruct s as [|c s].
  - change (contains sub "") with (String.prefix sub "" || false).
    rewrite H. reflexivity.
  - rewrite contains_unfold, H. reflexivity.
Qed.

Lemma lazy_reflection_marker s :
  forall g, lazy_reflection s = Some g -> contains "Action_Summary: " s = true.
Proof.
  induction s as [|c s IH]; intros g H.
  - simpl in H. discriminate.
  - destruct (String.prefix "Action_Summary: " (String c s)) eqn:Hp;
      [apply contains_prefix; exact Hp|].
    rewrite contains_unfold, Hp. simpl orb.
    change (lazy_reflection (String c s))
      with (match (if String.prefix "Action_Summary: " (String c s)
                   then match drop (String.length "Action_Summary: ") (String c s) with
                        | String c0 r => Some ("", String c0 (lazy_any r))
                        | "" => None
                        end
                   else None) with
            | Some g0 => Some g0
            | None => match lazy_reflection s with
                      | Some (g1, g2) => Some (String c g1, g2)
                      | None => None
                      end
            end) in H.
    rewrite Hp in H.
    destruct (lazy_reflection s) as [g'|] eqn:E; [|discriminate].
    eapply IH. reflexivity.
Qed.

Lemma search_reflection_marker s :
  forall g, search_reflection s = Some g -> contains "Action_Summary: " s = true.
Proof.
  induction s as [|c s IH]; intros g; [discriminate|].
  change (search_reflection (String c s))
    with (match (if String.prefix "Reflection: " (String c s)
                 then match drop (String.length "Reflection: ") (String c s) with
                      | String c0 r =>
                          match lazy_reflection r with
                          | Some (g1, g2) => Some (String c0 g1, g2)
                          | None => None
                          end
                      | "" => None
                      end
                 else None) with
          | Some g0 => Some g0
          | None => search_reflection s
          end).
  destruct (String.prefix "Reflection: " (String c s)).
  - destruct (drop (String.length "Reflection: ") (String c s)) as [|c0 r] eqn:Hd.
    + intros H. rewrite contains_unfold, (IH _ H). apply orb_true_r.
    + destruct (lazy_reflection r) as [[g1 g2]|] eqn:Hl.
      * intros _.
        destruct (drop_suffix (String.length "Reflection: ") (String c s))
          as [pre Hpre].
        rewrite Hd in Hpre. rewrite Hpre.
        apply contains_after.
        change (String c0 r) with (String c0 "" ++ r).
        apply contains_after. eapply lazy_reflection_marker; eauto.
      * intros H. rewrite contains_unfold, (IH _ H). apply orb_true_r.
  - intros H. rewrite contains_unfold, (IH _ H). apply orb_true_r.
Qed.

Lemma reflection_and_thought_trimmed text :
  (forall t, snd (reflection_and_thought text) = Some t -> bare_ends isspace t)
  /\ (forall r, fst (reflection_and_thought text) = Some r -> bare_ends isspace r).
Proof.
  unfold reflection_and_thought.
  destruct (startswith "Thought:" text).
  { destruct (search_thought text); simpl; split; intros t [= <-].
    apply strip_with_bare_ends. }
  destruct (startswith "Reflection:" text).
  { destruct (search_reflection text) as [[g1 g2]|]; simpl; split;
      intros t [= <-]; apply strip_with_bare_ends. }
  destruct (startswith "Action_Summary:" text).
  { destruct (search_summary text); simpl; split; intros t [= <-].
    apply strip_with_bare_ends. }
  simpl. split; intros t [= ].
Qed.

(** X6: on every record of a response, the thought and the reflection have
    no white space at either end, and a reflection is there only when the
    trimmed response starts with the marker Reflection: and holds the marker
    of the summary. *)
Theorem X6_thought_and_reflection_are_trimmed :
  forall (factors : float * float) (screen_context : option (dict float))
         (scale_factor : option float) (text : string)
         (records : list PredictionParsed) (r : PredictionParsed),
    parse_action_vlm factors screen_context scale_factor text = Ok records ->
    In r records ->
    bare_ends isspace (thought r)
    /\ (forall refl, reflection r = Some refl ->
          bare_ends isspace refl
          /\ startswith "Reflection:" (strip text) = true
          /\ contains "Action_Summary: " (strip text) = true).
Proof.
  intros factors screen_context scale_factor text records r Hparse Hin.
  rewrite parse_action_vlm_mapM in Hparse.
  destruct (mapM_In _ _ _ _ Hparse Hin) as (raw_str & _ & Hone).
  destruct (record_of_thought _ _ _ _ _ _ Hone) as [Ht Hr].
  destruct (reflection_and_thought_trimmed (strip text)) as [T R].
  split.
  - rewrite Ht. unfold thought_of.
    destruct (snd (reflection_and_thought (strip text))) as [t|] eqn:E.
    + apply T. reflexivity.
    + split; intros c [= ].
  - intros refl Hrefl. rewrite Hr in Hrefl. unfold reflection_of in Hrefl.
    split; [apply R; exact Hrefl|].
    revert Hrefl. unfold reflection_and_thought.
    destruct (startswith "Thought:" (strip text));
      [destruct (search_thought (strip text)); discriminate|].
    destruct (startswith "Reflection:" (strip text)) eqn:Hstart.
    + intros Hrefl. split; [reflexivity|].
      destruct (search_reflection (strip text)) as [[g1 g2]|] eqn:Hs;
        [|discriminate].
      eapply search_reflection_marker; eauto.
    + destruct (startswith "Action_Summary:" (strip text));
        [destruct (search_summary (strip text)); discriminate | discriminate].
Qed.

Lemma X6_thought_and_reflection_are_trimmed_witness :
  bare_ends isspace "s1"
  /\ (forall refl, Some "r1" = Some refl ->
        bare_ends isspace refl
        /\ startswith "Reflection:"
             (strip "Reflection: r1  Action_Summary:  s1 Action: wait()") = true
        /\ contains "Action_Summary: "
             (strip "Reflection: r1  Action_Summary:  s1 Action: wait()") = true).
Proof.
  apply (X6_thought_and_reflection_are_trimmed
           default_factors None None
           "Reflection: r1  Action_Summary:  s1 Action: wait()"
           [{| action_inputs := default_inputs; action_type := "wait";
               thought := "s1"; reflection := Some "r1" |}]
           {| action_inputs := default_inputs; action_type := "wait";
              thought := "s1"; reflection := Some "r1" |}).
  - vm_compute. reflexivity.
  - left. reflexivity.
Defined.

(** * Further properties of the tokenizer and of the action parser *)

(** Every character of [s] is in the class [p]. *)
Fixpoint all_chars (p : ascii -> bool) (s : string) : bool :=
  match s with
  | "" => true
  | String c s' => p c && all_chars p s'
  end.

(** A non-empty run of word characters: what [\w+] matches in full. *)
Definition word (s : string) : Prop :=
  is_empty s = false /\ all_chars isword s = true.

Section Words.

Lemma all_chars_app p s t :
  all_chars p (s ++ t) = all_chars p s && all_chars p t.
Proof.
  induction s as [|c s IH]; simpl; [reflexivity|].
  rewrite IH, andb_assoc. reflexivity.
Qed.

Lemma all_chars_impl (p q : ascii -> bool) s :
  (forall c, p c = true -> q c = true) ->
  all_chars p s = true -> all_chars q s = true.
Proof.
  intros Hpq. induction s as [|c s IH]; simpl; [reflexivity|].
  rewrite !andb_true_iff. intros [Hc Hs]. auto.
Qed.

Lemma take_while_all p s : all_chars p (take_while p s) = true.
Proof.
  induction s as [|c s IH]; simpl; [reflexivity|].
  destruct (p c) eqn:Hc; simpl; [rewrite Hc, IH|]; reflexivity.
Qed.

Lemma take_while_app p a b :
  all_chars p a = true ->
  match b with
  | "" => True
  | String c _ => p c = false
  end ->
  take_while p (a ++ b) = a.
Proof.
  intros Ha Hb. induction a as [|c a IH]; simpl.
  - destruct b as [|c b]; simpl; [reflexivity | rewrite Hb; reflexivity].
  - simpl in Ha. apply andb_true_iff in Ha. destruct Ha as [Hc Ha].
    rewrite Hc, (IH Ha). reflexivity.
Qed.

Lemma drop_app a b : drop (String.length a) (a ++ b) = b.
Proof. induction a as [|c a IH]; simpl; [destruct b; reflexivity | exact IH]. Qed.

Lemma drop_all_chars p n s :
  all_chars p s = true -> all_chars p (drop n s) = true.
Proof.
  revert s. induction n as [|n IH]; intros s H; [destruct s; exact H|].
  destruct s as [|c s]; [reflexivity|].
  simpl in *. apply andb_true_iff in H. apply IH, H.
Qed.

(** A word character is no white space, no equals sign, no quote, no
    parenthesis: checked on the 256 characters. *)
Lemma isword_not_special c :
  isword c = true ->
  isspace c = false /\ Ascii.eqb c "=" = false /\ is_quote c = false
  /\ Ascii.eqb c "(" = false /\ Ascii.eqb c newline = false
  /\ Ascii.eqb c backslash = false /\ Ascii.eqb c "," = false.
Proof.
  destruct c as [[] [] [] [] [] [] [] []]; vm_compute; intros H;
    first [discriminate H | repeat split].
Qed.

(** A text with no character of the class at its ends is its own strip. *)
Lemma rstrip_with_id p s :
  (forall c, last_char s = Some c -> p c = false) -> rstrip_with p s = s.
Proof.
  induction s as [|c s IH]; intros H; simpl; [reflexivity|].
  simpl in H. destruct (last_char s) as [d|] eqn:Hl.
  - rewrite IH by exact H. destruct s; [discriminate | reflexivity].
  - apply last_char_none in Hl. subst s. simpl.
    rewrite (H c eq_refl). reflexivity.
Qed.

Lemma strip_with_id p s :
  (forall c, first_char s = Some c -> p c = false) ->
  (forall c, last_char s = Some c -> p c = false) ->
  strip_with p s = s.
Proof.
  intros Hf Hl. unfold strip_with. rewrite (rstrip_with_id p s Hl).
  destruct s as [|c s]; [reflexivity|].
  simpl. rewrite (Hf c eq_refl). reflexivity.
Qed.

Lemma last_char_all p s c :
  all_chars p s = true -> last_char s = Some c -> p c = true.
Proof.
  induction s as [|d s IH]; simpl; [discriminate|].
  rewrite andb_true_iff. intros [Hd Hs].
  destruct (last_char s) as [e|]; [auto|].
  intros [= <-]. exact Hd.
Qed.

Lemma strip_word s : all_chars isword s = true -> strip s = s.
Proof.
  intros H. apply strip_with_id.
  - destruct s as [|c s]; simpl; [discriminate|].
    intros d [= <-]. simpl in H. apply andb_true_iff in H.
    apply isword_not_special, H.
  - intros c Hc. apply isword_not_special. eapply last_char_all; eauto.
Qed.

(** The first group of a match of the argument pattern is a word. *)
Lemma arg_pattern_key s g n :
  arg_pattern s = Some (g, n) ->
  let '(k, _, _, _, _) := g in word k.
Proof.
  unfold arg_pattern.
  destruct (is_empty (take_while isword s)) eqn:Hw; [discriminate|].
  destruct (drop (String.length (take_while isword s)) s) as [|e v];
    [discriminate|].
  destruct (negb (Ascii.eqb e "=")); [discriminate|].
  assert (Hword : word (take_while isword s))
    by (split; [exact Hw | apply take_while_all]).
  repeat match goal with
         | |- context [match ?x with Some _ => _ | None => _ end] =>
             destruct x
         | |- context [if ?b then _ else _] => destruct b
         end;
    intros [= <- _]; exact Hword.
Qed.

Lemma findall_args_keys s :
  forall skip,
    Forall (fun g : groups => let '(k, _, _, _, _) := g in word k)
           (findall_args skip s).
Proof.
  induction s as [|c s IH]; intros skip; simpl; [constructor|].
  destruct skip as [|skip]; [|apply IH].
  destruct (arg_pattern (String c s)) as [[g [|n]]|] eqn:Hp; try apply IH.
  constructor; [|apply IH].
  exact (arg_pattern_key _ _ _ Hp).
Qed.

(** Every pair of the tokenizer is a word, an equals sign and a non-empty
    value. *)
Definition key_value (pair_str : string) : Prop :=
  exists k v, pair_str = k ++ "=" ++ v /\ word k /\ is_empty v = false.

Lemma first_nonempty_Ok g v :
  first_nonempty g = Ok v -> is_empty v = false.
Proof.
  unfold first_nonempty. destruct g as [[[[k g2] g3] g4] g5].
  destruct (find (fun v0 => negb (is_empty v0)) [g2; g3; g4; g5]) as [v0|] eqn:Hf;
    [|discriminate].
  intros [= <-]. apply find_some in Hf. destruct Hf as [_ Hf].
  apply negb_true_iff in Hf. exact Hf.
Qed.

Lemma parse_action_args_pair_pairs args_str arg_pairs :
  parse_action_args_pair args_str = Ok arg_pairs ->
  Forall key_value arg_pairs.
Proof.
  unfold parse_action_args_pair.
  generalize (findall_args_keys
                (sub_del escaped_quoted_equals 0
                   (sub_del quoted_equals 0 args_str)) 0).
  generalize (findall_args 0
                (sub_del escaped_quoted_equals 0
                   (sub_del quoted_equals 0 args_str))).
  intros matches Hkeys. revert arg_pairs.
  induction Hkeys as [|g matches Hg Hrest IH]; intros arg_pairs; simpl.
  - intros [= <-]. constructor.
  - destruct g as [[[[k g2] g3] g4] g5].
    destruct (first_nonempty (k, g2, g3, g4, g5)) as [v|e] eqn:Hv;
      simpl; [|discriminate].
    destruct (mapM _ matches) as [ps|e]; simpl; [|discriminate].
    intros [= <-]. constructor; [|apply IH; reflexivity].
    exists k, v. split; [reflexivity|]. split; [exact Hg|].
    eapply first_nonempty_Ok; eauto.
Qed.

Lemma partition1_word k v :
  all_chars isword k = true ->
  partition1 "=" (k ++ "=" ++ v) = Some (k, v).
Proof.
  induction k as [|c k IH]; intros H; simpl.
  - reflexivity.
  - simpl in H. apply andb_true_iff in H. destruct H as [Hc Hk].
    destruct (isword_not_special c Hc) as (_ & -> & _).
    simpl in IH. rewrite (IH Hk). reflexivity.
Qed.

Lemma split1_key_value k v :
  all_chars isword k = true -> split1 "=" (k ++ "=" ++ v) = [k; v].
Proof. intros H. unfold split1. rewrite (partition1_word k v H). reflexivity. Qed.

Lemma dict_set_keys {V : Type} k (v : V) d :
  map fst (dict_set k v d)
  = if existsb (String.eqb k) (map fst d) then map fst d
    else (map fst d ++ [k])%list.
Proof.
  induction d as [|[k' v'] d IH]; simpl; [reflexivity|].
  rewrite (String.eqb_sym k k').
  destruct (String.eqb k' k); simpl; [reflexivity|].
  rewrite IH. destruct (existsb (String.eqb k) (map fst d)); reflexivity.
Qed.

Lemma dict_set_NoDup {V : Type} k (v : V) d :
  NoDup (map fst d) -> NoDup (map fst (dict_set k v d)).
Proof.
  intros H. rewrite dict_set_keys.
  destruct (existsb (String.eqb k) (map fst d)) eqn:E; [exact H|].
  apply NoDup_app; [exact H | constructor; [intros [] | constructor] |].
  intros key' Hin [<- | []].
  assert (existsb (String.eqb k) (map fst d) = true)
    by (apply existsb_exists; exists k; split; [exact Hin | apply String.eqb_refl]).
  congruence.
Qed.

Lemma dict_set_keys_Forall {V : Type} (P : string -> Prop) k (v : V) d :
  P k -> Forall P (map fst d) -> Forall P (map fst (dict_set k v d)).
Proof.
  intros Hk Hd. rewrite dict_set_keys.
  destruct (existsb (String.eqb k) (map fst d)); [exact Hd|].
  apply Forall_app. split; [exact Hd | constructor; [exact Hk | constructor]].
Qed.

Lemma parse_pairs_cons pair_str rest kwargs :
  parse_pairs (pair_str :: rest) kwargs
  = if is_empty (hd "" (split1 "=" pair_str)) then parse_pairs rest kwargs
    else parse_pairs rest
           (dict_set (strip (hd "" (split1 "=" pair_str)))
                     (clean_value (split1 "=" pair_str)) kwargs).
Proof. reflexivity. Qed.

Lemma parse_pairs_keys arg_pairs :
  Forall key_value arg_pairs ->
  forall kwargs,
    Forall word (map fst kwargs) /\ NoDup (map fst kwargs) ->
    Forall word (map fst (parse_pairs arg_pairs kwargs))
    /\ NoDup (map fst (parse_pairs arg_pairs kwargs)).
Proof.
  induction 1 as [|pair_str rest (k & v & -> & Hk & Hv) Hrest IH];
    intros kwargs [Hw Hn]; [simpl; auto|].
  destruct Hk as [Hne Hall].
  rewrite parse_pairs_cons, (split1_key_value k v Hall). simpl hd. rewrite Hne.
  apply IH. rewrite (strip_word k Hall). split.
  - apply dict_set_keys_Forall; [split; assumption | exact Hw].
  - apply dict_set_NoDup, Hn.
Qed.

End Words.

Section Calls.

Lemma function_call_name s w a : function_call s = Some (w, a) -> word w.
Proof.
  unfold function_call.
  destruct (is_empty (take_while isword s)) eqn:Hw; [discriminate|].
  destruct (drop (String.length (take_while isword s)) s) as [|c r];
    [discriminate|].
  destruct (negb (Ascii.eqb c "(")); [discriminate|].
  destruct (is_empty _ || String.eqb _ nl); [|discriminate].
  destruct (upto_last ")" (take_while not_newline r)) as [t|]; [|discriminate].
  destruct (String.eqb t (take_while not_newline r)); [|discriminate].
  intros [= <- _]. split; [exact Hw | apply take_while_all].
Qed.

Lemma take_while_id p s : all_chars p s = true -> take_while p s = s.
Proof.
  induction s as [|c s IH]; simpl; [reflexivity|].
  rewrite andb_true_iff. intros [-> Hs]. rewrite (IH Hs). reflexivity.
Qed.

Lemma drop_length s : drop (String.length s) s = "".
Proof. induction s as [|c s IH]; simpl; [reflexivity | exact IH]. Qed.

Lemma upto_last_end q s : upto_last q (s ++ String q "") = Some (s ++ String q "").
Proof.
  induction s as [|c s IH]; simpl.
  - rewrite Ascii.eqb_refl. reflexivity.
  - simpl in IH. rewrite IH. reflexivity.
Qed.

Lemma substring_prefix a b : String.substring 0 (String.length a) (a ++ b) = a.
Proof.
  induction a as [|c a IH]; simpl; [destruct b; reflexivity|].
  rewrite IH. reflexivity.
Qed.

Lemma length_app_one s c : String.length (s ++ String c "") = S (String.length s).
Proof. induction s as [|d s IH]; simpl; [reflexivity | rewrite IH; reflexivity]. Qed.

(** A word, an opening parenthesis, a text with no newline and a closing
    parenthesis match the function-call shape, with these two groups. *)
Lemma function_call_shape name inner :
  word name -> all_chars not_newline inner = true ->
  function_call (name ++ "(" ++ inner ++ ")") = Some (name, inner).
Proof.
  intros [Hne Hall] Hinner. unfold function_call.
  rewrite (take_while_app isword name ("(" ++ inner ++ ")") Hall)
    by reflexivity.
  rewrite Hne, drop_app.
  change ("(" ++ inner ++ ")") with (String "(" (inner ++ ")")).
  cbv iota. rewrite Ascii.eqb_refl. simpl negb. cbv iota.
  assert (Hline : all_chars not_newline (inner ++ ")") = true)
    by (rewrite all_chars_app, Hinner; reflexivity).
  rewrite (take_while_id _ _ Hline), drop_length. simpl orb. cbv iota.
  rewrite upto_last_end, String.eqb_refl, length_app_one.
  simpl Nat.sub. rewrite Nat.sub_0_r, substring_prefix. reflexivity.
Qed.

Lemma first_char_app s t c :
  first_char s = Some c -> first_char (s ++ t) = Some c.
Proof. destruct s; simpl; [discriminate | auto]. Qed.

Lemma strip_call name inner :
  word name -> strip (name ++ "(" ++ inner ++ ")") = name ++ "(" ++ inner ++ ")".
Proof.
  intros [Hne Hall]. apply strip_with_id.
  - destruct name as [|c name]; [discriminate|].
    simpl. intros d [= <-]. simpl in Hall. apply andb_true_iff in Hall.
    apply isword_not_special, Hall.
  - intros c Hc.
    rewrite (last_char_app name _ ")"%char) in Hc.
    + injection Hc as <-. reflexivity.
    + apply (last_char_app "(" _ ")"%char), (last_char_app inner ")" ")"%char).
      reflexivity.
Qed.

Lemma sub_del_all_chars p m s :
  all_chars p s = true -> forall skip, all_chars p (sub_del m skip s) = true.
Proof.
  induction s as [|c s IH]; intros H skip; simpl; [reflexivity|].
  simpl in H. apply andb_true_iff in H. destruct H as [Hc Hs].
  destruct skip as [|skip]; [|apply IH, Hs].
  destruct (m (String c s)) as [[|n]|]; simpl;
    try (rewrite Hc; simpl); apply IH, Hs.
Qed.

Definition not_equals (c : ascii) : bool := negb (Ascii.eqb c "=").

(** The argument pattern needs an equals sign. *)
Lemma arg_pattern_needs_equals s :
  all_chars not_equals s = true -> arg_pattern s = None.
Proof.
  intros H. unfold arg_pattern.
  destruct (is_empty (take_while isword s)); [reflexivity|].
  pose proof (drop_all_chars _ (String.length (take_while isword s)) s H) as Hd.
  destruct (drop (String.length (take_while isword s)) s) as [|e v];
    [reflexivity|].
  simpl in Hd. apply andb_true_iff in Hd. destruct Hd as [He _].
  unfold not_equals in He. rewrite He. reflexivity.
Qed.

Lemma findall_args_needs_equals s :
  all_chars not_equals s = true -> forall skip, findall_args skip s = [].
Proof.
  induction s as [|c s IH]; intros H skip; [reflexivity|].
  pose proof (arg_pattern_needs_equals _ H) as Hp.
  simpl in H. apply andb_true_iff in H. destruct H as [_ Hs].
  destruct skip as [|skip].
  - change (findall_args 0 (String c s))
      with (match arg_pattern (String c s) with
            | Some (g, S k) => g :: findall_args k s
            | _ => findall_args 0 s
            end).
    rewrite Hp. apply IH, Hs.
  - apply IH, Hs.
Qed.

Lemma parse_action_args_pair_needs_equals args_str :
  all_chars not_equals args_str = true ->
  parse_action_args_pair args_str = Ok [].
Proof.
  intros H. unfold parse_action_args_pair.
  rewrite findall_args_needs_equals; [reflexivity|].
  apply sub_del_all_chars, sub_del_all_chars, H.
Qed.

End Calls.

(** X7: in every action that parses, the function name and every argument
    name are non-empty runs of word characters, and no argument name occurs
    twice in the mapping. *)
Theorem X7_names_are_words_and_keys_distinct :
  forall (action_str function_name : string) (args : dict string),
    parse_action action_str = Some (function_name, args) ->
    word function_name
    /\ Forall word (map fst args)
    /\ NoDup (map fst args).
Proof.
  intros action_str function_name args. unfold parse_action, parse_action_body.
  destruct (function_call (strip action_str)) as [[fn args_str]|] eqn:Hcall;
    [|discriminate].
  apply function_call_name in Hcall.
  destruct (is_empty (strip args_str)).
  - intros [= <- <-]. repeat split; [apply Hcall.. | constructor | constructor].
  - destruct (parse_action_args_pair args_str) as [arg_pairs|e] eqn:Hpairs;
      simpl; [|discriminate].
    intros [= <- <-]. split; [exact Hcall|].
    apply parse_pairs_keys.
    + eapply parse_action_args_pair_pairs; eauto.
    + split; constructor.
Qed.

Lemma X7_names_are_words_and_keys_distinct_witness :
  word "drag"
  /\ Forall word (map fst [("start_box", "(5,6)"); ("end_box", "(3,4)")])
  /\ NoDup (map fst [("start_box", "(5,6)"); ("end_box", "(3,4)")]).
Proof.
  apply (X7_names_are_words_and_keys_distinct
           "drag(start_box='(1,2)', end_box='(3,4)', start_box='(5,6)')"
           "drag" [("start_box", "(5,6)"); ("end_box", "(3,4)")]).
  vm_compute. reflexivity.
Defined.

(** X8: a call whose parentheses hold no equals sign and no newline, so no
    named argument (nothing at all, or positional values), parses to the
    function name with an empty mapping: it is no failure. *)
Theorem X8_call_without_named_argument :
  forall (name inner : string),
    word name ->
    all_chars not_equals inner = true ->
    all_chars not_newline inner = true ->
    parse_action (name ++ "(" ++ inner ++ ")") = Some (name, []).
Proof.
  intros name inner Hname Heq Hnl.
  unfold parse_action, parse_action_body.
  rewrite (strip_call name inner Hname), (function_call_shape name inner Hname Hnl).
  destruct (is_empty (strip inner)); [reflexivity|].
  rewrite (parse_action_args_pair_needs_equals inner Heq). reflexivity.
Qed.

Lemma X8_call_without_named_argument_witness :
  parse_action ("click" ++ "(" ++ "100, 200" ++ ")") = Some ("click", []).
Proof.
  apply (X8_call_without_named_argument "click" "100, 200").
  - split; reflexivity.
  - reflexivity.
  - reflexivity.
Defined.

(** ** Quoted arguments come back as they were written *)

(** A character that a value between single quotes may hold here: no quote,
    no backslash, no newline. *)
Definition plain (c : ascii) : bool :=
  negb (is_quote c || Ascii.eqb c newline || Ascii.eqb c backslash).

(** A value that the tokenizer and the parser leave as it is: not empty,
    made of plain characters, with no white space at its ends, no equals
    sign at its start and no bbox tag. *)
Definition plain_value (v : string) : Prop :=
  is_empty v = false
  /\ all_chars plain v = true
  /\ (forall c, first_char v = Some c ->
                isspace c = false /\ Ascii.eqb c "=" = false)
  /\ (forall c, last_char v = Some c -> isspace c = false)
  /\ contains "<bbox>" v = false.

(** A value that the tokenizer hands on as it is, between single quotes: not
    empty, made of plain characters, with no equals sign at its start. *)
Definition raw_value (v : string) : Prop :=
  is_empty v = false
  /\ all_chars plain v = true
  /\ (forall c, first_char v = Some c -> Ascii.eqb c "=" = false).

(** [k='v'] *)
Definition quoted_arg (item : string * string) : string :=
  fst item ++ "='" ++ snd item ++ "'".

(** The arguments between the parentheses: [k1='v1', k2='v2', ...]. *)
Fixpoint join_args (args : list (string * string)) : string :=
  match args with
  | [] => ""
  | item :: rest =>
      quoted_arg item ++ match rest with
                         | [] => ""
                         | _ :: _ => ", " ++ join_args rest
                         end
  end.

Section QuotedArguments.

Definition more_args (rest : list (string * string)) : string :=
  match rest with
  | [] => ""
  | _ :: _ => ", " ++ join_args rest
  end.

Lemma join_args_cons k v rest :
  join_args ((k, v) :: rest) = k ++ "='" ++ v ++ "'" ++ more_args rest.
Proof.
  unfold more_args. simpl join_args. unfold quoted_arg. simpl fst. simpl snd.
  rewrite !app_assoc_string. reflexivity.
Qed.

Lemma sub_del_unfold m c s :
  sub_del m 0 (String c s)
  = match m (String c s) with
    | Some (S k) => sub_del m k s
    | _ => String c (sub_del m 0 s)
    end.
Proof. reflexivity. Qed.

(** [re.sub] passes over a run of characters at which the pattern cannot
    start. *)
Lemma sub_del_pass (m : string -> option nat) (start : ascii -> bool) a t :
  (forall c s, start c = false -> m (String c s) = None) ->
  all_chars (fun c => negb (start c)) a = true ->
  sub_del m 0 (a ++ t) = a ++ sub_del m 0 t.
Proof.
  intros Hm. induction a as [|c a IH]; intros Ha; [reflexivity|].
  simpl in Ha. apply andb_true_iff in Ha. destruct Ha as [Hc Ha].
  apply negb_true_iff in Hc.
  change (String c a ++ t) with (String c (a ++ t)).
  rewrite sub_del_unfold, (Hm c _ Hc), (IH Ha). reflexivity.
Qed.

Lemma quoted_equals_start c s :
  is_quote c = false -> quoted_equals (String c s) = None.
Proof.
  intros H. unfold quoted_equals.
  destruct s as [|e [|q2 r]]; try reflexivity. rewrite H. reflexivity.
Qed.

Lemma escaped_quoted_equals_start c s :
  Ascii.eqb c backslash = false -> escaped_quoted_equals (String c s) = None.
Proof.
  intros H. unfold escaped_quoted_equals.
  destruct s as [|q1 [|e [|b2 [|q2 r]]]]; try reflexivity.
  rewrite H. reflexivity.
Qed.

Lemma plain_not_special c :
  plain c = true ->
  is_quote c = false /\ Ascii.eqb c newline = false
  /\ Ascii.eqb c backslash = false.
Proof.
  unfold plain. rewrite negb_true_iff, !orb_false_iff. tauto.
Qed.

Lemma word_chars_plain k :
  all_chars isword k = true ->
  all_chars (fun c => negb (is_quote c)) k = true
  /\ all_chars (fun c => negb (Ascii.eqb c backslash)) k = true
  /\ all_chars not_newline k = true.
Proof.
  intros H. repeat split; eapply all_chars_impl; try exact H;
    intros c Hc; destruct (isword_not_special c Hc)
      as (_ & _ & Hq & _ & Hn & Hb & _);
    unfold not_newline; rewrite ?Hq, ?Hn, ?Hb; reflexivity.
Qed.

Lemma plain_chars v :
  all_chars plain v = true ->
  all_chars (fun c => negb (is_quote c)) v = true
  /\ all_chars (fun c => negb (Ascii.eqb c backslash)) v = true
  /\ all_chars not_newline v = true.
Proof.
  intros H. repeat split; eapply all_chars_impl; try exact H;
    intros c Hc; destruct (plain_not_special c Hc) as (Hq & Hn & Hb);
    unfold not_newline; rewrite ?Hq, ?Hn, ?Hb; reflexivity.
Qed.

Definition good_args (args : list (string * string)) : Prop :=
  Forall (fun item => word (fst item) /\ plain_value (snd item)) args.

Definition raw_args (args : list (string * string)) : Prop :=
  Forall (fun item => word (fst item) /\ raw_value (snd item)) args.

Lemma good_raw args : good_args args -> raw_args args.
Proof.
  apply Forall_impl. intros [k v] [Hk (Hne & Hv & Hfirst & _)].
  split; [exact Hk|]. split; [exact Hne|]. split; [exact Hv|].
  intros c Hc. apply (Hfirst c Hc).
Qed.

(** The text of the arguments has no newline and no backslash. *)
Lemma join_args_chars args :
  raw_args args ->
  all_chars not_newline (join_args args) = true
  /\ all_chars (fun c => negb (Ascii.eqb c backslash)) (join_args args) = true.
Proof.
  induction 1 as [|[k v] rest [[_ Hk] (_ & Hv & _)] Hrest [IH1 IH2]];
    [split; reflexivity|].
  rewrite join_args_cons. simpl in Hk, Hv.
  destruct (word_chars_plain k Hk) as (_ & Kb & Kn).
  destruct (plain_chars v Hv) as (_ & Vb & Vn).
  assert (Hmore : all_chars not_newline (more_args rest) = true
                  /\ all_chars (fun c => negb (Ascii.eqb c backslash))
                               (more_args rest) = true).
  { unfold more_args. destruct rest; [split; reflexivity|].
    rewrite !all_chars_app, IH1, IH2. split; reflexivity. }
  destruct Hmore as [M1 M2].
  rewrite !all_chars_app, Kn, Kb, Vn, Vb, M1, M2. split; reflexivity.
Qed.

(** No quoted equals sign to remove. *)
Lemma sub_del_quoted_equals_id args :
  raw_args args ->
  sub_del quoted_equals 0 (join_args args) = join_args args.
Proof.
  induction 1 as [|[k v] rest [[_ Hk] (Hne & Hv & Hfirst)] Hrest IH];
    [reflexivity|].
  rewrite join_args_cons. simpl in Hk, Hv, Hne, Hfirst.
  destruct (word_chars_plain k Hk) as (Kq & _ & _).
  destruct (plain_chars v Hv) as (Vq & _ & _).
  rewrite (sub_del_pass quoted_equals is_quote k _ quoted_equals_start Kq).
  f_equal.
  change ("='" ++ v ++ "'" ++ more_args rest)
    with (String "=" (String squote (v ++ "'" ++ more_args rest))).
  rewrite sub_del_unfold, quoted_equals_start by reflexivity.
  f_equal.
  rewrite sub_del_unfold.
  assert (Hopen : quoted_equals (String squote (v ++ "'" ++ more_args rest)) = None).
  { destruct v as [|c v]; [discriminate|].
    pose proof (Hfirst c eq_refl) as Hc.
    unfold quoted_equals. simpl.
    destruct (v ++ _) as [|q2 r]; [reflexivity|].
    rewrite Hc. reflexivity. }
  rewrite Hopen. f_equal.
  rewrite (sub_del_pass quoted_equals is_quote v _ quoted_equals_start Vq).
  f_equal.
  change ("'" ++ more_args rest) with (String squote (more_args rest)).
  rewrite sub_del_unfold.
  assert (Hclose : quoted_equals (String squote (more_args rest)) = None).
  { unfold more_args. destruct rest; reflexivity. }
  rewrite Hclose. f_equal.
  unfold more_args. destruct rest as [|item rest']; [reflexivity|].
  change (", " ++ join_args (item :: rest'))
    with (String "," (String " " (join_args (item :: rest')))).
  rewrite sub_del_unfold, quoted_equals_start by reflexivity.
  rewrite sub_del_unfold, quoted_equals_start by reflexivity.
  rewrite IH. reflexivity.
Qed.

Lemma sub_del_escaped_id s :
  all_chars (fun c => negb (Ascii.eqb c backslash)) s = true ->
  sub_del escaped_quoted_equals 0 s = s.
Proof.
  intros H.
  pose proof (sub_del_pass escaped_quoted_equals
                (fun c => Ascii.eqb c backslash) s ""
                escaped_quoted_equals_start H) as E.
  assert (Hs : s ++ "" = s)
    by (clear; induction s as [|c s IH]; simpl; [|rewrite IH]; reflexivity).
  change (sub_del escaped_quoted_equals 0 "") with "" in E.
  rewrite !Hs in E. exact E.
Qed.

End QuotedArguments.

Section QuotedPairs.

Lemma findall_unfold c s :
  findall_args 0 (String c s)
  = match arg_pattern (String c s) with
    | Some (g, S k) => g :: findall_args k s
    | _ => findall_args 0 s
    end.
Proof. reflexivity. Qed.

Lemma findall_skip a t :
  findall_args (String.length a) (a ++ t) = findall_args 0 t.
Proof.
  induction a as [|c a IH]; [destruct t; reflexivity | exact IH].
Qed.

Lemma until_char_found q v t :
  all_chars (fun c => negb (Ascii.eqb c q)) v = true ->
  until_char q (v ++ String q t) = Some v.
Proof.
  induction v as [|c v IH]; intros H; simpl.
  - rewrite Ascii.eqb_refl. reflexivity.
  - simpl in H. apply andb_true_iff in H. destruct H as [Hc Hv].
    apply negb_true_iff in Hc. rewrite Hc, (IH Hv). reflexivity.
Qed.

Lemma length_app (a b : string) :
  String.length (a ++ b) = (String.length a + String.length b)%nat.
Proof. induction a as [|c a IH]; simpl; [reflexivity | rewrite IH; reflexivity]. Qed.

(** The argument pattern on [k='v'] and what follows. *)
Lemma arg_pattern_quoted k v t :
  word k -> all_chars plain v = true ->
  arg_pattern (k ++ "='" ++ v ++ "'" ++ t)
  = Some ((k, v, "", "", ""), String.length k + 1 + String.length v + 2)%nat.
Proof.
  intros [Hne Hk] Hv. unfold arg_pattern.
  rewrite (take_while_app isword k ("='" ++ v ++ "'" ++ t) Hk) by reflexivity.
  rewrite Hne, drop_app.
  change ("='" ++ v ++ "'" ++ t)
    with (String "=" (String squote (v ++ String squote t))).
  cbv iota beta zeta. rewrite !Ascii.eqb_refl. simpl negb. cbv iota.
  rewrite until_char_found; [reflexivity|].
  eapply all_chars_impl; [|exact Hv].
  intros c Hc. destruct (plain_not_special c Hc) as (Hq & _).
  unfold is_quote in Hq. apply orb_false_iff in Hq. destruct Hq as [-> _].
  reflexivity.
Qed.

Definition as_groups (item : string * string) : groups :=
  (fst item, snd item, "", "", "").

Lemma findall_join_args args :
  raw_args args -> findall_args 0 (join_args args) = map as_groups args.
Proof.
  induction 1 as [|[k v] rest [Hk (Hne & Hv & _)] Hrest IH]; [reflexivity|].
  simpl in Hk, Hv, Hne.
  rewrite join_args_cons.
  pose proof (arg_pattern_quoted k v (more_args rest) Hk Hv) as Hp.
  destruct k as [|c k']; [destruct Hk; discriminate|].
  change (String c k' ++ "='" ++ v ++ "'" ++ more_args rest)
    with (String c (k' ++ "='" ++ v ++ "'" ++ more_args rest)) in *.
  rewrite findall_unfold, Hp.
  change (String.length (String c k') + 1 + String.length v + 2)%nat
    with (S (String.length k' + 1 + String.length v + 2)).
  cbv iota.
  replace (k' ++ "='" ++ v ++ "'" ++ more_args rest)
    with ((k' ++ "='" ++ v ++ "'") ++ more_args rest)
    by (rewrite !app_assoc_string; reflexivity).
  replace (String.length k' + 1 + String.length v + 2)%nat
    with (String.length (k' ++ "='" ++ v ++ "'"))
    by (rewrite !length_app; simpl; lia).
  rewrite findall_skip. simpl map. f_equal.
  unfold more_args. destruct rest as [|item rest']; [reflexivity|].
  change (", " ++ join_args (item :: rest'))
    with (String "," (String " " (join_args (item :: rest')))).
  rewrite findall_unfold.
  change (arg_pattern (String "," (String " " (join_args (item :: rest')))))
    with (@None (groups * nat)).
  cbv iota. rewrite findall_unfold.
  change (arg_pattern (String " " (join_args (item :: rest'))))
    with (@None (groups * nat)).
  cbv iota. exact IH.
Qed.

Definition as_pair (item : string * string) : string :=
  fst item ++ "=" ++ snd item.

Lemma tokenizer_join_args args :
  raw_args args ->
  parse_action_args_pair (join_args args) = Ok (map as_pair args).
Proof.
  intros Hgood. unfold parse_action_args_pair.
  rewrite (sub_del_quoted_equals_id args Hgood).
  rewrite (sub_del_escaped_id _ (proj2 (join_args_chars args Hgood))).
  rewrite (findall_join_args args Hgood).
  induction Hgood as [|[k v] rest [_ (Hne & _)] Hrest IH]; [reflexivity|].
  simpl in Hne. simpl map.
  change (mapM ?f (as_groups (k, v) :: ?l))
    with (b <- f (as_groups (k, v)) ;; bs <- mapM f l ;; Ok (b :: bs)).
  rewrite IH.
  destruct v as [|c v]; [discriminate | reflexivity].
Qed.

Lemma first_char_all p s c :
  all_chars p s = true -> first_char s = Some c -> p c = true.
Proof.
  destruct s as [|d s]; simpl; [discriminate|].
  rewrite andb_true_iff. intros [Hd _] [= <-]. exact Hd.
Qed.

Lemma clean_value_plain k v : plain_value v -> clean_value [k; v] = v.
Proof.
  intros (Hne & Hv & Hfirst & Hlast & Hbbox). unfold clean_value.
  assert (Hstrip : strip v = v).
  { apply strip_with_id; [intros c Hc; apply (Hfirst c Hc) | exact Hlast]. }
  rewrite Hstrip.
  assert (Hq : strip_chars quote_chars v = v).
  { apply strip_with_id; intros c Hc; rewrite mem_quote_chars.
    - apply plain_not_special. eapply first_char_all; eauto.
    - apply plain_not_special. eapply last_char_all; eauto. }
  rewrite Hq, Hbbox. reflexivity.
Qed.

Lemma dict_set_fresh {V : Type} k (v : V) d :
  ~ In k (map fst d) -> dict_set k v d = (d ++ [(k, v)])%list.
Proof.
  induction d as [|[k' v'] d IH]; intros H; simpl; [reflexivity|].
  destruct (String.eqb_spec k' k) as [->|Hneq].
  - exfalso. apply H. left. reflexivity.
  - rewrite IH; [reflexivity|]. intros Hin. apply H. right. exact Hin.
Qed.

Lemma parse_pairs_join_args args :
  good_args args ->
  forall acc,
    NoDup (map fst acc ++ map fst args) ->
    parse_pairs (map as_pair args) acc = (acc ++ args)%list.
Proof.
  induction 1 as [|[k v] rest [Hk Hv] Hrest IH]; intros acc Hnd.
  - simpl. rewrite app_nil_r. reflexivity.
  - simpl in Hk, Hv. simpl map.
    rewrite parse_pairs_cons. change (as_pair (k, v)) with (k ++ "=" ++ v).
    destruct Hk as [Hne Hall].
    rewrite (split1_key_value k v Hall). simpl hd. rewrite Hne.
    rewrite (strip_word k Hall), (clean_value_plain k v Hv).
    simpl in Hnd.
    rewrite dict_set_fresh.
    + rewrite IH.
      * rewrite <- app_assoc. reflexivity.
      * rewrite map_app. simpl. rewrite <- app_assoc. exact Hnd.
    + intros Hin. apply NoDup_remove_2 in Hnd. apply Hnd.
      apply in_or_app. left. exact Hin.
Qed.

Lemma last_char_join_args item rest :
  last_char (join_args (item :: rest)) = Some squote.
Proof.
  revert item. induction rest as [|item' rest IH]; intros [k v].
  - rewrite join_args_cons. simpl more_args.
    apply last_char_app, last_char_app, last_char_app. reflexivity.
  - rewrite join_args_cons. unfold more_args.
    apply last_char_app, last_char_app, last_char_app, last_char_app, last_char_app.
    apply IH.
Qed.

End QuotedPairs.

(** X9: a call [name(k1='v1', k2='v2', ...)] whose names are words, all
    different, and whose values are plain text between single quotes parses
    to the name and to exactly these pairs, in the order written. *)
Theorem X9_quoted_arguments_round_trip :
  forall (name : string) (args : list (string * string)),
    word name ->
    Forall (fun item => word (fst item) /\ plain_value (snd item)) args ->
    NoDup (map fst args) ->
    parse_action (name ++ "(" ++ join_args args ++ ")") = Some (name, args).
Proof.
  intros name args Hname Hgood Hnd.
  unfold parse_action, parse_action_body.
  rewrite (strip_call name _ Hname).
  rewrite (function_call_shape name _ Hname
             (proj1 (join_args_chars args (good_raw _ Hgood)))).
  destruct args as [|item rest]; [reflexivity|].
  assert (Hstrip : strip (join_args (item :: rest)) = join_args (item :: rest)).
  { apply strip_with_id.
    - destruct item as [k v]. rewrite join_args_cons.
      inversion Hgood as [|? ? [[Hne Hall] _] _]; subst. simpl in Hne, Hall.
      destruct k as [|c k]; [discriminate|].
      simpl. intros d [= <-]. simpl in Hall. apply andb_true_iff in Hall.
      apply isword_not_special, Hall.
    - rewrite last_char_join_args. intros c [= <-]. reflexivity. }
  rewrite Hstrip.
  assert (Hne : is_empty (join_args (item :: rest)) = false).
  { destruct (join_args (item :: rest)) eqn:E; [|reflexivity].
    pose proof (last_char_join_args item rest) as Hl. rewrite E in Hl.
    discriminate. }
  rewrite Hne, (tokenizer_join_args _ (good_raw _ Hgood)). unfold bind.
  rewrite (parse_pairs_join_args _ Hgood []); [reflexivity | exact Hnd].
Qed.

Lemma X9_quoted_arguments_round_trip_witness :
  parse_action
    ("drag" ++ "("
     ++ join_args [("start_box", "(100,200)"); ("content", "hello world")]
     ++ ")")
  = Some ("drag", [("start_box", "(100,200)"); ("content", "hello world")]).
Proof.
  apply (X9_quoted_arguments_round_trip
           "drag" [("start_box", "(100,200)"); ("content", "hello world")]).
  - split; reflexivity.
  - assert (Hplain : forall v c1 c2,
               is_empty v = false -> all_chars plain v = true ->
               first_char v = Some c1 -> last_char v = Some c2 ->
               isspace c1 = false -> Ascii.eqb c1 "=" = false ->
               isspace c2 = false -> contains "<bbox>" v = false ->
               plain_value v).
    { intros v c1 c2 H1 H2 H3 H4 H5 H6 H7 H8.
      split; [exact H1|]. split; [exact H2|].
      split; [intros c Hc; rewrite H3 in Hc; injection Hc as <-; auto|].
      split; [intros c Hc; rewrite H4 in Hc; injection Hc as <-; auto|].
      exact H8. }
    apply Forall_cons; [split; [split; reflexivity|]|].
    + apply (Hplain "(100,200)" "("%char ")"%char); reflexivity.
    + apply Forall_cons; [split; [split; reflexivity|] | apply Forall_nil].
      apply (Hplain "hello world" "h"%char "d"%char); reflexivity.
  - apply NoDup_cons; [|apply NoDup_cons; [|apply NoDup_nil]].
    + intros [H | []]. discriminate H.
    + intros [].
Defined.

(** * parser.py: the other functions *)

(** ** get_summary *)

(** The lookahead [(?=Action_Summary:|Action:|$)]. *)
Definition at_summary_or_end (s : string) : bool :=
  String.prefix "Action_Summary:" s || String.prefix "Action:" s
  || is_empty s || String.eqb s nl.

(** The length of the lazy run [[\s\S]*?] before that lookahead: up to the
    first place where the lookahead holds. *)
Fixpoint lazy_run (s : string) : nat :=
  if at_summary_or_end s then 0
  else match s with
       | "" => 0
       | String _ s' => S (lazy_run s')
       end.

(** [Reflection:[\s\S]*?(?=Action_Summary:|Action:|$)] at the head of [s]:
    the length of the match. *)
Definition reflection_block (s : string) : option nat :=
  if String.prefix "Reflection:" s
  then Some (String.length "Reflection:"
             + lazy_run (drop (String.length "Reflection:") s))
  else None.

Definition get_summary (prediction : string) : string :=
  strip (sub_del reflection_block 0 prediction).

Section Summary.

Lemma sub_del_skip m a t : sub_del m (String.length a) (a ++ t) = sub_del m 0 t.
Proof. induction a as [|c a IH]; [destruct t; reflexivity | exact IH]. Qed.

Lemma prefix_unfold c1 s1 c2 s2 :
  String.prefix (String c1 s1) (String c2 s2)
  = if ascii_dec c1 c2 then String.prefix s1 s2 else false.
Proof. reflexivity. Qed.

Lemma prefix_nil_r c s : String.prefix (String c s) "" = false.
Proof. reflexivity. Qed.

Lemma prefix_nil_l s : String.prefix "" s = true.
Proof. destruct s; reflexivity. Qed.

(** A text that starts with [a ++ b] starts with [a]. *)
Lemma prefix_shorter a b s :
  String.prefix (a ++ b) s = true -> String.prefix a s = true.
Proof.
  revert s. induction a as [|c a IH]; intros s H; [apply prefix_nil_l|].
  destruct s as [|d s]; [discriminate H|].
  change (String c a ++ b) with (String c (a ++ b)) in H.
  rewrite prefix_unfold in *.
  destruct (ascii_dec c d); [apply IH, H | discriminate H].
Qed.

Lemma no_reflection_unchanged s :
  contains "Reflection:" s = false -> sub_del reflection_block 0 s = s.
Proof.
  induction s as [|c s IH]; intros H; [reflexivity|].
  rewrite contains_unfold in H. apply orb_false_iff in H. destruct H as [Hp Hs].
  assert (Hb : reflection_block (String c s) = None)
    by (unfold reflection_block; rewrite Hp; reflexivity).
  rewrite sub_del_unfold, Hb, (IH Hs). reflexivity.
Qed.

(** The word Action cannot start inside [t] and end in a text that starts
    with a capital A. *)
Lemma prefix_action_inside t rest0 :
  is_empty t = false ->
  String.prefix "Action" (t ++ String "A" rest0) = true ->
  String.prefix "Action" t = true.
Proof.
  intros Hne H.
  destruct t as [|c1 t]; [discriminate Hne|]. clear Hne.
  change (String c1 t ++ String "A" rest0)
    with (String c1 (t ++ String "A" rest0)) in H.
  rewrite prefix_unfold in *.
  destruct (ascii_dec "A" c1); [|discriminate H].
  destruct t as [|c2 t]; [discriminate H|].
  change (String c2 t ++ String "A" rest0)
    with (String c2 (t ++ String "A" rest0)) in H.
  rewrite prefix_unfold in *.
  destruct (ascii_dec "c" c2); [|discriminate H].
  destruct t as [|c3 t]; [discriminate H|].
  change (String c3 t ++ String "A" rest0)
    with (String c3 (t ++ String "A" rest0)) in H.
  rewrite prefix_unfold in *.
  destruct (ascii_dec "t" c3); [|discriminate H].
  destruct t as [|c4 t]; [discriminate H|].
  change (String c4 t ++ String "A" rest0)
    with (String c4 (t ++ String "A" rest0)) in H.
  rewrite prefix_unfold in *.
  destruct (ascii_dec "i" c4); [|discriminate H].
  destruct t as [|c5 t]; [discriminate H|].
  change (String c5 t ++ String "A" rest0)
    with (String c5 (t ++ String "A" rest0)) in H.
  rewrite prefix_unfold in *.
  destruct (ascii_dec "o" c5); [|discriminate H].
  destruct t as [|c6 t]; [discriminate H|].
  change (String c6 t ++ String "A" rest0)
    with (String c6 (t ++ String "A" rest0)) in H.
  rewrite prefix_unfold in *.
  destruct (ascii_dec "n" c6); [|discriminate H].
  apply prefix_nil_l.
Qed.

(** The lazy run passes over a text without the word Action and stops at
    the marker that follows. *)
Lemma lazy_run_reflection r rest0 :
  contains "Action" r = false ->
  at_summary_or_end (String "A" rest0) = true ->
  lazy_run (r ++ String "A" rest0) = String.length r.
Proof.
  intros Hr Hstop. induction r as [|c r IH].
  - change ("" ++ String "A" rest0) with (String "A" rest0).
    change (lazy_run (String "A" rest0))
      with (if at_summary_or_end (String "A" rest0) then 0
            else S (lazy_run rest0)).
    rewrite Hstop. reflexivity.
  - rewrite contains_unfold in Hr. apply orb_false_iff in Hr.
    destruct Hr as [Hp Hr'].
    change (String c r ++ String "A" rest0)
      with (String c (r ++ String "A" rest0)).
    change (lazy_run (String c (r ++ String "A" rest0)))
      with (if at_summary_or_end (String c (r ++ String "A" rest0)) then 0
            else S (lazy_run (r ++ String "A" rest0))).
    assert (Hgo : at_summary_or_end (String c (r ++ String "A" rest0)) = false).
    { assert (Hno : String.prefix "Action" (String c (r ++ String "A" rest0))
                    = false).
      { destruct (String.prefix "Action" (String c (r ++ String "A" rest0)))
          eqn:E; [|reflexivity].
        apply (prefix_action_inside (String c r) rest0 eq_refl) in E.
        congruence. }
      unfold at_summary_or_end.
      assert (H1 : String.prefix "Action_Summary:"
                     (String c (r ++ String "A" rest0)) = false).
      { destruct (String.prefix "Action_Summary:" _) eqn:E; [|reflexivity].
        apply (prefix_shorter "Action" "_Summary:") in E. congruence. }
      assert (H2 : String.prefix "Action:"
                     (String c (r ++ String "A" rest0)) = false).
      { destruct (String.prefix "Action:" _) eqn:E; [|reflexivity].
        apply (prefix_shorter "Action" ":") in E. congruence. }
      rewrite H1, H2. unfold nl. simpl.
      destruct (Ascii.eqb c newline); [destruct r; reflexivity | reflexivity]. }
    rewrite Hgo, (IH Hr'). reflexivity.
Qed.

Lemma starts_with_capital_a rest :
  String.prefix "Action_Summary:" rest = true
  \/ String.prefix "Action:" rest = true ->
  exists rest0, rest = String "A" rest0.
Proof.
  intros H.
  assert (Hp : String.prefix "A" rest = true).
  { destruct H as [H | H];
      [apply (prefix_shorter "A" "ction_Summary:") in H
      | apply (prefix_shorter "A" "ction:") in H]; exact H. }
  destruct rest as [|c rest0]; [discriminate Hp|].
  rewrite prefix_unfold in Hp.
  destruct (ascii_dec "A" c) as [<-|]; [|discriminate Hp].
  exists rest0. reflexivity.
Qed.

End Summary.

(** X10: a prediction with no marker Reflection: is returned as it is,
    trimmed. *)
Theorem X10_summary_of_text_without_reflection :
  forall (prediction : string),
    contains "Reflection:" prediction = false ->
    get_summary prediction = strip prediction.
Proof.
  intros prediction H. unfold get_summary.
  rewrite (no_reflection_unchanged prediction H). reflexivity.
Qed.

Lemma X10_summary_of_text_without_reflection_witness :
  get_summary " Thought: do X " = strip " Thought: do X ".
Proof.
  apply (X10_summary_of_text_without_reflection " Thought: do X ").
  reflexivity.
Defined.

(** X11: a prediction that starts with the marker Reflection:, goes on with
    a reflection that does not hold the word Action, and then with a summary
    or an action marker and a rest without the marker Reflection:, loses
    exactly the reflection: the summary is the text from the second marker
    on, trimmed. *)
Theorem X11_summary_drops_the_reflection :
  forall (reflection' rest : string),
    contains "Action" reflection' = false ->
    String.prefix "Action_Summary:" rest = true
    \/ String.prefix "Action:" rest = true ->
    contains "Reflection:" rest = false ->
    get_summary ("Reflection:" ++ reflection' ++ rest) = strip rest.
Proof.
  intros reflection' rest Hr Hmarker Hrest.
  destruct (starts_with_capital_a rest Hmarker) as [rest0 ->].
  assert (Hstop : at_summary_or_end (String "A" rest0) = true).
  { unfold at_summary_or_end. destruct Hmarker as [-> | ->];
      [reflexivity | apply orb_true_iff; left; apply orb_true_iff; left;
                     apply orb_true_r]. }
  unfold get_summary. f_equal.
  change ("Reflection:" ++ reflection' ++ String "A" rest0)
    with (String "R" ("eflection:" ++ reflection' ++ String "A" rest0)).
  rewrite sub_del_unfold.
  assert (Hblock : reflection_block
                     (String "R" ("eflection:" ++ reflection' ++ String "A" rest0))
                   = Some (S (String.length ("eflection:" ++ reflection')))).
  { unfold reflection_block.
    change (String "R" ("eflection:" ++ reflection' ++ String "A" rest0))
      with ("Reflection:" ++ reflection' ++ String "A" rest0).
    rewrite prefix_app, drop_app, (lazy_run_reflection _ _ Hr Hstop).
    rewrite length_app. reflexivity. }
  rewrite Hblock.
  replace ("eflection:" ++ reflection' ++ String "A" rest0)
    with (("eflection:" ++ reflection') ++ String "A" rest0)
    by (rewrite app_assoc_string; reflexivity).
  rewrite sub_del_skip. apply no_reflection_unchanged, Hrest.
Qed.

Lemma X11_summary_drops_the_reflection_witness :
  get_summary ("Reflection:" ++ " it worked " ++ "Action_Summary: go on")
  = strip "Action_Summary: go on".
Proof.
  apply (X11_summary_drops_the_reflection " it worked " "Action_Summary: go on").
  - reflexivity.
  - left. reflexivity.
  - reflexivity.
Defined.

(** ** get_screen_point and screen_point_to_bbox *)

Module PyNumber.

(** A number that is an [int] or a [float]: what [max] and [min] return
    when their arguments are of both kinds. *)
Inductive number : Type :=
| Int (n : Z)
| Float (f : float).

(** The comparison of a float with an int, which is exact; none with a
    NaN. *)
Definition compare_int (f : float) (n : Z) : option comparison :=
  match Prim2SF f with
  | S754_nan => None
  | S754_infinity s => Some (if s then Lt else Gt)
  | S754_zero _ => Some (0 ?= n)%Z
  | S754_finite s m e =>
      let v := if s then Zneg m else Zpos m in
      Some (if (0 <=? e)%Z then (v * 2 ^ e ?= n)%Z
            else (v ?= n * 2 ^ (- e))%Z)
  end.

(** [f < n] and [f > n] *)
Definition lt_int (f : float) (n : Z) : bool :=
  match compare_int f n with
  | Some Lt => true
  | _ => false
  end.

Definition gt_int (f : float) (n : Z) : bool :=
  match compare_int f n with
  | Some Gt => true
  | _ => false
  end.

(** [max(a, 0)]: the int when [0 > a], else [a]. *)
Definition max_zero (a : float) : number :=
  if lt_int a 0 then Int 0 else Float a.

(** [min(b, n)]: the int when [n < b], else [b]. *)
Definition min_int (b : float) (n : Z) : number :=
  if gt_int b n then Int n else Float b.

(** [round(v)] *)
Definition round (v : number) : result Z :=
  match v with
  | Int n => Ok n
  | Float f => PyFloat.round f
  end.

(** The conversion of the int operand of [float * int]: the nearest float,
    ties to even, [OverflowError] when it is too large. *)
Definition to_float (n : Z) : result float :=
  match binary_normalize prec emax n 0 false with
  | S754_infinity _ => Raise OverflowError
  | sf => Ok (SF2Prim sf)
  end.

End PyNumber.

(** [get_screen_point].  [coordinates] is the list that [json.loads] reads
    from [start_box], which is the [str] that [json.dumps] wrote for it (the
    case [Json] of a region field); [width] and [height] are the two values
    of [size]. *)
Definition get_screen_point (coordinates : list float) (width height : Z)
  : result (float * float) :=
  match firstn 2 coordinates with
  | [x; y] =>
      w <- PyNumber.to_float width ;;
      h <- PyNumber.to_float height ;;
      Ok ((x * w)%float, (y * h)%float)
  | _ => Raise ValueError
  end.

(** [BBOX_SIZE / 2] *)
Definition half_bbox_size : float := 5%float.

(** [screen_point_to_bbox], for the point of coordinates [px] and [py]. *)
Definition screen_point_to_bbox (px py : float) (width height : Z)
  : result bbox_t :=
  x1 <- PyNumber.round (PyNumber.max_zero (px - half_bbox_size)%float) ;;
  y1 <- PyNumber.round (PyNumber.max_zero (py - half_bbox_size)%float) ;;
  x2 <- PyNumber.round (PyNumber.min_int (px + half_bbox_size)%float width) ;;
  y2 <- PyNumber.round (PyNumber.min_int (py + half_bbox_size)%float height) ;;
  Ok (x1, y1, x2, y2).

Section Bounds.
Local Open Scope Z_scope.

(** The integer nearest to [m / d], ties to even, is the quotient or the
    next integer, and the next one only when the division leaves a rest. *)
Lemma half_even_bounds (m d : Z) :
  0 < d ->
  let q := m / d in
  let r := m mod d in
  let n := match 2 * r ?= d with
           | Lt => q
           | Gt => q + 1
           | Eq => if Z.even q then q else q + 1
           end in
  (n = q \/ (n = q + 1 /\ 0 < r)) /\ m = d * q + r /\ 0 <= r < d.
Proof.
  intros Hd q r n.
  pose proof (Z.div_mod m d ltac:(lia)) as Hdm.
  pose proof (Z.mod_pos_bound m d Hd) as Hr.
  fold q in Hdm. fold r in Hdm, Hr.
  split; [|split; assumption].
  subst n. destruct (2 * r ?= d) eqn:E.
  - apply Z.compare_eq in E. destruct (Z.even q); [left; reflexivity|].
    right. split; [reflexivity | lia].
  - left. reflexivity.
  - apply Z.compare_gt_iff in E. right. split; [reflexivity | lia].
Qed.

Ltac lt_of_compare E :=
  match type of E with
  | (?a ?= ?b) = Lt => change (a < b) in E
  end.

Lemma round_le_int f n w :
  PyFloat.round f = Ok n -> PyNumber.gt_int f w = false -> n <= w.
Proof.
  unfold PyFloat.round, PyNumber.gt_int, PyNumber.compare_int.
  destruct (Prim2SF f) as [s0 | s0 | | s m e]; try discriminate.
  - intros Hn. apply Ok_inj in Hn. subst n.
    destruct (0 ?= w) eqn:E; try discriminate; intros _.
    + apply Z.compare_eq in E. lia.
    + lt_of_compare E. lia.
  - intros Hn Hgt. apply Ok_inj in Hn. subst n. cbv zeta in Hgt.
    destruct (0 <=? e) eqn:He.
    + apply Z.leb_le in He.
      assert (Hp : 0 < 2 ^ e) by (apply Z.pow_pos_nonneg; lia).
      destruct s.
      * destruct (Zneg m * 2 ^ e ?= w) eqn:E; try discriminate.
        -- apply Z.compare_eq in E.
           assert (Zneg m = - Zpos m) by reflexivity. nia.
        -- lt_of_compare E.
           assert (Zneg m = - Zpos m) by reflexivity. nia.
      * destruct (Zpos m * 2 ^ e ?= w) eqn:E; try discriminate.
        -- apply Z.compare_eq in E. lia.
        -- lt_of_compare E. lia.
    + apply Z.leb_gt in He.
      assert (Hd : 0 < 2 ^ (- e)) by (apply Z.pow_pos_nonneg; lia).
      destruct (half_even_bounds (Zpos m) (2 ^ (- e)) Hd) as (Hn & Hm & Hr).
      cbv zeta in Hn. cbv zeta.
      set (d := 2 ^ (- e)) in *.
      set (q := Zpos m / d) in *. set (r := Zpos m mod d) in *.
      set (n0 := match 2 * r ?= d with
                 | Lt => q
                 | Gt => q + 1
                 | Eq => if Z.even q then q else q + 1
                 end) in *.
      destruct s.
      * destruct (Zneg m ?= w * d) eqn:E; try discriminate.
        -- apply Z.compare_eq in E.
           assert (Zneg m = - Zpos m) by reflexivity. nia.
        -- lt_of_compare E.
           assert (Zneg m = - Zpos m) by reflexivity. nia.
      * destruct (Zpos m ?= w * d) eqn:E; try discriminate.
        -- apply Z.compare_eq in E. nia.
        -- lt_of_compare E. nia.
Qed.

Lemma round_nonneg f n :
  PyFloat.round f = Ok n -> PyNumber.lt_int f 0 = false -> 0 <= n.
Proof.
  unfold PyFloat.round, PyNumber.lt_int, PyNumber.compare_int.
  destruct (Prim2SF f) as [s0 | s0 | | s m e]; try discriminate.
  - intros Hn _. apply Ok_inj in Hn. lia.
  - intros Hn Hlt. apply Ok_inj in Hn. subst n. cbv zeta in Hlt.
    destruct s.
    + exfalso. destruct (0 <=? e) eqn:He.
      * apply Z.leb_le in He.
        assert (Hp : 0 < 2 ^ e) by (apply Z.pow_pos_nonneg; lia).
        assert (E : (Zneg m * 2 ^ e ?= 0) = Lt).
        { change (Zneg m * 2 ^ e < 0).
          assert (Zneg m = - Zpos m) by reflexivity. nia. }
        rewrite E in Hlt. discriminate.
      * change (Zneg m ?= 0 * 2 ^ (- e)) with Lt in Hlt. discriminate.
    + destruct (0 <=? e) eqn:He.
      * apply Z.leb_le in He.
        assert (Hp : 0 < 2 ^ e) by (apply Z.pow_pos_nonneg; lia).
        nia.
      * apply Z.leb_gt in He.
        assert (Hd : 0 < 2 ^ (- e)) by (apply Z.pow_pos_nonneg; lia).
        destruct (half_even_bounds (Zpos m) (2 ^ (- e)) Hd) as (Hn & Hm & Hr).
        cbv zeta in Hn. cbv zeta.
        assert (Hq : 0 <= Zpos m / 2 ^ (- e))
          by (apply Z.div_pos; lia).
        destruct Hn as [-> | [-> _]]; lia.
Qed.

Lemma round_max_zero a n :
  PyNumber.round (PyNumber.max_zero a) = Ok n -> 0 <= n.
Proof.
  unfold PyNumber.max_zero.
  destruct (PyNumber.lt_int a 0) eqn:E; simpl.
  - intros [= <-]. lia.
  - intros H. eapply round_nonneg; eauto.
Qed.

Lemma round_min_int b w n :
  PyNumber.round (PyNumber.min_int b w) = Ok n -> n <= w.
Proof.
  unfold PyNumber.min_int.
  destruct (PyNumber.gt_int b w) eqn:E; simpl.
  - intros [= <-]. lia.
  - intros H. eapply round_le_int; eauto.
Qed.

End Bounds.

(** X12: the box that [screen_point_to_bbox] returns lies on the screen at
    its four clamped edges: the left and top edges are not negative, the
    right edge is at most the width and the bottom edge at most the height,
    for every point and every size. *)
Theorem X12_bbox_is_clamped_to_the_screen :
  forall (px py : float) (width height x1 y1 x2 y2 : Z),
    screen_point_to_bbox px py width height = Ok (x1, y1, x2, y2) ->
    (0 <= x1 /\ 0 <= y1 /\ x2 <= width /\ y2 <= height)%Z.
Proof.
  intros px py width height x1 y1 x2 y2. unfold screen_point_to_bbox.
  destruct (PyNumber.round (PyNumber.max_zero (px - half_bbox_size)))
    as [a|e] eqn:H1; simpl; [|discriminate].
  destruct (PyNumber.round (PyNumber.max_zero (py - half_bbox_size)))
    as [b|e] eqn:H2; simpl; [|discriminate].
  destruct (PyNumber.round (PyNumber.min_int (px + half_bbox_size) width))
    as [c|e] eqn:H3; simpl; [|discriminate].
  destruct (PyNumber.round (PyNumber.min_int (py + half_bbox_size) height))
    as [d|e] eqn:H4; simpl; [|discriminate].
  intros [= <- <- <- <-].
  repeat split;
    [eapply round_max_zero | eapply round_max_zero
     | eapply round_min_int | eapply round_min_int]; eauto.
Qed.

Lemma X12_bbox_is_clamped_to_the_screen_witness :
  (0 <= 0 /\ 0 <= 395 /\ 7 <= 1000 /\ 400 <= 400)%Z.
Proof.
  apply (X12_bbox_is_clamped_to_the_screen 2%float 400%float 1000 400 0 395 7 400).
  vm_compute. reflexivity.
Defined.

(** * controller.py: locating the element of an action *)

(** [get_screen_point_bbox].  [box] is [None] or the list that the region
    field encodes (a region field of a parsed record is unset or such a
    list); [viewport_width] and [viewport_height] are the two values of
    [browser.current_state.viewport_info].  The result is the point and the
    box; the messages that are logged are not part of the model. *)
Definition get_screen_point_bbox (box : option (list float))
    (viewport_width viewport_height : Z) : result ((float * float) * bbox_t) :=
  match box with
  | None => Raise ValueError
  | Some coordinates =>
      if (viewport_width =? 0)%Z || (viewport_height =? 0)%Z
      then Raise ValueError
      else
        point <- get_screen_point coordinates viewport_width viewport_height ;;
        bbox <- screen_point_to_bbox (fst point) (snd point)
                  viewport_width viewport_height ;;
        Ok (point, bbox)
  end.

(** [locate_element] *)
Definition locate_element (start_box : option (list float))
    (viewport_width viewport_height : Z) (state : BrowserState)
  : result (option DOMElementNode) :=
  r <- get_screen_point_bbox start_box viewport_width viewport_height ;;
  get_element_by_bbox (snd r) state.

(** The names under which [UITarsController] registers its actions. *)
Definition registered_actions : list string :=
  ["click"; "drag"; "type"; "scroll"; "finished"; "hotkey"; "wait"].

(** The first step of [execute_action]:
    [if action_name not in self.actions: raise ValueError]. *)
Definition check_registered (action_name : string) : result unit :=
  if existsb (String.eqb action_name) registered_actions
  then Ok tt else Raise ValueError.

(** X13: [locate_element] raises [ValueError], before it looks at any
    candidate, when the box is missing, when the width or the height of the
    viewport is zero, or when the box holds fewer than two numbers. *)
Theorem X13_locate_element_needs_box_and_viewport :
  forall (start_box : option (list float)) (viewport_width viewport_height : Z)
         (state : BrowserState),
    start_box = None
    \/ viewport_width = 0%Z \/ viewport_height = 0%Z
    \/ (exists l, start_box = Some l /\ (List.length l < 2)%nat) ->
    locate_element start_box viewport_width viewport_height state
    = Raise ValueError.
Proof.
  intros start_box vw vh state H.
  unfold locate_element, get_screen_point_bbox.
  destruct start_box as [l|]; [|reflexivity].
  destruct (vw =? 0)%Z eqn:Ew; [reflexivity|].
  destruct (vh =? 0)%Z eqn:Eh; [reflexivity|].
  apply Z.eqb_neq in Ew, Eh. simpl orb. cbv iota.
  destruct H as [H | [H | [H | (l' & [= <-] & Hlen)]]];
    [discriminate | contradiction | contradiction |].
  unfold get_screen_point.
  destruct l as [|a [|b l]]; simpl in *; try reflexivity; lia.
Qed.

Lemma X13_locate_element_needs_box_and_viewport_witness :
  locate_element (Some [0.5%float]) 1000 800 one_square = Raise ValueError.
Proof.
  apply (X13_locate_element_needs_box_and_viewport
           (Some [0.5%float]) 1000%Z 800%Z one_square).
  right. right. right. exists [0.5%float]. split; [reflexivity | simpl; lia].
Defined.

(** X14: when [locate_element] returns an element, it is one of the
    candidates of the state, and its rectangle holds the top-left corner of
    the box that [get_screen_point_bbox] computes; that corner has no
    negative coordinate and the box does not reach beyond the width and the
    height of the viewport. *)
Theorem X14_located_element_holds_the_clamped_corner :
  forall (start_box : option (list float)) (viewport_width viewport_height : Z)
         (state : BrowserState) (el : DOMElementNode),
    locate_element start_box viewport_width viewport_height state
    = Ok (Some el) ->
    In el (values state)
    /\ exists (point : float * float) (x1 y1 x2 y2 : Z),
         get_screen_point_bbox start_box viewport_width viewport_height
         = Ok (point, (x1, y1, x2, y2))
         /\ corner_inside (x1, y1, x2, y2) el
         /\ (0 <= x1 /\ 0 <= y1
             /\ x2 <= viewport_width /\ y2 <= viewport_height)%Z.
Proof.
  intros start_box vw vh state el. unfold locate_element.
  destruct (get_screen_point_bbox start_box vw vh)
    as [[point [[[x1 y1] x2] y2]]|e] eqn:Hbox; simpl; [|discriminate].
  intros Hget.
  assert (Hbounds : (0 <= x1 /\ 0 <= y1 /\ x2 <= vw /\ y2 <= vh)%Z).
  { unfold get_screen_point_bbox in Hbox.
    destruct start_box as [l|]; [|discriminate].
    destruct ((vw =? 0)%Z || (vh =? 0)%Z); [discriminate|].
    destruct (get_screen_point l vw vh) as [p|e]; simpl in Hbox; [|discriminate].
    destruct (screen_point_to_bbox (fst p) (snd p) vw vh)
      as [[[[a b] c] d]|e] eqn:Hb; simpl in Hbox; [|discriminate].
    injection Hbox as _ <- <- <- <-.
    unfold screen_point_to_bbox in Hb.
    destruct (PyNumber.round (PyNumber.max_zero (fst p - half_bbox_size)))
      as [a'|e] eqn:H1; simpl in Hb; [|discriminate].
    destruct (PyNumber.round (PyNumber.max_zero (snd p - half_bbox_size)))
      as [b'|e] eqn:H2; simpl in Hb; [|discriminate].
    destruct (PyNumber.round (PyNumber.min_int (fst p + half_bbox_size) vw))
      as [c'|e] eqn:H3; simpl in Hb; [|discriminate].
    destruct (PyNumber.round (PyNumber.min_int (snd p + half_bbox_size) vh))
      as [d'|e] eqn:H4; simpl in Hb; [|discriminate].
    injection Hb as <- <- <- <-.
    repeat split;
      [eapply round_max_zero | eapply round_max_zero
       | eapply round_min_int | eapply round_min_int]; eauto. }
  unfold get_element_by_bbox in Hget.
  destruct (smallest_spec _ (all_matches_have_rect (x1, y1, x2, y2) (values state))
              Inf None) as (r & Hr & Hcase).
  rewrite Hget in Hr. apply Ok_inj in Hr. subst r.
  destruct Hcase as [[Hnone _] | (el' & l1 & l2 & Hsome & Hsplit & _)];
    [discriminate|].
  injection Hsome as <-.
  assert (Hin : In el (all_matches (x1, y1, x2, y2) (values state)))
    by (rewrite Hsplit; apply in_elt).
  apply all_matches_In in Hin. destruct Hin as [Hin Hc].
  split; [exact Hin|]. exists point, x1, y1, x2, y2.
  split; [reflexivity|]. split; assumption.
Qed.

Lemma X14_located_element_holds_the_clamped_corner_witness :
  In square10 (values one_square)
  /\ exists (point : float * float) (x1 y1 x2 y2 : Z),
       get_screen_point_bbox (Some [0.5; 0.5; 0.5; 0.5]%float) 20 20
       = Ok (point, (x1, y1, x2, y2))
       /\ corner_inside (x1, y1, x2, y2) square10
       /\ (0 <= x1 /\ 0 <= y1 /\ x2 <= 20 /\ y2 <= 20)%Z.
Proof.
  apply (X14_located_element_holds_the_clamped_corner
           (Some [0.5; 0.5; 0.5; 0.5]%float) 20%Z 20%Z one_square square10).
  vm_compute. reflexivity.
Defined.

(** ** The registry: dispatch and the remembered regions *)

(** X15: dispatch and the parser.  For the record that [parse_action_vlm]
    returns at the position of an action string: when the string did not
    parse, [execute_action] refuses the record with [ValueError]; and the
    records that pass the test of [execute_action] are those whose string
    parsed as a call of one of the seven registered names. *)
Theorem X15_dispatch_refuses_unparsed_actions :
  forall (factors : float * float) (screen_context : option (dict float))
         (scale_factor : option float) (text : string)
         (records : list PredictionParsed) (i : nat) (raw_str : string)
         (r : PredictionParsed),
    parse_action_vlm factors screen_context scale_factor text = Ok records ->
    nth_error (all_actions text) i = Some raw_str ->
    nth_error records i = Some r ->
    (parse_action (prepare raw_str) = None ->
     check_registered (action_type r) = Raise ValueError)
    /\ (check_registered (action_type r) = Ok tt ->
        In (action_type r) registered_actions
        /\ exists params,
             parse_action (prepare raw_str) = Some (action_type r, params)).
Proof.
  intros factors ctx sf text records i raw_str r Hparse Hraw Hr.
  rewrite parse_action_vlm_mapM in Hparse. apply mapM_Forall2 in Hparse.
  destruct (Forall2_nth_error _ _ _ Hparse i raw_str Hraw) as (r' & Hr' & Hrec).
  rewrite Hr in Hr'. injection Hr' as <-.
  unfold record_of in Hrec.
  destruct (parse_one_inputs _ _ _ _ _ _ _ Hrec)
    as [Hd | (fn & params & Hpa & Hty & _)].
  - unfold parse_one in Hrec.
    destruct (parse_action (prepare raw_str)) as [[fn params]|] eqn:Hpa.
    + split; [discriminate|]. intros Hreg.
      destruct (set_params factors ctx sf params default_inputs);
        simpl in Hrec; [|discriminate].
      injection Hrec as <-. simpl in *.
      split; [|exists params; reflexivity].
      unfold check_registered in Hreg.
      destruct (existsb (String.eqb fn) registered_actions) eqn:E;
        [|discriminate].
      apply existsb_exists in E. destruct E as (n & Hn & Heq).
      apply String.eqb_eq in Heq. subst n. exact Hn.
    + injection Hrec as <-. simpl. split; [reflexivity | discriminate].
  - split; [rewrite Hpa; discriminate|]. intros Hreg. rewrite Hty.
    split; [|exists params; exact Hpa].
    rewrite Hty in Hreg. unfold check_registered in Hreg.
    destruct (existsb (String.eqb fn) registered_actions) eqn:E;
      [|discriminate].
    apply existsb_exists in E. destruct E as (n & Hn & Heq).
    apply String.eqb_eq in Heq. subst n. exact Hn.
Qed.

Lemma X15_dispatch_refuses_unparsed_actions_witness :
  (parse_action (prepare "hello world") = None ->
   check_registered (action_type (failed_record "hello world"))
   = Raise ValueError)
  /\ (check_registered (action_type (failed_record "hello world")) = Ok tt ->
      In (action_type (failed_record "hello world")) registered_actions
      /\ exists params,
           parse_action (prepare "hello world")
           = Some (action_type (failed_record "hello world"), params)).
Proof.
  apply (X15_dispatch_refuses_unparsed_actions default_factors None None
           "hello world" [failed_record "hello world"] 0 "hello world"
           (failed_record "hello world")); vm_compute; reflexivity.
Defined.

(** The truth value of a field of [ActionInputs]: [None], the empty [str]
    and the empty list are false; the text that encodes a list is never
    empty. *)
Definition truthy_field (v : option value) : bool :=
  match v with
  | None => false
  | Some (Str s) => negb (is_empty s)
  | Some (Json _) => true
  | Some (Floats []) => false
  | Some (Floats (_ :: _)) => true
  end.

(** [if field: self.registry.last_state[key] = field] *)
Definition remember_field (key : string) (field : option value)
    (last_state : dict value) : dict value :=
  match field with
  | Some v => if truthy_field field then dict_set key v last_state else last_state
  | None => last_state
  end.

(** The four updates of [last_state] with which [act] starts, before the
    action is executed. *)
Definition remember (a : ActionInputs) (last_state : dict value) : dict value :=
  remember_field "end_coords" (end_coords a)
    (remember_field "start_coords" (start_coords a)
       (remember_field "end_box" (end_box a)
          (remember_field "start_box" (start_box a) last_state))).

(** [last_state] after [act] has been called on each of [history] in turn,
    on a new controller; what the actions did is of no account, the updates
    come first. *)
Definition remembered (history : list ActionInputs) : dict value :=
  fold_left (fun last_state a => remember a last_state) history [].

(** [d[k]] *)
Inductive lookup (A : Type) : Type :=
| Found (a : A)
| KeyError.

Arguments Found {A} a.
Arguments KeyError {A}.

Definition getitem {V : Type} (k : string) (d : dict V) : lookup V :=
  match dict_get k d with
  | Some v => Found v
  | None => KeyError
  end.

(** The box that the action [type] hands to [locate_element]:
    [start_box = prediction.action_inputs.start_box] and, when that is
    false, [last_state['start_box']]. *)
Definition type_start_box (a : ActionInputs) (last_state : dict value)
  : lookup value :=
  match start_box a with
  | Some v => if truthy_field (start_box a) then Found v
              else getitem "start_box" last_state
  | None => getitem "start_box" last_state
  end.

(** The last field of a list that is true, if any. *)
Fixpoint latest (fields : list (option value)) : option value :=
  match fields with
  | [] => None
  | field :: rest =>
      match latest rest with
      | Some v => Some v
      | None => if truthy_field field then field else None
      end
  end.

Section LastState.

Lemma dict_get_set {V : Type} k k' (v : V) d :
  dict_get k (dict_set k' v d)
  = if String.eqb k' k then Some v else dict_get k d.
Proof.
  induction d as [|[k0 v0] d IH]; simpl.
  - reflexivity.
  - destruct (String.eqb_spec k0 k') as [->|Hne]; simpl.
    + destruct (String.eqb k' k); reflexivity.
    + rewrite IH. destruct (String.eqb_spec k0 k) as [->|Hk].
      * destruct (String.eqb_spec k' k) as [->|_]; [congruence | reflexivity].
      * reflexivity.
Qed.

Lemma dict_get_remember_field k key field last_state :
  dict_get k (remember_field key field last_state)
  = if String.eqb key k && truthy_field field then field
    else dict_get k last_state.
Proof.
  unfold remember_field. destruct field as [v|].
  - destruct (truthy_field (Some v)).
    + rewrite dict_get_set. destruct (String.eqb key k); reflexivity.
    + rewrite andb_false_r. reflexivity.
  - rewrite andb_false_r. reflexivity.
Qed.

Lemma dict_get_remember a last_state :
  dict_get "start_box" (remember a last_state)
  = if truthy_field (start_box a) then start_box a
    else dict_get "start_box" last_state.
Proof.
  unfold remember. rewrite !dict_get_remember_field. reflexivity.
Qed.

Lemma dict_get_fold history : forall last_state,
  dict_get "start_box"
    (fold_left (fun last_state a => remember a last_state) history last_state)
  = match latest (map start_box history) with
    | Some v => Some v
    | None => dict_get "start_box" last_state
    end.
Proof.
  induction history as [|a history IH]; intros last_state; simpl; [reflexivity|].
  rewrite IH, dict_get_remember.
  destruct (latest (map start_box history)); [reflexivity|].
  destruct (truthy_field (start_box a)) eqn:E; [|reflexivity].
  destruct (start_box a); [reflexivity | discriminate].
Qed.

End LastState.

(** X16: the action [type] works on the start box of its own record when
    that is set and not empty, and otherwise on the last start box that was
    set and not empty among the records acted on before it, whatever became
    of those actions; when there is none, the lookup in [last_state] raises
    [KeyError]. *)
Theorem X16_type_falls_back_on_the_last_start_box :
  forall (history : list ActionInputs) (a : ActionInputs),
    type_start_box a (remember a (remembered history))
    = match latest (map start_box (history ++ [a])) with
      | Some v => Found v
      | None => KeyError
      end.
Proof.
  intros history a.
  assert (Hlast : latest (map start_box (history ++ [a]))
                  = if truthy_field (start_box a) then start_box a
                    else latest (map start_box history)).
  { induction history as [|b history IH]; simpl.
    - destruct (truthy_field (start_box a)) eqn:E; [|reflexivity].
      destruct (start_box a); [reflexivity | discriminate].
    - rewrite IH. destruct (truthy_field (start_box a)) eqn:E; [|reflexivity].
      destruct (start_box a); [reflexivity | discriminate]. }
  rewrite Hlast. unfold type_start_box, getitem.
  rewrite dict_get_remember. unfold remembered. rewrite dict_get_fold.
  destruct (truthy_field (start_box a)) eqn:E.
  - destruct (start_box a); [reflexivity | discriminate].
  - simpl. destruct (start_box a);
      destruct (latest (map start_box history)); reflexivity.
Qed.

(** * parser.py: bbox tags *)

(** [int(s)] for a run of decimal digits [s]: the value, and [ValueError]
    beyond the 4300 digits that the interpreter converts by default. *)
Definition max_str_digits : nat := 4300.

Definition int_of_digits (s : string) : result Z :=
  if (max_str_digits <? String.length s)%nat then Raise ValueError
  else Ok (PyFloat.digits_value 0 s).

(** [str(n)] for an [int]. *)
Definition str_of_int (n : Z) : string :=
  DecimalString.NilZero.string_of_int (Z.to_int n).

(** A non-empty greedy run of the class [p] at the head of [s], and what
    follows it. *)
Definition run (p : ascii -> bool) (s : string) : option (string * string) :=
  let r := take_while p s in
  if is_empty r then None else Some (r, drop (String.length r) s).

(** The pattern [<bbox>(\d+)\s+(\d+)\s+(\d+)\s+(\d+)</bbox>] at the head of
    [s]: the four groups and the length of the match.  A digit is no white
    space and no [<], so each greedy run is the only one that lets the rest
    match. *)
Definition bbox_tag (s : string)
  : option ((string * string * string * string) * nat) :=
  if String.prefix "<bbox>" s then
    match run isdigit (drop 6 s) with
    | None => None
    | Some (g1, s1) =>
    match run isspace s1 with
    | None => None
    | Some (w1, s2) =>
    match run isdigit s2 with
    | None => None
    | Some (g2, s3) =>
    match run isspace s3 with
    | None => None
    | Some (w2, s4) =>
    match run isdigit s4 with
    | None => None
    | Some (g3, s5) =>
    match run isspace s5 with
    | None => None
    | Some (w3, s6) =>
    match run isdigit s6 with
    | None => None
    | Some (g4, s7) =>
        if String.prefix "</bbox>" s7
        then Some ((g1, g2, g3, g4),
                   6 + String.length g1 + String.length w1 + String.length g2
                   + String.length w2 + String.length g3 + String.length w3
                   + String.length g4 + 7)%nat
        else None
    end end end end end end end
  else None.

(** [replace_match] *)
Definition replace_match (g : string * string * string * string)
  : result string :=
  let '(g1, g2, g3, g4) := g in
  x1 <- int_of_digits g1 ;;
  y1 <- int_of_digits g2 ;;
  x2 <- int_of_digits g3 ;;
  y2 <- int_of_digits g4 ;;
  let x := ((x1 + x2) / 2)%Z in
  let y := ((y1 + y2) / 2)%Z in
  Ok ("(" ++ str_of_int x ++ "," ++ str_of_int y ++ ")").

(** [re.sub(pattern, repl, s)] for a function [repl] and a pattern that
    matches no empty string: [m s] is the length of the match at the head of
    [s], with its replacement.  [skip] counts the characters of the current
    match still to drop. *)
Fixpoint sub_with (m : string -> option (result string * nat)) (skip : nat)
    (s : string) : result string :=
  match s with
  | "" => Ok ""
  | String c s' =>
      match skip with
      | S k => sub_with m k s'
      | O =>
          match m s with
          | Some (repl, S k) =>
              new <- repl ;;
              rest <- sub_with m k s' ;;
              Ok (new ++ rest)
          | _ =>
              rest <- sub_with m 0 s' ;;
              Ok (String c rest)
          end
      end
  end.

Definition bbox_replacement (s : string) : option (result string * nat) :=
  match bbox_tag s with
  | Some (g, n) => Some (replace_match g, n)
  | None => None
  end.

(** [convert_bbox_to_coordinates] *)
Definition convert_bbox_to_coordinates (text : string) : result string :=
  let cleaned_text := replace "[EOS]" "" text in
  r <- sub_with bbox_replacement 0 cleaned_text ;;
  Ok (strip r).

(** A non-empty run of decimal digits that [int] converts. *)
Definition digits (s : string) : Prop :=
  is_empty s = false /\ all_chars isdigit s = true
  /\ (String.length s <=? max_str_digits)%nat = true.

(** A non-empty run of white space. *)
Definition blank (s : string) : Prop :=
  is_empty s = false /\ all_chars isspace s = true.

(** A character that starts neither a tag nor the marker [[EOS]]. *)
Definition outside (c : ascii) : bool :=
  negb (Ascii.eqb c "<") && negb (Ascii.eqb c "[").

(** The text of a bbox tag. *)
Definition bbox_text (g1 w1 g2 w2 g3 w3 g4 : string) : string :=
  "<bbox>" ++ g1 ++ w1 ++ g2 ++ w2 ++ g3 ++ w3 ++ g4 ++ "</bbox>".

Section Tags.

Lemma sub_with_unfold m c s :
  sub_with m 0 (String c s)
  = match m (String c s) with
    | Some (repl, S k) =>
        new <- repl ;; rest <- sub_with m k s ;; Ok (new ++ rest)
    | _ => rest <- sub_with m 0 s ;; Ok (String c rest)
    end.
Proof. reflexivity. Qed.

Lemma sub_with_skip m a t :
  sub_with m (String.length a) (a ++ t) = sub_with m 0 t.
Proof. induction a as [|c a IH]; [destruct t; reflexivity | exact IH]. Qed.

Lemma bbox_tag_needs_prefix s :
  String.prefix "<bbox>" s = false -> bbox_replacement s = None.
Proof. intros H. unfold bbox_replacement, bbox_tag. rewrite H. reflexivity. Qed.

Lemma sub_with_no_tag s :
  contains "<bbox>" s = false -> sub_with bbox_replacement 0 s = Ok s.
Proof.
  induction s as [|c s IH]; intros H; [reflexivity|].
  rewrite contains_unfold in H. apply orb_false_iff in H. destruct H as [Hp Hs].
  rewrite sub_with_unfold, (bbox_tag_needs_prefix _ Hp), (IH Hs). reflexivity.
Qed.

Lemma prefix_first_char c p d s :
  Ascii.eqb d c = false -> String.prefix (String c p) (String d s) = false.
Proof.
  intros H. rewrite prefix_unfold. destruct (ascii_dec c d) as [->|]; [|reflexivity].
  rewrite Ascii.eqb_refl in H. discriminate.
Qed.

Lemma sub_with_pass a t :
  all_chars outside a = true ->
  sub_with bbox_replacement 0 (a ++ t)
  = r <- sub_with bbox_replacement 0 t ;; Ok (a ++ r).
Proof.
  induction a as [|c a IH]; intros Ha.
  - simpl. destruct (sub_with bbox_replacement 0 t); reflexivity.
  - simpl in Ha. apply andb_true_iff in Ha. destruct Ha as [Hc Ha].
    change (String c a ++ t) with (String c (a ++ t)).
    rewrite sub_with_unfold, bbox_tag_needs_prefix.
    + rewrite (IH Ha). destruct (sub_with bbox_replacement 0 t); reflexivity.
    + apply prefix_first_char. unfold outside in Hc.
      apply andb_true_iff in Hc. destruct Hc as [Hc _].
      apply negb_true_iff in Hc. exact Hc.
Qed.

Lemma replace_outside s :
  all_chars (fun c => negb (Ascii.eqb c "[")) s = true ->
  replace "[EOS]" "" s = s.
Proof.
  unfold replace. induction s as [|c s IH]; intros H; [reflexivity|].
  simpl in H. apply andb_true_iff in H. destruct H as [Hc Hs].
  apply negb_true_iff in Hc.
  change (replace_go "[EOS]" "" 0 (String c s))
    with (if String.prefix "[EOS]" (String c s)
          then "" ++ replace_go "[EOS]" "" (String.length "[EOS]" - 1) s
          else String c (replace_go "[EOS]" "" 0 s)).
  rewrite (prefix_first_char _ _ _ _ Hc), (IH Hs). reflexivity.
Qed.

Lemma run_app p a b :
  is_empty a = false -> all_chars p a = true ->
  match b with
  | "" => True
  | String c _ => p c = false
  end ->
  run p (a ++ b) = Some (a, b).
Proof.
  intros He Ha Hb. unfold run. rewrite (take_while_app p a b Ha Hb), He, drop_app.
  reflexivity.
Qed.

Lemma digit_classes c :
  isdigit c = true ->
  isspace c = false /\ Ascii.eqb c "[" = false /\ Ascii.eqb c "<" = false
  /\ Ascii.eqb c " " = false /\ plain c = true.
Proof.
  destruct c as [[] [] [] [] [] [] [] []]; vm_compute; intros H;
    first [discriminate H | repeat split].
Qed.

Lemma space_classes c :
  isspace c = true ->
  isdigit c = false /\ Ascii.eqb c "[" = false /\ Ascii.eqb c "<" = false.
Proof.
  destruct c as [[] [] [] [] [] [] [] []]; vm_compute; intros H;
    first [discriminate H | repeat split].
Qed.

(** What follows a run of digits: white space first. *)
Lemma stops_digits w t :
  blank w ->
  match w ++ t with
  | "" => True
  | String c _ => isdigit c = false
  end.
Proof.
  intros [He Hw]. destruct w as [|c w]; [discriminate|].
  simpl in *. apply andb_true_iff in Hw. apply space_classes, Hw.
Qed.

Lemma stops_blank g t :
  digits g ->
  match g ++ t with
  | "" => True
  | String c _ => isspace c = false
  end.
Proof.
  intros (He & Hg & _). destruct g as [|c g]; [discriminate|].
  simpl in *. apply andb_true_iff in Hg. apply digit_classes, Hg.
Qed.

Lemma bbox_tag_text g1 w1 g2 w2 g3 w3 g4 t :
  digits g1 -> digits g2 -> digits g3 -> digits g4 ->
  blank w1 -> blank w2 -> blank w3 ->
  bbox_tag (bbox_text g1 w1 g2 w2 g3 w3 g4 ++ t)
  = Some ((g1, g2, g3, g4),
          String.length (bbox_text g1 w1 g2 w2 g3 w3 g4)).
Proof.
  intros H1 H2 H3 H4 B1 B2 B3. unfold bbox_tag.
  set (n := String.length (bbox_text g1 w1 g2 w2 g3 w3 g4)).
  assert (Hn : n = (6 + String.length g1 + String.length w1 + String.length g2
                    + String.length w2 + String.length g3 + String.length w3
                    + String.length g4 + 7)%nat).
  { subst n. unfold bbox_text. rewrite !length_app. simpl. lia. }
  unfold bbox_text. rewrite !app_assoc_string. rewrite prefix_app.
  rewrite (drop_app "<bbox>").
  rewrite (run_app isdigit g1) by
    first [apply H1 | apply stops_digits; assumption].
  rewrite (run_app isspace w1) by
    first [apply B1 | apply stops_blank; assumption].
  rewrite (run_app isdigit g2) by
    first [apply H2 | apply stops_digits; assumption].
  rewrite (run_app isspace w2) by
    first [apply B2 | apply stops_blank; assumption].
  rewrite (run_app isdigit g3) by
    first [apply H3 | apply stops_digits; assumption].
  rewrite (run_app isspace w3) by
    first [apply B3 | apply stops_blank; assumption].
  rewrite (run_app isdigit g4) by
    first [apply H4 | reflexivity].
  rewrite prefix_app, Hn. reflexivity.
Qed.

Lemma int_of_digits_value g :
  digits g -> int_of_digits g = Ok (PyFloat.digits_value 0 g).
Proof.
  intros (_ & _ & Hlen). unfold int_of_digits. apply Nat.leb_le in Hlen.
  destruct (Nat.ltb_spec max_str_digits (String.length g)); [lia | reflexivity].
Qed.

Lemma all_chars_outside_bracket s :
  all_chars outside s = true ->
  all_chars (fun c => negb (Ascii.eqb c "[")) s = true.
Proof.
  apply all_chars_impl. intros c H. unfold outside in H.
  apply andb_true_iff in H. apply H.
Qed.

Lemma digits_no_bracket g :
  digits g -> all_chars (fun c => negb (Ascii.eqb c "[")) g = true.
Proof.
  intros (_ & H & _). revert H. apply all_chars_impl. intros c H.
  apply digit_classes in H. destruct H as (_ & H & _). rewrite H. reflexivity.
Qed.

Lemma blank_no_bracket w :
  blank w -> all_chars (fun c => negb (Ascii.eqb c "[")) w = true.
Proof.
  intros (_ & H). revert H. apply all_chars_impl. intros c H.
  apply space_classes in H. destruct H as (_ & H & _). rewrite H. reflexivity.
Qed.

Lemma app_nil_r_string (s : string) : s ++ "" = s.
Proof. induction s as [|c s IH]; simpl; [reflexivity | rewrite IH; reflexivity]. Qed.

End Tags.

(** X17: a text that holds no opening bbox tag once the markers [[EOS]] are
    removed is returned with the markers removed and trimmed, and nothing
    else is changed; the test is on the text without the markers, since
    removing one can join the two halves of a tag. *)
Theorem X17_text_without_tag_is_only_cleaned :
  forall text : string,
    contains "<bbox>" (replace "[EOS]" "" text) = false ->
    convert_bbox_to_coordinates text = Ok (strip (replace "[EOS]" "" text)).
Proof.
  intros text H. unfold convert_bbox_to_coordinates.
  rewrite (sub_with_no_tag _ H). reflexivity.
Qed.

(** X18: a bbox tag of four runs of digits separated by white space is
    replaced by the centre of the box, each coordinate the floor of the half
    sum, written in decimal between parentheses; the text before and after
    the tag, when it starts no tag and no marker, is kept, and the whole is
    trimmed. *)
Theorem X18_bbox_tag_becomes_its_centre :
  forall pre post g1 w1 g2 w2 g3 w3 g4 : string,
    all_chars outside pre = true -> all_chars outside post = true ->
    digits g1 -> digits g2 -> digits g3 -> digits g4 ->
    blank w1 -> blank w2 -> blank w3 ->
    convert_bbox_to_coordinates
      (pre ++ bbox_text g1 w1 g2 w2 g3 w3 g4 ++ post)
    = Ok (strip
            (pre ++ "("
             ++ str_of_int ((PyFloat.digits_value 0 g1
                             + PyFloat.digits_value 0 g3) / 2)
             ++ ","
             ++ str_of_int ((PyFloat.digits_value 0 g2
                             + PyFloat.digits_value 0 g4) / 2)
             ++ ")" ++ post)).
Proof.
  intros pre post g1 w1 g2 w2 g3 w3 g4 Hpre Hpost H1 H2 H3 H4 B1 B2 B3.
  unfold convert_bbox_to_coordinates.
  rewrite replace_outside.
  2:{ unfold bbox_text. rewrite !all_chars_app.
      rewrite (all_chars_outside_bracket _ Hpre), (all_chars_outside_bracket _ Hpost).
      rewrite (digits_no_bracket _ H1), (digits_no_bracket _ H2),
        (digits_no_bracket _ H3), (digits_no_bracket _ H4),
        (blank_no_bracket _ B1), (blank_no_bracket _ B2), (blank_no_bracket _ B3).
      reflexivity. }
  rewrite (sub_with_pass pre _ Hpre).
  assert (Htag : sub_with bbox_replacement 0 (bbox_text g1 w1 g2 w2 g3 w3 g4 ++ post)
                 = Ok (("(" ++ str_of_int ((PyFloat.digits_value 0 g1
                                            + PyFloat.digits_value 0 g3) / 2)
                        ++ ","
                        ++ str_of_int ((PyFloat.digits_value 0 g2
                                        + PyFloat.digits_value 0 g4) / 2)
                        ++ ")") ++ post)).
  { pose proof (sub_with_pass post "" Hpost) as Hp.
    rewrite app_nil_r_string in Hp. unfold bind in Hp. simpl in Hp.
    rewrite app_nil_r_string in Hp.
    set (new := "(" ++ str_of_int ((PyFloat.digits_value 0 g1
                                    + PyFloat.digits_value 0 g3) / 2)
                ++ ","
                ++ str_of_int ((PyFloat.digits_value 0 g2
                                + PyFloat.digits_value 0 g4) / 2)
                ++ ")").
    assert (Hm : bbox_replacement (bbox_text g1 w1 g2 w2 g3 w3 g4 ++ post)
                 = Some (Ok new, String.length (bbox_text g1 w1 g2 w2 g3 w3 g4))).
    { unfold bbox_replacement.
      rewrite (bbox_tag_text g1 w1 g2 w2 g3 w3 g4 post H1 H2 H3 H4 B1 B2 B3).
      unfold replace_match.
      rewrite (int_of_digits_value _ H1), (int_of_digits_value _ H2),
        (int_of_digits_value _ H3), (int_of_digits_value _ H4).
      reflexivity. }
    unfold bbox_text in *.
    change (("<bbox>" ++ ?x) ++ post) with (String "<" (("bbox>" ++ x) ++ post)) in *.
    rewrite sub_with_unfold, Hm.
    change (String.length ("<bbox>" ++ ?x)) with (S (String.length ("bbox>" ++ x))).
    cbv iota beta. unfold bind at 1.
    rewrite sub_with_skip, Hp. reflexivity. }
  rewrite Htag. unfold bind. rewrite !app_assoc_string. reflexivity.
Qed.

Lemma X17_text_without_tag_is_only_cleaned_witness :
  convert_bbox_to_coordinates " click(start_box='(10,20)')[EOS] "
  = Ok "click(start_box='(10,20)')".
Proof.
  apply (X17_text_without_tag_is_only_cleaned
           " click(start_box='(10,20)')[EOS] ").
  vm_compute. reflexivity.
Defined.

Lemma X18_bbox_tag_becomes_its_centre_witness :
  convert_bbox_to_coordinates "click(start_box='<bbox>10 21 31 40</bbox>')"
  = Ok "click(start_box='(20,30)')".
Proof.
  apply (X18_bbox_tag_becomes_its_centre
           "click(start_box='" "')" "10" " " "21" " " "31" " " "40");
    try reflexivity; repeat split; reflexivity.
Defined.

(** ** A tag as the value of an argument *)

(** The numbers of a tag, one blank between two of them. *)
Definition four_numbers (g1 g2 g3 g4 : string) : string :=
  g1 ++ " " ++ g2 ++ " " ++ g3 ++ " " ++ g4.

Section TagValues.

Lemma replace_go_unfold old new c s :
  replace_go old new 0 (String c s)
  = if String.prefix old (String c s)
    then new ++ replace_go old new (String.length old - 1) s
    else String c (replace_go old new 0 s).
Proof. reflexivity. Qed.

Lemma replace_go_skip old new a t :
  replace_go old new (String.length a) (a ++ t) = replace_go old new 0 t.
Proof. induction a as [|c a IH]; [destruct t; reflexivity | exact IH]. Qed.

Lemma replace_go_pass o old new a t :
  all_chars (fun c => negb (Ascii.eqb c o)) a = true ->
  replace_go (String o old) new 0 (a ++ t)
  = a ++ replace_go (String o old) new 0 t.
Proof.
  induction a as [|c a IH]; intros H; [reflexivity|].
  simpl in H. apply andb_true_iff in H. destruct H as [Hc Ha].
  apply negb_true_iff in Hc.
  change (String c a ++ t) with (String c (a ++ t)).
  rewrite replace_go_unfold, (prefix_first_char _ _ _ _ Hc), (IH Ha).
  reflexivity.
Qed.

Lemma digits_not c g :
  isdigit c = false -> all_chars isdigit g = true ->
  all_chars (fun d => negb (Ascii.eqb d c)) g = true.
Proof.
  intros Hc. apply all_chars_impl. intros d Hd.
  destruct (Ascii.eqb_spec d c) as [->|]; [congruence | reflexivity].
Qed.

Lemma four_numbers_not c g1 g2 g3 g4 :
  isdigit c = false -> Ascii.eqb " " c = false ->
  all_chars isdigit g1 = true -> all_chars isdigit g2 = true ->
  all_chars isdigit g3 = true -> all_chars isdigit g4 = true ->
  all_chars (fun d => negb (Ascii.eqb d c)) (four_numbers g1 g2 g3 g4) = true.
Proof.
  intros Hc Hs H1 H2 H3 H4. unfold four_numbers.
  assert (Hb : all_chars (fun d => negb (Ascii.eqb d c)) " " = true).
  { change (negb (Ascii.eqb " " c) && true = true). rewrite Hs. reflexivity. }
  rewrite !all_chars_app.
  rewrite (digits_not c g1 Hc H1), (digits_not c g2 Hc H2),
    (digits_not c g3 Hc H3), (digits_not c g4 Hc H4), Hb.
  reflexivity.
Qed.

Lemma four_numbers_plain g1 g2 g3 g4 :
  all_chars isdigit g1 = true -> all_chars isdigit g2 = true ->
  all_chars isdigit g3 = true -> all_chars isdigit g4 = true ->
  all_chars plain (four_numbers g1 g2 g3 g4) = true.
Proof.
  intros H1 H2 H3 H4. unfold four_numbers. rewrite !all_chars_app.
  assert (Hp : forall g, all_chars isdigit g = true -> all_chars plain g = true).
  { intros g. apply all_chars_impl. intros c Hc. apply digit_classes, Hc. }
  rewrite (Hp g1 H1), (Hp g2 H2), (Hp g3 H3), (Hp g4 H4). reflexivity.
Qed.

Lemma bbox_text_four g1 g2 g3 g4 :
  bbox_text g1 " " g2 " " g3 " " g4
  = "<bbox>" ++ four_numbers g1 g2 g3 g4 ++ "</bbox>".
Proof.
  unfold bbox_text, four_numbers. rewrite !app_assoc_string. reflexivity.
Qed.

Lemma replace_blanks g t :
  all_chars isdigit g = true ->
  replace_go " " "," 0 (g ++ " " ++ t) = g ++ "," ++ replace_go " " "," 0 t.
Proof.
  intros H. rewrite (replace_go_pass " " "" "," g _ (digits_not " " g eq_refl H)).
  f_equal.
  change (" " ++ t) with (String " " t).
  rewrite replace_go_unfold.
  change (String " " t) with (" " ++ t). rewrite prefix_app. reflexivity.
Qed.

Lemma replace_four g1 g2 g3 g4 :
  all_chars isdigit g1 = true -> all_chars isdigit g2 = true ->
  all_chars isdigit g3 = true -> all_chars isdigit g4 = true ->
  replace " " "," (four_numbers g1 g2 g3 g4)
  = g1 ++ "," ++ g2 ++ "," ++ g3 ++ "," ++ g4.
Proof.
  intros H1 H2 H3 H4. unfold replace, four_numbers.
  rewrite (replace_blanks g1 _ H1), (replace_blanks g2 _ H2),
    (replace_blanks g3 _ H3).
  pose proof (replace_go_pass " " "" "," g4 "" (digits_not " " g4 eq_refl H4)) as E.
  rewrite app_nil_r_string in E. simpl in E. rewrite app_nil_r_string in E.
  rewrite E. reflexivity.
Qed.

(** The value of a pair whose text is a tag. *)
Lemma clean_value_tag k inner :
  all_chars plain inner = true ->
  all_chars (fun c => negb (Ascii.eqb c "<")) inner = true ->
  clean_value [k; "<bbox>" ++ inner ++ "</bbox>"]
  = "(" ++ replace " " "," inner ++ ")".
Proof.
  intros Hplain Hlt. unfold clean_value.
  set (v := "<bbox>" ++ inner ++ "</bbox>").
  assert (Hfirst : first_char v = Some "<"%char) by reflexivity.
  assert (Hlast : last_char v = Some ">"%char).
  { unfold v. apply last_char_app, last_char_app. reflexivity. }
  assert (Hstrip : strip v = v).
  { apply strip_with_id; intros c Hc.
    - rewrite Hfirst in Hc. injection Hc as <-. reflexivity.
    - rewrite Hlast in Hc. injection Hc as <-. reflexivity. }
  rewrite Hstrip.
  assert (Hq : strip_chars quote_chars v = v).
  { apply strip_with_id; intros c Hc; rewrite mem_quote_chars.
    - rewrite Hfirst in Hc. injection Hc as <-. reflexivity.
    - rewrite Hlast in Hc. injection Hc as <-. reflexivity. }
  rewrite Hq. unfold v at 1. rewrite contains_here.
  assert (Hopen : replace "<bbox>" "" v = inner ++ "</bbox>").
  { unfold replace, v.
    change ("<bbox>" ++ inner ++ "</bbox>")
      with (String "<" ("bbox>" ++ inner ++ "</bbox>")).
    rewrite replace_go_unfold.
    change (String "<" ("bbox>" ++ inner ++ "</bbox>"))
      with ("<bbox>" ++ inner ++ "</bbox>").
    rewrite prefix_app.
    change (String.length "<bbox>" - 1)%nat with (String.length "bbox>").
    rewrite replace_go_skip.
    rewrite (replace_go_pass "<" "bbox>" "" inner _ Hlt). reflexivity. }
  rewrite Hopen.
  assert (Hclose : replace "</bbox>" "" (inner ++ "</bbox>") = inner).
  { unfold replace.
    rewrite (replace_go_pass "<" "/bbox>" "" inner _ Hlt).
    change (replace_go "</bbox>" "" 0 "</bbox>") with "".
    apply app_nil_r_string. }
  rewrite Hclose. reflexivity.
Qed.

End TagValues.

(** X19: an argument whose value, between single quotes, is a bbox tag of
    four runs of digits with one blank between them is stored by
    [parse_action] as the tuple text of the four runs, with commas and
    between parentheses. *)
Theorem X19_tag_argument_becomes_a_tuple :
  forall name key g1 g2 g3 g4 : string,
    word name -> word key ->
    all_chars isdigit g1 = true -> all_chars isdigit g2 = true ->
    all_chars isdigit g3 = true -> all_chars isdigit g4 = true ->
    parse_action
      (name ++ "(" ++ key ++ "='" ++ bbox_text g1 " " g2 " " g3 " " g4 ++ "')")
    = Some (name,
            [(key, "(" ++ g1 ++ "," ++ g2 ++ "," ++ g3 ++ "," ++ g4 ++ ")")]).
Proof.
  intros name key g1 g2 g3 g4 Hname Hkey H1 H2 H3 H4.
  set (v := bbox_text g1 " " g2 " " g3 " " g4).
  assert (Hv : v = "<bbox>" ++ four_numbers g1 g2 g3 g4 ++ "</bbox>")
    by apply bbox_text_four.
  assert (Hraw : raw_args [(key, v)]).
  { apply Forall_cons; [|apply Forall_nil]. split; [exact Hkey|].
    split; [reflexivity|]. split.
    - simpl snd. rewrite Hv, !all_chars_app, four_numbers_plain by assumption.
      reflexivity.
    - intros c [= <-]. reflexivity. }
  assert (Htext : key ++ "='" ++ v ++ "')" = join_args [(key, v)] ++ ")").
  { rewrite join_args_cons, !app_assoc_string. reflexivity. }
  rewrite Htext.
  unfold parse_action, parse_action_body.
  rewrite (strip_call name _ Hname).
  rewrite (function_call_shape name _ Hname (proj1 (join_args_chars _ Hraw))).
  assert (Hstrip : strip (join_args [(key, v)]) = join_args [(key, v)]).
  { apply strip_with_id.
    - rewrite join_args_cons. destruct Hkey as [Hne Hall].
      destruct key as [|c key]; [discriminate|].
      simpl. intros d [= <-]. simpl in Hall. apply andb_true_iff in Hall.
      apply isword_not_special, Hall.
    - rewrite last_char_join_args. intros c [= <-]. reflexivity. }
  rewrite Hstrip.
  assert (Hne : is_empty (join_args [(key, v)]) = false).
  { destruct (join_args [(key, v)]) eqn:E; [|reflexivity].
    pose proof (last_char_join_args (key, v) []) as Hl. rewrite E in Hl.
    discriminate. }
  rewrite Hne, (tokenizer_join_args _ Hraw). unfold bind.
  simpl map. rewrite parse_pairs_cons.
  change (as_pair (key, v)) with (key ++ "=" ++ v).
  destruct Hkey as [Hkne Hkall].
  rewrite (split1_key_value key v Hkall). simpl hd. rewrite Hkne.
  rewrite (strip_word key Hkall), Hv.
  rewrite clean_value_tag.
  - rewrite replace_four by assumption. rewrite !app_assoc_string. reflexivity.
  - apply four_numbers_plain; assumption.
  - apply four_numbers_not; first [assumption | reflexivity].
Qed.

Lemma X19_tag_argument_becomes_a_tuple_witness :
  parse_action "click(start_box='<bbox>10 20 30 40</bbox>')"
  = Some ("click", [("start_box", "(10,20,30,40)")]).
Proof.
  apply (X19_tag_argument_becomes_a_tuple
           "click" "start_box" "10" "20" "30" "40");
    try reflexivity; split; reflexivity.
Defined.
